(** * Skill-evals runner: a shallow embedding of [src/runner.ts],
    [src/agent-runner.ts], [src/compare.ts] and [src/skill-loader.ts], and of
    the scripts [scripts/run-comparison.ts] and [scripts/concat-skill.mjs].

    Conventions.
    - JavaScript strings are [string]s of 8-bit code units (the Latin-1 part of
      UTF-16); the class [\s] is the part of ECMAScript's white space that
      lives there.
    - Integer-valued JavaScript numbers (trial counts, exit codes,
      milliseconds, token counts) are [Z]; the results of [/] and of [-] on
      rates are binary64 values, [float], as in JavaScript.
    - A promise that rejects or a call that throws is an [outcome] built with
      [Throws]; [await], [try]/[catch] and [finally] are the combinators of the
      monad [M], which also threads the list of external effects performed. *)

From Stdlib Require Import ZArith List Bool String Ascii Lia.
From Stdlib Require Import Floats Uint63 DecimalString DecimalZ DecimalPos.
Import ListNotations.

Open Scope string_scope.
Open Scope Z_scope.

(** ** JavaScript strings *)

Module JS.

(** The characters matched by [\s] (and removed by [String.prototype.trim]):
    TAB, LF, VT, FF, CR, SPACE and NBSP. *)
Definition is_space (c : ascii) : bool :=
  let n := nat_of_ascii c in
  ((9 <=? n) && (n <=? 13) || (n =? 32) || (n =? 160))%nat.

Definition LF : ascii := ascii_of_nat 10.
Definition CR : ascii := ascii_of_nat 13.

Definition is_LF (c : ascii) : bool := Ascii.eqb c LF.

(** Line terminators: the characters that [.] does not match. *)
Definition is_line_terminator (c : ascii) : bool :=
  Ascii.eqb c LF || Ascii.eqb c CR.

Definition nl : string := String LF EmptyString.

Fixpoint trimStart (s : string) : string :=
  match s with
  | EmptyString => EmptyString
  | String c s' => if is_space c then trimStart s' else s
  end.

Fixpoint rev_acc (s acc : string) : string :=
  match s with
  | EmptyString => acc
  | String c s' => rev_acc s' (String c acc)
  end.

Definition rev (s : string) : string := rev_acc s EmptyString.

Definition trimEnd (s : string) : string := rev (trimStart (rev s)).

(** [s.trim()] *)
Definition trim (s : string) : string := trimEnd (trimStart s).

(** [s.startsWith(p)] *)
Fixpoint startsWith (p s : string) : bool :=
  match p, s with
  | EmptyString, _ => true
  | String a p', String b s' => Ascii.eqb a b && startsWith p' s'
  | String _ _, EmptyString => false
  end.

(** [s.includes(p)] *)
Fixpoint includes (p s : string) : bool :=
  startsWith p s ||
  match s with
  | EmptyString => false
  | String _ s' => includes p s'
  end.

(** [s.split(sep)] for a one-character separator: never empty; [cur] is the
    piece being read. *)
Fixpoint split_acc (sep : ascii) (s cur : string) : list string :=
  match s with
  | EmptyString => [cur]
  | String c s' =>
      if Ascii.eqb c sep then cur :: split_acc sep s' EmptyString
      else split_acc sep s' (cur ++ String c EmptyString)
  end.

Definition split (sep : ascii) (s : string) : list string :=
  split_acc sep s EmptyString.

(** [l.join(sep)] *)
Fixpoint join (sep : string) (l : list string) : string :=
  match l with
  | [] => EmptyString
  | [x] => x
  | x :: rest => x ++ sep ++ join sep rest
  end.

Definition split_lines (s : string) : list string := split LF s.

Definition join_lines (l : list string) : string := join nl l.

(** The first [n] characters of [s]. *)
Fixpoint take (n : nat) (s : string) : string :=
  match n, s with
  | S n', String c s' => String c (take n' s')
  | _, _ => EmptyString
  end.

(** [String(z)] and [`${z}`] for an integer-valued number: decimal digits,
    with a leading [-] below zero. *)
Definition numToString (z : Z) : string :=
  NilZero.string_of_int (Z.to_int z).

(** An integer as a binary64 number (exact below 2^53, which every count
    here is). *)
Definition toNumber (z : Z) : float :=
  if z <? 0 then PrimFloat.opp (PrimFloat.of_uint63 (Uint63.of_Z (- z)))
  else PrimFloat.of_uint63 (Uint63.of_Z z).

(** Every character of [s] satisfies [p]. *)
Fixpoint all_chars (p : ascii -> bool) (s : string) : bool :=
  match s with
  | EmptyString => true
  | String c s' => p c && all_chars p s'
  end.

Definition is_digit (c : ascii) : bool :=
  let n := nat_of_ascii c in ((48 <=? n) && (n <=? 57))%nat.

(** Truthiness of a string: only the empty string is falsy. *)
Definition truthy (s : string) : bool :=
  match s with EmptyString => false | _ => true end.

End JS.

(** ** Regular expressions

    A backtracking matcher with ECMAScript's priorities: alternatives left to
    right, greedy quantifiers longest first, lazy ones shortest first, an
    iteration of a quantifier that consumes nothing is rejected, a lookahead
    keeps the captures of its first match and does not backtrack into it. *)

Module Regex.

Inductive regex : Type :=
| Eps : regex
| Chr : (ascii -> bool) -> regex          (* one character of a class *)
| Cat : regex -> regex -> regex
| Alt : regex -> regex -> regex
| Star : bool -> regex -> regex           (* [r*] when [true], [r*?] when [false] *)
| Grp : nat -> regex -> regex             (* capture group number [n] *)
| Ahead : regex -> regex                  (* [(?=r)] *)
| Bos : regex                             (* [^], no [m] flag *)
| Eos : regex.                            (* [$], no [m] flag *)

(** A position in the subject: [pos] characters consumed, [rest] to read. *)
Record mstate : Type := MState {
  pos : nat;
  rest : string;
  caps : list (nat * string)
}.

Definition advance (st : mstate) (s' : string) : mstate :=
  MState (S (pos st)) s' (caps st).

Definition set_cap (i : nat) (v : string) (st : mstate) : mstate :=
  MState (pos st) (rest st) ((i, v) :: caps st).

(** The last value captured by group [i], [None] when it did not take part. *)
Fixpoint cap_of (i : nat) (cs : list (nat * string)) : option string :=
  match cs with
  | [] => None
  | (j, v) :: cs' => if Nat.eqb i j then Some v else cap_of i cs'
  end.

Definition cont : Type := mstate -> option mstate.

(** The iterations of a quantifier whose body is matched by [step]: a greedy
    one tries one more iteration before the continuation, a lazy one the
    continuation first; an iteration that does not move is rejected.  [fuel]
    bounds the number of iterations and is never exhausted when it exceeds
    the length of the text left. *)
Fixpoint star_loop (greedy : bool) (step : mstate -> cont -> option mstate)
  (k : cont) (fuel : nat) (st : mstate) {struct fuel} : option mstate :=
  match fuel with
  | O => k st
  | S fuel' =>
      let again :=
        step st (fun st' =>
          if Nat.eqb (pos st') (pos st) then None
          else star_loop greedy step k fuel' st') in
      if greedy then
        match again with Some x => Some x | None => k st end
      else
        match k st with Some x => Some x | None => again end
  end.

Fixpoint run (r : regex) (st : mstate) (k : cont) {struct r} : option mstate :=
  match r with
  | Eps => k st
  | Chr p =>
      match rest st with
      | String c s' => if p c then k (advance st s') else None
      | EmptyString => None
      end
  | Cat a b => run a st (fun st' => run b st' k)
  | Alt a b =>
      match run a st k with
      | Some x => Some x
      | None => run b st k
      end
  | Star greedy a =>
      star_loop greedy (run a) k (S (String.length (rest st))) st
  | Grp i a =>
      run a st (fun st' =>
        k (set_cap i (JS.take (pos st' - pos st) (rest st)) st'))
  | Ahead a =>
      match run a st Some with
      | Some st' => k (MState (pos st) (rest st) (caps st'))
      | None => None
      end
  | Bos => if Nat.eqb (pos st) 0 then k st else None
  | Eos =>
      match rest st with
      | EmptyString => k st
      | String _ _ => None
      end
  end.

(** Derived forms. *)
Definition chr (c : ascii) : regex := Chr (Ascii.eqb c).

Fixpoint lit (s : string) : regex :=
  match s with
  | EmptyString => Eps
  | String c s' => Cat (chr c) (lit s')
  end.

Definition Opt (r : regex) : regex := Alt r Eps.              (* [r?] *)
Definition Plus (r : regex) : regex := Cat r (Star true r).   (* [r+] *)
Definition any : regex := Chr (fun _ => true).                (* [[\s\S]] *)
Definition space : regex := Chr JS.is_space.                  (* [\s] *)
Definition notLF : regex := Chr (fun c => negb (JS.is_LF c)). (* [[^\n]] *)
Definition dot : regex := Chr (fun c => negb (JS.is_line_terminator c)).

Fixpoint alts (l : list string) : regex :=
  match l with
  | [] => Eps
  | [s] => lit s
  | s :: l' => Alt (lit s) (alts l')
  end.

(** One successful match: where it starts, where it ends, what follows it
    and what the groups took. *)
Record rmatch : Type := RMatch {
  m_start : nat;
  m_end : nat;
  m_text : string;
  m_after : string;
  m_caps : list (nat * string)
}.

Definition match_here (r : regex) (p : nat) (s : string) : option rmatch :=
  match run r (MState p s []) Some with
  | Some st => Some (RMatch p (pos st) (JS.take (pos st - p) s) (rest st) (caps st))
  | None => None
  end.

(** [r.exec] from position [p], the subject from there on being [s]: the
    leftmost start at which [r] matches. *)
Fixpoint search (r : regex) (p : nat) (s : string) {struct s} : option rmatch :=
  match match_here r p s with
  | Some m => Some m
  | None =>
      match s with
      | EmptyString => None
      | String _ s' => search r (S p) s'
      end
  end.

(** [r.test(s)] *)
Definition test (r : regex) (s : string) : bool :=
  match search r 0 s with Some _ => true | None => false end.

(** The successive results of [r.exec(s)] for a regular expression with the
    [g] flag whose matches are never empty: each search resumes where the
    previous match ended. *)
Fixpoint exec_all (fuel : nat) (r : regex) (p : nat) (s : string) : list rmatch :=
  match fuel with
  | O => []
  | S fuel' =>
      match search r p s with
      | Some m => (m :: exec_all fuel' r (m_end m) (m_after m))%list
      | None => []
      end
  end.

(** [s.replace(r, "")] for a regular expression anchored with [^]. *)
Definition remove_prefix (r : regex) (s : string) : string :=
  match match_here r 0 s with
  | Some m => m_after m
  | None => s
  end.

End Regex.

(** ** [Map] with string keys

    Entries in insertion order; [set] on a key already present replaces its
    value where it stands, as JavaScript's [Map] does. *)

Module JSMap.

Definition t (V : Type) : Type := list (string * V).

Fixpoint set {V} (k : string) (v : V) (m : t V) : t V :=
  match m with
  | [] => [(k, v)]
  | (k', v') :: m' =>
      if String.eqb k k' then (k, v) :: m' else (k', v') :: set k v m'
  end.

Fixpoint get {V} (k : string) (m : t V) : option V :=
  match m with
  | [] => None
  | (k', v') :: m' => if String.eqb k k' then Some v' else get k m'
  end.

Definition size {V} (m : t V) : nat := List.length m.

(** [new Map(entries)] *)
Definition of_entries {V} (entries : list (string * V)) : t V :=
  fold_left (fun m kv => set (fst kv) (snd kv) m) entries [].

End JSMap.

(** ** Output extractor ([parseGeneratedFiles]) *)

Module Extractor.
Import Regex.

Notation "a ;; b" := (Cat a b) (at level 61, right associativity).

Definition FileMap : Type := JSMap.t string.

Definition map_set : string -> string -> FileMap -> FileMap := JSMap.set.

Definition map_size : FileMap -> nat := JSMap.size.

Definition fence : string := "```".

Definition languages : list string :=
  ["typescript"; "ts"; "javascript"; "js"].

(** [/```(?:typescript|ts|javascript|js)?\n(?:\/\/\s*([^\n]+)\n)?([\s\S]*?)\n```(?=\s*\n|$)/g] *)
Definition codeBlockRegex : regex :=
  lit fence ;; Opt (alts languages) ;; chr JS.LF ;;
  Opt (lit "//" ;; Star true space ;; Grp 1 (Plus notLF) ;; chr JS.LF) ;;
  Grp 2 (Star false any) ;;
  chr JS.LF ;; lit fence ;;
  Ahead (Alt (Star true space ;; chr JS.LF) Eos).

(** [/^\//] *)
Definition leadingSlash : regex := Bos ;; chr "/".

(** [/^```(typescript|ts|javascript|js)?$/] *)
Definition fenceOpenLine : regex :=
  Bos ;; lit fence ;; Opt (Grp 1 (alts languages)) ;; Eos.

(** [/^```/] *)
Definition fenceAtLineStart : regex := Bos ;; lit fence.

(** [/^\/\/\s*.+\.(ts|js|tsx|jsx)$/] *)
Definition filenameCommentLine : regex :=
  Bos ;; lit "//" ;; Star true space ;; Plus dot ;; chr "." ;;
  Grp 1 (alts ["ts"; "js"; "tsx"; "jsx"]) ;; Eos.

(** [/^\/\/\s*/] *)
Definition commentPrefix : regex := Bos ;; lit "//" ;; Star true space.

(** [/^\s*\*\s*```/] *)
Definition jsdocFence : regex :=
  Bos ;; Star true space ;; chr "*" ;; Star true space ;; lit fence.

(** [/^\s+```/] *)
Definition indentedFence : regex := Bos ;; Plus space ;; lit fence.

(** The body of the [while] loop of [parseGeneratedFiles] for one match. *)
Definition record_match (files : FileMap) (m : rmatch) : FileMap :=
  match cap_of 1 (m_caps m), cap_of 2 (m_caps m) with
  | Some filename, Some content =>
      if JS.truthy filename && JS.truthy content then
        let cleanFilename := remove_prefix leadingSlash (JS.trim filename) in
        map_set cleanFilename (JS.trim content) files
      else files
  | _, _ => files
  end.

(** The first pass: every match of [codeBlockRegex], left to right. *)
Definition primaryPass (response : string) : FileMap :=
  fold_left record_match
    (exec_all (S (String.length response)) codeBlockRegex 0 response) [].

(** The variables of [extractCodeBlocksWithNestedBackticks]. *)
Record scan : Type := Scan {
  files : FileMap;
  inCodeBlock : bool;
  codeBlockContent : list string;
  filename : option string;
  nestingDepth : Z
}.

Definition scan0 : scan := Scan [] false [] None 0.

(** What a closing fence does with the block read so far. *)
Definition close_block (st : scan) : FileMap :=
  match filename st with
  | Some f =>
      if JS.truthy f && (0 <? Z.of_nat (List.length (codeBlockContent st))) then
        map_set (remove_prefix leadingSlash f)
          (JS.trim (JS.join_lines (codeBlockContent st))) (files st)
      else files st
  | None => files st
  end.

(** One iteration of [for (const line of lines)]. *)
Definition scan_line (st : scan) (line : string) : scan :=
  let trimmedLine := JS.trim line in
  if negb (inCodeBlock st) then
    if test fenceOpenLine trimmedLine && test fenceAtLineStart line then
      Scan (files st) true [] None 0
    else st
  else if (Nat.eqb (List.length (codeBlockContent st)) 0)
          && test filenameCommentLine line then
    Scan (files st) true (codeBlockContent st)
      (Some (JS.trim (remove_prefix commentPrefix line))) (nestingDepth st)
  else if test jsdocFence line || test indentedFence line then
    let depth :=
      if JS.includes fence line && negb (test fenceAtLineStart line) then
        (if 0 <? nestingDepth st then 0 else 1)
      else nestingDepth st in
    Scan (files st) true (codeBlockContent st ++ [line])%list (filename st) depth
  else if String.eqb trimmedLine fence && test fenceAtLineStart line
          && (nestingDepth st =? 0) then
    Scan (close_block st) false (codeBlockContent st) (filename st)
      (nestingDepth st)
  else
    Scan (files st) true (codeBlockContent st ++ [line])%list (filename st)
      (nestingDepth st).

Definition extractCodeBlocksWithNestedBackticks (response : string) : FileMap :=
  files (fold_left scan_line (JS.split_lines response) scan0).

(** [parseGeneratedFiles]: the second pass runs when the first found nothing,
    and its entries are then copied into the (empty) result. *)
Definition parseGeneratedFiles (response : string) : FileMap :=
  let files := primaryPass response in
  if Nat.eqb (map_size files) 0 then
    fold_left (fun acc kv => map_set (fst kv) (snd kv) acc)
      (extractCodeBlocksWithNestedBackticks response) files
  else files.

End Extractor.

(** ** The data model of [types.ts]

    One module per interface, so that the fields keep their names. *)

Module Usage.
(** Token counts are numbers as they come from the model or from the agent's
    output: nothing keeps them from being negative. *)
Record t : Type := Make { inputTokens : Z; outputTokens : Z }.
End Usage.

Inductive ExecutionMode : Type := sdk | agent.

Module AgentConfig.
Record t : Type := Make {
  command : string;
  args : option (list string);
  earlyExit : option bool
}.
End AgentConfig.

Module ExperimentConfig.
Record t : Type := Make {
  name : string;
  description : string;
  model : string;
  runs : Z;
  timeout : Z;
  skill : option string;
  evals : list string;
  executionMode : option ExecutionMode;
  agent : option AgentConfig.t
}.
End ExperimentConfig.

(** The raw [frontmatter] object is left out: the runner reads the four
    fields below only. *)
Module SkillDefinition.
Record t : Type := Make {
  name : string;
  description : string;
  version : option string;
  content : string
}.
End SkillDefinition.

Module EvalDefinition.
Record t : Type := Make {
  name : string;
  path : string;
  prompt : string;
  evalFile : string
}.
End EvalDefinition.

(** [testDetails] is left out: no function of the runner assigns it. *)
Module RunResult.
Record t : Type := Make {
  runNumber : Z;
  passed : bool;
  testsPassed : Z;
  testsTotal : Z;
  durationMs : Z;
  error : option string;
  agentOutput : option string;
  generatedFiles : option (list string);
  usage : option Usage.t
}.
End RunResult.

Module EvalResult.
Record t : Type := Make {
  evalName : string;
  totalRuns : Z;
  passedRuns : Z;
  passRate : float;
  runs : list RunResult.t;
  avgDurationMs : float;
  totalUsage : option Usage.t
}.
End EvalResult.

Module ExperimentResult.
Record t : Type := Make {
  experimentName : string;
  config : ExperimentConfig.t;
  startedAt : string;
  completedAt : string;
  totalDurationMs : Z;
  evalResults : list EvalResult.t;
  overallPassRate : float;
  totalUsage : option Usage.t
}.
End ExperimentResult.

Module EvalComparison.
Record t : Type := Make {
  evalName : string;
  baselinePassRate : float;
  withSkillPassRate : float;
  improvement : float;
  baselineRuns : Z;
  withSkillRuns : Z
}.
End EvalComparison.

Module ComparisonResult.
Record t : Type := Make {
  baseline : ExperimentResult.t;
  withSkill : ExperimentResult.t;
  evalComparisons : list EvalComparison.t;
  overallImprovement : float
}.
End ComparisonResult.

(** ** Promises and external effects *)

(** How an [await]ed call ends: with a value, with an exception (kept as its
    message, which is all the callers read), or never. *)
Inductive outcome (A : Type) : Type :=
| Returns : A -> outcome A
| Throws : string -> outcome A
| Never : outcome A.

Arguments Returns {A} _.
Arguments Throws {A} _.
Arguments Never {A}.

(** The calls that leave the process, in the order they are made. *)
Inductive effect : Type :=
| ReadSkill : string -> effect               (* [loadSkill] *)
| DiscoverEvals : string -> effect           (* [discoverEvals] *)
| Mkdir : string -> effect                   (* [createWorkspace] *)
| RemoveDir : string -> effect               (* [cleanupWorkspace] *)
| CopyStarterFiles : string -> string -> effect
| CopySkillFile : string -> string -> effect
| WritePromptFile : string -> string -> effect
| CallClaudeAPI : string -> string -> Z -> effect
| WriteFile : string -> string -> effect     (* [writeFile] in a workspace *)
| RunVitest : string -> string -> effect     (* [runEvalTests] *)
| SpawnAgent : string -> string -> effect    (* [executeAgent] *)
| ListWorkspace : string -> effect           (* [listGeneratedFiles] *)
| Progress : Z -> Z -> effect.               (* [onProgress] *)

(** A computation: the outcome it ends in and the effects it performed. *)
Definition M (A : Type) : Type := (outcome A * list effect)%type.

Definition ret {A} (a : A) : M A := (Returns a, []).

Definition throw {A} (msg : string) : M A := (Throws msg, []).

Definition bind {A B} (m : M A) (f : A -> M B) : M B :=
  match m with
  | (Returns a, log) => let r := f a in (fst r, (log ++ snd r)%list)
  | (Throws msg, log) => (Throws msg, log)
  | (Never, log) => (Never, log)
  end.

(** An external call: logged, and answered by the environment. *)
Definition perform {A} (e : effect) (answer : outcome A) : M A :=
  (answer, [e]).

(** [try { m } catch (error) { handler(message of error) }] *)
Definition try_catch {A} (m : M A) (handler : string -> M A) : M A :=
  match m with
  | (Throws msg, log) => let r := handler msg in (fst r, (log ++ snd r)%list)
  | r => r
  end.

(** A [try] block as its [catch] block sees it: the value it ended with, or
    the message of the exception that ended it. *)
Definition settled {A} (m : M A) : M (A + string) :=
  match m with
  | (Returns a, log) => (Returns (inl a), log)
  | (Throws msg, log) => (Returns (inr msg), log)
  | (Never, log) => (Never, log)
  end.

(** [try { m } finally { cleanup }], for a [cleanup] that does not throw. *)
Definition finally {A} (m : M A) (cleanup : M unit) : M A :=
  match m with
  | (Never, log) => (Never, log)
  | (r, log) => (r, (log ++ snd cleanup)%list)
  end.

Notation "x <- m ;; k" := (bind m (fun x => k))
  (at level 62, m at level 61, right associativity).
Notation "m ;;; k" := (bind m (fun _ => k))
  (at level 62, right associativity).

(** ** [path.join] (POSIX) *)

Module Path.

Definition slash : ascii := "/"%char.

Fixpoint last_char (s : string) : option ascii :=
  match s with
  | EmptyString => None
  | String c EmptyString => Some c
  | String _ s' => last_char s'
  end.

Definition isAbsolute (p : string) : bool :=
  match p with
  | String c _ => Ascii.eqb c slash
  | EmptyString => false
  end.

Definition hasTrailingSeparator (p : string) : bool :=
  match last_char p with
  | Some c => Ascii.eqb c slash
  | None => false
  end.

(** One segment against the segments kept so far (innermost last): empty
    segments and [.] vanish, [..] removes the segment before it. *)
Definition push_segment (allowAboveRoot : bool) (kept : list string)
  (seg : string) : list string :=
  if String.eqb seg "" || String.eqb seg "." then kept
  else if String.eqb seg ".." then
    match List.rev kept with
    | [] => if allowAboveRoot then [".."] else []
    | top :: below =>
        if String.eqb top ".." then
          (if allowAboveRoot then kept ++ [".."] else kept)%list
        else List.rev below
    end
  else (kept ++ [seg])%list.

Definition normalizeString (p : string) (allowAboveRoot : bool) : string :=
  JS.join "/" (fold_left (push_segment allowAboveRoot) (JS.split slash p) []).

Definition normalize (p : string) : string :=
  match p with
  | EmptyString => "."
  | _ =>
      let q := normalizeString p (negb (isAbsolute p)) in
      match q with
      | EmptyString =>
          if isAbsolute p then "/"
          else if hasTrailingSeparator p then "./" else "."
      | _ =>
          let q' := if hasTrailingSeparator p then q ++ "/" else q in
          if isAbsolute p then "/" ++ q' else q'
      end
  end.

(** [join(...parts)]: the non-empty parts, separated by [/], normalized. *)
Definition join (parts : list string) : string :=
  match filter JS.truthy parts with
  | [] => "."
  | l => normalize (JS.join "/" l)
  end.

End Path.

(** ** Check runner ([runEvalTests]) *)

Module CheckRunner.
Import Regex.

(** The part of vitest's JSON report that is read. *)
Record VitestReport : Type := Report {
  numPassedTests : option Z;
  numTotalTests : option Z;
  success : option bool
}.

(** What happens to one [npx vitest run]: the files could not be copied, the
    process could not be spawned (['error']), or it closed with an exit code
    ([None] for [null], a process ended by a signal). *)
Inductive VitestRun : Type :=
| CopyFails : string -> VitestRun
| SpawnError : string -> VitestRun
| Closed : option Z -> string -> string -> VitestRun.

Record TestResult : Type := Result {
  passed : bool;
  testsPassed : Z;
  testsTotal : Z;
  output : string
}.

Definition dquote : string := String (ascii_of_nat 34) EmptyString.

(** [/\{[\s\S]*"testResults"[\s\S]*\}/] *)
Definition reportRegex : regex :=
  Cat (chr "{") (Cat (Star true any)
    (Cat (lit (dquote ++ "testResults" ++ dquote))
      (Cat (Star true any) (chr "}")))).

(** [code === 0] *)
Definition isZero (code : option Z) : bool :=
  match code with
  | Some c => c =? 0
  | None => false
  end.

(** [a ?? b] *)
Definition nullish {A} (a : option A) (b : A) : A :=
  match a with
  | Some x => x
  | None => b
  end.

(** The fallback after the [try] block: the exit code alone. *)
Definition byExitCode (code : option Z) (stdout stderr : string) : TestResult :=
  Result (isZero code) (if isZero code then 1 else 0) 1 (stdout ++ stderr).

(** The ['close'] handler; [JSON_parse] is [None] where [JSON.parse] throws. *)
Definition onClose (JSON_parse : string -> option VitestReport)
  (code : option Z) (stdout stderr : string) : TestResult :=
  match search reportRegex 0 stdout with
  | Some jsonMatch =>
      match JSON_parse (m_text jsonMatch) with
      | Some result =>
          Result (nullish (success result) (isZero code))
            (nullish (numPassedTests result) 0)
            (nullish (numTotalTests result) 0)
            (stdout ++ stderr)
      | None => byExitCode code stdout stderr
      end
  | None => byExitCode code stdout stderr
  end.

(** The value the promise of [runEvalTests] resolves with; it never rejects. *)
Definition settle (JSON_parse : string -> option VitestReport)
  (run : VitestRun) : TestResult :=
  match run with
  | CopyFails msg => Result false 0 1 ("Failed to copy eval file: " ++ msg)
  | SpawnError msg => Result false 0 1 msg
  | Closed code stdout stderr => onClose JSON_parse code stdout stderr
  end.

End CheckRunner.

(** ** Agent-session strategy ([agent-runner.ts]) *)

Module Agent.

Record AgentExecutionResult : Type := Result {
  exitCode : Z;
  stdout : string;
  stderr : string;
  success : bool;
  usage : option Usage.t
}.

(** The token counters looked for in the agent's JSON output, under either
    spelling. *)
Record TokenCounts : Type := Counts {
  input_tokens : option Z;
  inputTokens : option Z;
  output_tokens : option Z;
  outputTokens : option Z
}.

Record AgentJson : Type := Json {
  json_usage : option TokenCounts;
  json_stats : option TokenCounts
}.

Definition usageOf (c : TokenCounts) : Usage.t :=
  Usage.Make
    (CheckRunner.nullish (input_tokens c) (CheckRunner.nullish (inputTokens c) 0))
    (CheckRunner.nullish (output_tokens c) (CheckRunner.nullish (outputTokens c) 0)).

(** The [try] block of the ['close'] handler; [parsed] is [None] where
    [JSON.parse(stdout)] throws. *)
Definition parseUsage (parsed : option AgentJson) : option Usage.t :=
  match parsed with
  | Some jsonOutput =>
      match json_usage jsonOutput with
      | Some c => Some (usageOf c)
      | None =>
          match json_stats jsonOutput with
          | Some c => Some (usageOf c)
          | None => None
          end
      end
  | None => None
  end.

Inductive signal : Type := SIGTERM | SIGKILL.

(** How the spawned program behaves, times in milliseconds since the spawn.
    A program that handles SIGTERM exits with a code of its own; one that the
    signal ends closes with the code [null], here [None]. *)
Record AgentProgram : Type := Program {
  spawnError : option string;     (* the ['error'] event, with its message *)
  exitsAt : option (Z * Z);       (* exits by itself: when, with which code *)
  onSIGTERM : option (Z * option Z);
                                  (* ends this long after a SIGTERM, with this code;
                                     [None]: ignores the signal *)
  onSIGKILL : Z;                  (* is gone this long after a SIGKILL *)
  written_stdout : string;
  written_stderr : string;
  parsed_stdout : option AgentJson
}.

(** The delay Node's [setTimeout] arms a timer with: one above 2147483647 or
    below 1 is replaced by 1. *)
Definition timerDelay (ms : Z) : Z :=
  if (1 <=? ms) && (ms <=? 2147483647) then ms else 1.

(** The state of the event loop around one [executeAgent] call.  [killed] is
    Node's [ChildProcess.killed]: set by [kill()] once a signal has been
    delivered; it says nothing about the process having ended. *)
Record loop : Type := Loop {
  clock : Z;
  timedOut : bool;
  killed : bool;
  running : bool;
  timeoutTimer : option Z;
  graceTimer : option Z;
  closeEvent : option (Z * option Z);
  signals : list (Z * signal);
  resolved : option AgentExecutionResult
}.

(** The program's end, when a signal brings it forward: at [due], with the
    code [ended], unless it exits by itself before. *)
Definition sooner (due : Z) (ended : option Z) (ev : option (Z * option Z))
  : option (Z * option Z) :=
  match ev with
  | Some (t, code) => if t <=? due then Some (t, code) else Some (due, ended)
  | None => Some (due, ended)
  end.

(** [agent.kill(sig)]: nothing to signal once the process is gone;
    otherwise the signal is delivered and [killed] becomes [true]. *)
Definition kill (prog : AgentProgram) (sig : signal) (st : loop) : loop :=
  if running st then
    let ev :=
      match sig with
      | SIGTERM =>
          match onSIGTERM prog with
          | Some (d, code) => sooner (clock st + d) code (closeEvent st)
          | None => closeEvent st
          end
      | SIGKILL => sooner (clock st + onSIGKILL prog) None (closeEvent st)
      end in
    Loop (clock st) (timedOut st) true (running st) (timeoutTimer st)
      (graceTimer st) ev ((signals st ++ [(clock st, sig)])%list) (resolved st)
  else st.

(** The callback of the outer [setTimeout]. *)
Definition onTimeout (prog : AgentProgram) (st : loop) : loop :=
  let st1 :=
    Loop (clock st) true (killed st) (running st) None (graceTimer st)
      (closeEvent st) (signals st) (resolved st) in
  let st2 := kill prog SIGTERM st1 in
  Loop (clock st2) (timedOut st2) (killed st2) (running st2) (timeoutTimer st2)
    (Some (clock st2 + timerDelay 5000)) (closeEvent st2) (signals st2)
    (resolved st2).

(** The callback of the inner [setTimeout]. *)
Definition onGrace (prog : AgentProgram) (st : loop) : loop :=
  let st1 :=
    Loop (clock st) (timedOut st) (killed st) (running st) (timeoutTimer st)
      None (closeEvent st) (signals st) (resolved st) in
  if negb (killed st1) then kill prog SIGKILL st1 else st1.

(** The ['close'] handler: [clearTimeout], then the promise is resolved. *)
Definition onClose (prog : AgentProgram) (code : option Z) (st : loop) : loop :=
  let usage := parseUsage (parsed_stdout prog) in
  let result :=
    if timedOut st then
      Result (CheckRunner.nullish code 1) (written_stdout prog)
        (written_stderr prog ++ JS.nl ++ "[Agent timed out]") false usage
    else
      Result (CheckRunner.nullish code 0) (written_stdout prog)
        (written_stderr prog) (CheckRunner.isZero code) usage in
  Loop (clock st) (timedOut st) (killed st) false None (graceTimer st) None
    (signals st)
    (match resolved st with Some r => Some r | None => Some result end).

Inductive event : Type := TimeoutFires | GraceFires | Closes (code : option Z).

(** The next thing to happen and when: the earliest of the pending timers and
    of the program's end; at equal times timers run first. *)
Definition next_event (st : loop) : option (Z * event) :=
  let candidates :=
    (match timeoutTimer st with Some t => [(t, TimeoutFires)] | None => [] end ++
     match graceTimer st with Some t => [(t, GraceFires)] | None => [] end ++
     match closeEvent st with Some (t, c) => [(t, Closes c)] | None => [] end)%list in
  fold_left
    (fun best cand =>
       match best with
       | None => Some cand
       | Some (t, _) => if fst cand <? t then Some cand else best
       end) candidates None.

Definition at_time (t : Z) (st : loop) : loop :=
  Loop (Z.max t (clock st)) (timedOut st) (killed st) (running st)
    (timeoutTimer st) (graceTimer st) (closeEvent st) (signals st) (resolved st).

Definition step (prog : AgentProgram) (st : loop) : option loop :=
  match next_event st with
  | None => None
  | Some (t, TimeoutFires) => Some (onTimeout prog (at_time t st))
  | Some (t, GraceFires) => Some (onGrace prog (at_time t st))
  | Some (t, Closes code) => Some (onClose prog code (at_time t st))
  end.

(** The loop runs until nothing is pending. *)
Fixpoint run_loop (fuel : nat) (prog : AgentProgram) (st : loop) : loop :=
  match fuel with
  | O => st
  | S fuel' =>
      match step prog st with
      | Some st' => run_loop fuel' prog st'
      | None => st
      end
  end.

(** Right after [spawn] and [setTimeout(..., timeout * 1000)]. *)
Definition spawned (prog : AgentProgram) (timeout : Z) : loop :=
  Loop 0 false false true (Some (timerDelay (timeout * 1000))) None
    (match exitsAt prog with Some (t, c) => Some (t, Some c) | None => None end)
    [] None.

(** Everything that happens around one agent process.  Three events at most
    are ever pending and none is re-armed, so eight steps exhaust them. *)
Definition timeline (prog : AgentProgram) (timeout : Z) : loop :=
  run_loop 8 prog (spawned prog timeout).

(** [executeAgent]: the value the promise resolves with, [None] when it
    never settles. *)
Definition executeAgent (config : ExperimentConfig.t) (prog : AgentProgram)
  (timeout : Z) : option AgentExecutionResult :=
  match ExperimentConfig.agent config with
  | None => Some (Result 1 "" "Agent configuration is missing" false None)
  | Some _ =>
      match spawnError prog with
      | Some msg =>
          Some (Result 1 (written_stdout prog)
                  (written_stderr prog ++ JS.nl ++ msg) false None)
      | None => resolved (timeline prog timeout)
      end
  end.

End Agent.

(** ** The environment of one trial *)

Module World.

(** Everything outside the process that one trial meets: the clock, the file
    system, the model, the agent program, the test runner and the progress
    callback.  The callback is the caller's: what it does with a result may
    differ from one call to the next, so each of its two call sites has its
    own answer. *)
Record t : Type := Make {
  now : Z;                                     (* [Date.now()] when the trial starts *)
  elapsed : Z;                                 (* [Date.now() - startTime] at its end *)
  mkdirWorkspace : outcome unit;
  copyStarter : outcome unit;
  claude : outcome (string * Usage.t);         (* [callClaudeAPI], its time-out included *)
  writeFile : string -> outcome unit;
  skillExists : bool;
  copySkill : outcome unit;
  writePrompt : outcome unit;
  program : Agent.AgentProgram;
  listFiles : outcome (list string);
  vitest : CheckRunner.VitestRun;
  JSON_parse : string -> option CheckRunner.VitestReport;
  onProgress : RunResult.t -> outcome unit;        (* the callback, called in the [try] block *)
  onProgressCaught : RunResult.t -> outcome unit   (* the callback, called in the [catch] block *)
}.

End World.

(** ** Trial and experiment orchestration ([runner.ts]) *)

Module Runner.

Definition NO_FILES : string := "No files were generated by the agent".

(** [createWorkspace] *)
Definition createWorkspace (w : World.t) (baseDir runId : string) : M string :=
  let workspaceDir := Path.join [baseDir; ".workspaces"; runId] in
  perform (Mkdir workspaceDir) (World.mkdirWorkspace w) ;;;
  ret workspaceDir.

(** [cleanupWorkspace]: whatever [rm] does is swallowed. *)
Definition cleanupWorkspace (workspaceDir : string) : M unit :=
  perform (RemoveDir workspaceDir) (Returns tt).

(** [formatSkillAsPrompt] and [augmentPromptWithSkill] of [skill-loader.ts]. *)
Definition formatSkillAsPrompt (skill : SkillDefinition.t) : string :=
  JS.trim
    (JS.nl ++ "## Skill: " ++ SkillDefinition.name skill ++ JS.nl ++ JS.nl ++
     (if JS.truthy (SkillDefinition.description skill)
      then "**Description:** " ++ SkillDefinition.description skill ++ JS.nl
      else "") ++ JS.nl ++
     SkillDefinition.content skill ++ JS.nl).

Definition augmentPromptWithSkill (basePrompt : string)
  (skill : SkillDefinition.t) : string :=
  formatSkillAsPrompt skill ++ JS.nl ++ JS.nl ++ "---" ++ JS.nl ++ JS.nl ++
  "# Task" ++ JS.nl ++ JS.nl ++ basePrompt.

(** [writeGeneratedFiles]: one write per entry, in order; the first failure
    propagates. *)
Fixpoint writeGeneratedFiles (w : World.t) (workspaceDir : string)
  (files : Extractor.FileMap) : M (list string) :=
  match files with
  | [] => ret []
  | (filename, content) :: rest =>
      let filePath := Path.join [workspaceDir; filename] in
      perform (WriteFile filePath content) (World.writeFile w filePath) ;;;
      written <- writeGeneratedFiles w workspaceDir rest ;;
      ret (filename :: written)%list
  end.

(** [runEvalTests] *)
Definition runEvalTests (w : World.t) (workspaceDir evalFile : string)
  : M CheckRunner.TestResult :=
  perform (RunVitest workspaceDir evalFile)
    (Returns (CheckRunner.settle (World.JSON_parse w) (World.vitest w))).

(** [runSDKEval] *)
Definition runSDKEval (w : World.t) (evalDef : EvalDefinition.t)
  (config : ExperimentConfig.t) (skill : option SkillDefinition.t)
  (workspaceDir : string) (runNumber : Z) : M (RunResult.t * Usage.t) :=
  perform (CopyStarterFiles (EvalDefinition.path evalDef) workspaceDir)
    (World.copyStarter w) ;;;
  let prompt :=
    match skill with
    | Some sk => augmentPromptWithSkill (EvalDefinition.prompt evalDef) sk
    | None => EvalDefinition.prompt evalDef
    end in
  reply <- perform
    (CallClaudeAPI (ExperimentConfig.model config) prompt
       (ExperimentConfig.timeout config)) (World.claude w) ;;
  let response := fst reply in
  let usage := snd reply in
  let generatedFiles := Extractor.parseGeneratedFiles response in
  writtenFiles <- writeGeneratedFiles w workspaceDir generatedFiles ;;
  if Nat.eqb (List.length writtenFiles) 0 then
    ret (RunResult.Make runNumber false 0 1 (World.elapsed w) (Some NO_FILES)
           (Some response) (Some []) (Some usage), usage)
  else
    testResult <- runEvalTests w workspaceDir (EvalDefinition.evalFile evalDef) ;;
    ret (RunResult.Make runNumber
           (CheckRunner.passed testResult)
           (CheckRunner.testsPassed testResult)
           (CheckRunner.testsTotal testResult)
           (World.elapsed w)
           (if CheckRunner.passed testResult then None
            else Some (CheckRunner.output testResult))
           (Some response) (Some writtenFiles) (Some usage), usage).

(** [executeAgent] as an awaited call: pending for ever when the promise is
    never resolved. *)
Definition awaitAgent (w : World.t) (config : ExperimentConfig.t)
  (workspaceDir : string) : M Agent.AgentExecutionResult :=
  perform
    (SpawnAgent
       (match ExperimentConfig.agent config with
        | Some a => AgentConfig.command a
        | None => ""
        end) workspaceDir)
    (match Agent.executeAgent config (World.program w)
             (ExperimentConfig.timeout config) with
     | Some r => Returns r
     | None => Never
     end).

(** [!!config.skill] *)
Definition hasSkill (config : ExperimentConfig.t) : bool :=
  match ExperimentConfig.skill config with
  | Some p => JS.truthy p
  | None => false
  end.

(** The text [writePromptFile] writes to [PROMPT.md]. *)
Definition finalPrompt (prompt : string) (withSkill : bool) : string :=
  if withSkill then
    "# Instructions" ++ JS.nl ++ JS.nl ++
    "Before completing the task below, read the `SKILL.md` file in this directory. It contains guidelines and best practices that you MUST follow when implementing the solution." ++
    JS.nl ++ JS.nl ++ "---" ++ JS.nl ++ JS.nl ++ prompt
  else prompt.

(** [runAgentEval] *)
Definition runAgentEval (w : World.t) (evalDef : EvalDefinition.t)
  (config : ExperimentConfig.t) (workspaceDir : string) (runNumber : Z)
  : M RunResult.t :=
  try_catch
    (perform (CopyStarterFiles (EvalDefinition.path evalDef) workspaceDir)
       (World.copyStarter w) ;;;
     (if hasSkill config && World.skillExists w then
        perform
          (CopySkillFile
             (match ExperimentConfig.skill config with Some p => p | None => "" end)
             workspaceDir) (World.copySkill w)
      else ret tt) ;;;
     perform
       (WritePromptFile workspaceDir
          (finalPrompt (EvalDefinition.prompt evalDef) (hasSkill config)))
       (World.writePrompt w) ;;;
     agentResult <- awaitAgent w config workspaceDir ;;
     generatedFiles <- perform (ListWorkspace workspaceDir) (World.listFiles w) ;;
     ret (RunResult.Make runNumber false 0 0 (World.elapsed w)
            (if Agent.success agentResult then None
             else Some ("Agent exited with code " ++
                        JS.numToString (Agent.exitCode agentResult)))
            (Some (Agent.stdout agentResult ++
                   (if JS.truthy (Agent.stderr agentResult)
                    then JS.nl ++ JS.nl ++ "STDERR:" ++ JS.nl ++ Agent.stderr agentResult
                    else "")))
            (Some generatedFiles)
            (Agent.usage agentResult)))
    (fun message =>
       ret (RunResult.Make runNumber false 0 0 (World.elapsed w) (Some message)
              None (Some []) None)).

(** The variables of [runEval] that the loop updates. *)
Record progress : Type := Acc {
  acc_runs : list RunResult.t;
  acc_usage : Usage.t
}.

(** [totalUsage.inputTokens += u.inputTokens] and its twin, when [u] is there. *)
Definition add_usage (total : Usage.t) (u : option Usage.t) : Usage.t :=
  match u with
  | Some u =>
      Usage.Make (Usage.inputTokens total + Usage.inputTokens u)
        (Usage.outputTokens total + Usage.outputTokens u)
  | None => total
  end.

(** [isAgentMode] *)
Definition isAgentMode (config : ExperimentConfig.t) : bool :=
  match ExperimentConfig.executionMode config with
  | Some agent => true
  | _ => false
  end.

(** The agent branch of the [try] block of [runEval]: the result to push and
    the usage to add to the total. *)
Definition agentTrial (w : World.t) (evalDef : EvalDefinition.t)
  (config : ExperimentConfig.t) (workspaceDir : string) (i : Z)
  : M (RunResult.t * option Usage.t) :=
  agentResult <- runAgentEval w evalDef config workspaceDir i ;;
  result <-
    (match RunResult.generatedFiles agentResult with
     | Some (_ :: _) =>
         testResult <- runEvalTests w workspaceDir (EvalDefinition.evalFile evalDef) ;;
         ret (RunResult.Make
                (RunResult.runNumber agentResult)
                (CheckRunner.passed testResult)
                (CheckRunner.testsPassed testResult)
                (CheckRunner.testsTotal testResult)
                (RunResult.durationMs agentResult)
                (if CheckRunner.passed testResult
                 then RunResult.error agentResult
                 else Some (CheckRunner.output testResult))
                (RunResult.agentOutput agentResult)
                (RunResult.generatedFiles agentResult)
                (RunResult.usage agentResult))
     | _ =>
         ret (RunResult.Make
                (RunResult.runNumber agentResult)
                (RunResult.passed agentResult)
                (RunResult.testsPassed agentResult)
                (RunResult.testsTotal agentResult)
                (RunResult.durationMs agentResult)
                (Some (CheckRunner.nullish (RunResult.error agentResult) NO_FILES))
                (RunResult.agentOutput agentResult)
                (RunResult.generatedFiles agentResult)
                (RunResult.usage agentResult))
     end) ;;
  ret (result, RunResult.usage agentResult).

(** The SDK branch; [client] tells whether an Anthropic client was given. *)
Definition sdkTrial (w : World.t) (client : bool) (evalDef : EvalDefinition.t)
  (config : ExperimentConfig.t) (skill : option SkillDefinition.t)
  (workspaceDir : string) (i : Z) : M (RunResult.t * option Usage.t) :=
  if negb client then throw "Anthropic client is required for SDK mode"
  else
    r <- runSDKEval w evalDef config skill workspaceDir i ;;
    ret (fst r, Some (snd r)).

(** The [try] block up to [runs.push(result)]. *)
Definition attempt (w : World.t) (client : bool) (evalDef : EvalDefinition.t)
  (config : ExperimentConfig.t) (skill : option SkillDefinition.t)
  (workspaceDir : string) (i : Z) : M (RunResult.t * option Usage.t) :=
  if isAgentMode config
  then agentTrial w evalDef config workspaceDir i
  else sdkTrial w client evalDef config skill workspaceDir i.

(** The result pushed by the [catch] block. *)
Definition thrownResult (i : Z) (message : string) : RunResult.t :=
  RunResult.Make i false 0 1 0 (Some message) None None None.

(** [`${evalDef.name}-${config.name}-run${i}-${Date.now()}`] *)
Definition runId (evalDef : EvalDefinition.t) (config : ExperimentConfig.t)
  (i now : Z) : string :=
  EvalDefinition.name evalDef ++ "-" ++ ExperimentConfig.name config ++
  "-run" ++ JS.numToString i ++ "-" ++ JS.numToString now.

(** The directory [createWorkspace] makes for trial [i]. *)
Definition workspacePath (baseDir : string) (evalDef : EvalDefinition.t)
  (config : ExperimentConfig.t) (i now : Z) : string :=
  Path.join [baseDir; ".workspaces"; runId evalDef config i now].

(** The [catch] block, entered with the variables as the [try] block left
    them: the failed result is pushed and reported. *)
Definition caught (w : World.t) (config : ExperimentConfig.t) (i : Z)
  (acc : progress) (message : string) : M progress :=
  let result := thrownResult i message in
  perform (Progress i (ExperimentConfig.runs config))
    (World.onProgressCaught w result) ;;;
  ret (Acc (acc_runs acc ++ [result])%list (acc_usage acc)).

(** One iteration of the [for] loop of [runEval].  The [try] block runs the
    attempt, adds its usage to the total, pushes its result and reports it; an
    exception of the attempt or of the callback enters the [catch] block,
    which finds [runs] and [totalUsage] as they are by then. *)
Definition trial (w : World.t) (client : bool) (evalDef : EvalDefinition.t)
  (config : ExperimentConfig.t) (skill : option SkillDefinition.t)
  (baseDir : string) (debug : bool) (i : Z) (acc : progress) : M progress :=
  workspaceDir <- createWorkspace w baseDir (runId evalDef config i (World.now w)) ;;
  finally
    (tried <- settled (attempt w client evalDef config skill workspaceDir i) ;;
     match tried with
     | inl r =>
         let acc1 :=
           Acc (acc_runs acc ++ [fst r])%list (add_usage (acc_usage acc) (snd r)) in
         reported <-
           settled (perform (Progress i (ExperimentConfig.runs config))
                      (World.onProgress w (fst r))) ;;
         match reported with
         | inl _ => ret acc1
         | inr message => caught w config i acc1 message
         end
     | inr message => caught w config i acc message
     end)
    (if debug then ret tt else cleanupWorkspace workspaceDir).

(** [for (let i = 1; i <= config.runs; i++)], [n] iterations being left. *)
Fixpoint trials (worlds : Z -> World.t) (client : bool)
  (evalDef : EvalDefinition.t) (config : ExperimentConfig.t)
  (skill : option SkillDefinition.t) (baseDir : string) (debug : bool)
  (n : nat) (i : Z) (acc : progress) : M progress :=
  match n with
  | O => ret acc
  | S n' =>
      acc' <- trial (worlds i) client evalDef config skill baseDir debug i acc ;;
      trials worlds client evalDef config skill baseDir debug n' (i + 1) acc'
  end.

(** [a / b] on integer-valued numbers. *)
Definition divide (a b : Z) : float :=
  PrimFloat.div (JS.toNumber a) (JS.toNumber b).

(** [l.reduce((sum, x) => sum + x, 0)] *)
Definition sumZ (l : list Z) : Z := fold_left Z.add l 0.

(** [hasUsage ? totalUsage : undefined] *)
Definition usageIfAny (u : Usage.t) : option Usage.t :=
  if (0 <? Usage.inputTokens u) || (0 <? Usage.outputTokens u)
  then Some u else None.

(** The aggregation at the end of [runEval]. *)
Definition aggregate (evalDef : EvalDefinition.t) (config : ExperimentConfig.t)
  (acc : progress) : EvalResult.t :=
  let runs := acc_runs acc in
  let passedRuns := Z.of_nat (List.length (filter RunResult.passed runs)) in
  let avgDurationMs :=
    divide (sumZ (map RunResult.durationMs runs)) (Z.of_nat (List.length runs)) in
  EvalResult.Make (EvalDefinition.name evalDef) (ExperimentConfig.runs config)
    passedRuns (divide passedRuns (ExperimentConfig.runs config)) runs
    avgDurationMs (usageIfAny (acc_usage acc)).

(** [runEval] *)
Definition runEval (worlds : Z -> World.t) (client : bool)
  (evalDef : EvalDefinition.t) (config : ExperimentConfig.t)
  (skill : option SkillDefinition.t) (baseDir : string) (debug : bool)
  : M EvalResult.t :=
  acc <- trials worlds client evalDef config skill baseDir debug
           (Z.to_nat (ExperimentConfig.runs config)) 1
           (Acc [] (Usage.Make 0 0)) ;;
  ret (aggregate evalDef config acc).

(** What an experiment meets besides its trials. *)
Record ExperimentWorld : Type := EWorld {
  startedAt : string;
  completedAt : string;
  totalDurationMs : Z;
  loadSkill : outcome SkillDefinition.t;
  filteredEvals : outcome (list EvalDefinition.t);   (* [discoverEvals], then [filterEvals] *)
  trialWorld : string -> Z -> World.t
}.

(** The loop [for (const evalDef of evals)]. *)
Fixpoint runEvals (ew : ExperimentWorld) (client : bool)
  (config : ExperimentConfig.t) (skill : option SkillDefinition.t)
  (baseDir : string) (debug : bool) (evals : list EvalDefinition.t)
  : M (list EvalResult.t) :=
  match evals with
  | [] => ret []
  | evalDef :: rest =>
      result <- runEval (trialWorld ew (EvalDefinition.name evalDef)) client
                  evalDef config skill baseDir debug ;;
      results <- runEvals ew client config skill baseDir debug rest ;;
      ret (result :: results)%list
  end.

(** [totalRuns > 0 ? totalPassed / totalRuns : 0] over the results. *)
Definition overallPassRateOf (evalResults : list EvalResult.t) : float :=
  let totalRuns := sumZ (map EvalResult.totalRuns evalResults) in
  let totalPassed := sumZ (map EvalResult.passedRuns evalResults) in
  if 0 <? totalRuns then divide totalPassed totalRuns else 0%float.

(** [r.totalUsage?.inputTokens ?? 0] and its twin, summed. *)
Definition aggregatedUsage (evalResults : list EvalResult.t) : Usage.t :=
  Usage.Make
    (sumZ (map (fun r => match EvalResult.totalUsage r with
                         | Some u => Usage.inputTokens u
                         | None => 0
                         end) evalResults))
    (sumZ (map (fun r => match EvalResult.totalUsage r with
                         | Some u => Usage.outputTokens u
                         | None => 0
                         end) evalResults)).

(** The object returned by [runExperiment]. *)
Definition assemble (ew : ExperimentWorld) (config : ExperimentConfig.t)
  (evalResults : list EvalResult.t) : ExperimentResult.t :=
  ExperimentResult.Make (ExperimentConfig.name config) config (startedAt ew)
    (completedAt ew) (totalDurationMs ew) evalResults
    (overallPassRateOf evalResults) (usageIfAny (aggregatedUsage evalResults)).

(** [runExperiment] *)
Definition runExperiment (ew : ExperimentWorld) (config : ExperimentConfig.t)
  (evalsDir baseDir : string) (debug : bool) : M ExperimentResult.t :=
  let client := negb (isAgentMode config) in
  match isAgentMode config, ExperimentConfig.agent config with
  | true, None =>
      throw "Agent configuration is required when executionMode is 'agent'"
  | _, _ =>
      skill <-
        (match ExperimentConfig.skill config with
         | Some p =>
             if JS.truthy p then
               sk <- perform (ReadSkill p) (loadSkill ew) ;; ret (Some sk)
             else ret None
         | None => ret None
         end) ;;
      evals <- perform (DiscoverEvals evalsDir) (filteredEvals ew) ;;
      match evals with
      | [] => throw "No evals found matching the specified patterns"
      | _ =>
          evalResults <- runEvals ew client config skill baseDir debug evals ;;
          ret (assemble ew config evalResults)
      end
  end.

End Runner.

(** ** Comparator ([compare.ts]) *)

Module Compare.

(** The body of [for (const withSkillResult of withSkill.evalResults)]. *)
Definition compareOne (baselineByName : JSMap.t EvalResult.t)
  (evalComparisons : list EvalComparison.t) (withSkillResult : EvalResult.t)
  : list EvalComparison.t :=
  match JSMap.get (EvalResult.evalName withSkillResult) baselineByName with
  | Some baselineResult =>
      (evalComparisons ++
       [EvalComparison.Make
          (EvalResult.evalName withSkillResult)
          (EvalResult.passRate baselineResult)
          (EvalResult.passRate withSkillResult)
          (PrimFloat.sub (EvalResult.passRate withSkillResult)
             (EvalResult.passRate baselineResult))
          (EvalResult.totalRuns baselineResult)
          (EvalResult.totalRuns withSkillResult)])%list
  | None => evalComparisons
  end.

(** [compareExperiments] *)
Definition compareExperiments (baseline withSkill : ExperimentResult.t)
  : ComparisonResult.t :=
  let baselineByName :=
    JSMap.of_entries
      (map (fun r => (EvalResult.evalName r, r))
         (ExperimentResult.evalResults baseline)) in
  let evalComparisons :=
    fold_left (compareOne baselineByName)
      (ExperimentResult.evalResults withSkill) [] in
  ComparisonResult.Make baseline withSkill evalComparisons
    (PrimFloat.sub (ExperimentResult.overallPassRate withSkill)
       (ExperimentResult.overallPassRate baseline)).

End Compare.

(** ** [new RegExp(source)]

    The constructor, on the sources this code base builds at run time: literal
    characters, [.], the escape of a syntax character, [\n], the assertions
    [^] and [$], and the quantifier [*] after a character.  [None] stands for
    every other source: a syntax error, or syntax outside this fragment. *)

Module RegExp.
Import Regex.

Definition backslash : ascii := ascii_of_nat 92.

(** The syntax characters of a pattern: [^ $ \ . * + ? ( ) [ ] { } |]. *)
Definition isSyntaxChar (c : ascii) : bool :=
  JS.includes (String c "") ("^$.*+?()[]{}|" ++ String backslash "").

(** A character that stands for itself or for a class. *)
Definition atom (c : ascii) : option regex :=
  if Ascii.eqb c "." then Some dot
  else if isSyntaxChar c then None
  else Some (chr c).

(** The character after a backslash. *)
Definition escaped (e : ascii) : option regex :=
  if isSyntaxChar e then Some (chr e)
  else if Ascii.eqb e "n" then Some (chr JS.LF)
  else None.

Fixpoint compile (source : string) : option regex :=
  match source with
  | EmptyString => Some Eps
  | String c rest =>
      if Ascii.eqb c "^" then option_map (Cat Bos) (compile rest)
      else if Ascii.eqb c "$" then option_map (Cat Eos) (compile rest)
      else if Ascii.eqb c backslash then
        match rest with
        | String e rest1 =>
            match escaped e with
            | Some a =>
                match rest1 with
                | String q rest2 =>
                    if Ascii.eqb q "*"
                    then option_map (Cat (Star true a)) (compile rest2)
                    else option_map (Cat a) (compile rest1)
                | EmptyString => option_map (Cat a) (compile rest1)
                end
            | None => None
            end
        | EmptyString => None
        end
      else
        match atom c with
        | Some a =>
            match rest with
            | String q rest1 =>
                if Ascii.eqb q "*"
                then option_map (Cat (Star true a)) (compile rest1)
                else option_map (Cat a) (compile rest)
            | EmptyString => option_map (Cat a) (compile rest)
            end
        | None => None
        end
  end.

End RegExp.

(** ** Task selection ([filterEvals]) *)

Module Selection.

(** [pattern.replace(/\*/g, ".*")] *)
Fixpoint replaceStars (pattern : string) : string :=
  match pattern with
  | EmptyString => EmptyString
  | String c rest =>
      if Ascii.eqb c "*" then ".*" ++ replaceStars rest
      else String c (replaceStars rest)
  end.

(** The callback of [patterns.some]: [None] when the regular expression of
    the pattern is outside the fragment of [RegExp.compile]. *)
Definition matchesPattern (name pattern : string) : option bool :=
  if JS.includes "*" pattern then
    match RegExp.compile ("^" ++ replaceStars pattern ++ "$") with
    | Some regex => Some (Regex.test regex name)
    | None => None
    end
  else Some (String.eqb name pattern).

(** [patterns.some(...)]: the patterns in order, up to the first that
    matches. *)
Fixpoint somePattern (name : string) (patterns : list string) : option bool :=
  match patterns with
  | [] => Some false
  | pattern :: rest =>
      match matchesPattern name pattern with
      | Some true => Some true
      | Some false => somePattern name rest
      | None => None
      end
  end.

(** [evals.filter(...)] *)
Fixpoint filterByPatterns (evals : list EvalDefinition.t) (patterns : list string)
  : option (list EvalDefinition.t) :=
  match evals with
  | [] => Some []
  | evalDef :: rest =>
      match somePattern (EvalDefinition.name evalDef) patterns,
            filterByPatterns rest patterns with
      | Some keep, Some kept => Some (if keep then evalDef :: kept else kept)
      | _, _ => None
      end
  end.

(** [filterEvals] *)
Definition filterEvals (evals : list EvalDefinition.t) (patterns : list string)
  : option (list EvalDefinition.t) :=
  if existsb (String.eqb "*") patterns then Some evals
  else filterByPatterns evals patterns.

End Selection.

(** ** Skill loader ([skill-loader.ts]) *)

Module SkillLoader.
Import Regex.

(** What [parseYaml] returns, as far as [loadSkill] looks at it: a mapping
    with its values (strings or not), [null] (an empty document), or anything
    else (a scalar, a sequence), on which the three properties read are
    undefined. *)
Inductive yvalue : Type :=
| YString : string -> yvalue
| YOther : yvalue.

Inductive yaml : Type :=
| YNull : yaml
| YMap : JSMap.t yvalue -> yaml
| YScalar : yaml.

Definition opening : string := "---" ++ JS.nl.
Definition closing : string := JS.nl ++ "---" ++ JS.nl.

(** [frontmatterRegex]: [^---\n], group 1 lazily over [[\s\S]*?], [\n---\n],
    group 2 greedily over [[\s\S]*], and [$]. *)
Definition frontmatterRegex : regex :=
  Cat Bos (Cat (lit opening) (Cat (Grp 1 (Star false any))
    (Cat (lit closing) (Cat (Grp 2 (Star true any)) Eos)))).

(** [parseFrontmatter]; [parseYaml] is [None] where the parser throws. *)
Definition parseFrontmatter (parseYaml : string -> option yaml)
  (content : string) : yaml * string :=
  match search frontmatterRegex 0 content with
  | None => (YMap [], content)
  | Some m =>
      let frontmatterStr := cap_of 1 (m_caps m) in
      let body := cap_of 2 (m_caps m) in
      let frontmatter :=
        match parseYaml (CheckRunner.nullish frontmatterStr "") with
        | Some parsed => parsed
        | None => YMap []
        end in
      (frontmatter, CheckRunner.nullish body "")
  end.

(** [typeof frontmatter[key] === 'string' ? frontmatter[key] : undefined],
    for a [frontmatter] that is not [null]. *)
Definition stringField (frontmatter : yaml) (key : string) : option string :=
  match frontmatter with
  | YMap entries =>
      match JSMap.get key entries with
      | Some (YString s) => Some s
      | _ => None
      end
  | _ => None
  end.

(** The file system and the YAML parser, as [loadSkill] meets them. *)
Record Files : Type := MakeFiles {
  existsSync : string -> bool;
  readFile : string -> outcome string;
  parseYaml : string -> option yaml
}.

(** [loadSkill], with the [frontmatter] object beside the other fields.
    Reading a property of [null] throws a [TypeError] (the message is
    V8's). *)
Definition loadSkill (fs : Files) (skillPath : string)
  : outcome (SkillDefinition.t * yaml) :=
  if negb (existsSync fs skillPath) then
    Throws ("Skill file not found: " ++ skillPath)
  else
    match readFile fs skillPath with
    | Returns content =>
        let parsed := parseFrontmatter (parseYaml fs) content in
        let frontmatter := fst parsed in
        let body := snd parsed in
        match frontmatter with
        | YNull => Throws "Cannot read properties of null (reading 'name')"
        | _ =>
            Returns
              (SkillDefinition.Make
                 (CheckRunner.nullish (stringField frontmatter "name") "unnamed-skill")
                 (CheckRunner.nullish (stringField frontmatter "description") "")
                 (stringField frontmatter "version")
                 (JS.trim body),
               frontmatter)
        end
    | Throws msg => Throws msg
    | Never => Never
    end.

End SkillLoader.

(** ** Command line ([scripts/run-comparison.ts]) *)

Module Cli.

(** The numbers [parseInt] returns: an integer (exactly, within the safe
    integers of a binary64 number), or [NaN]. *)
Inductive number : Type :=
| NaN : number
| Num : Z -> number.

(** The longest prefix of decimal digits. *)
Fixpoint digitPrefix (s : string) : string :=
  match s with
  | String c s' => if JS.is_digit c then String c (digitPrefix s') else EmptyString
  | EmptyString => EmptyString
  end.

(** [parseInt(s, 10)]: white space is skipped, then a sign is read, then
    digits up to the first character that is none; without a digit the
    result is [NaN]. *)
Definition parseInt (s : string) : number :=
  let trimmed := JS.trimStart s in
  let signed :=
    match trimmed with
    | String c rest =>
        if Ascii.eqb c "-" then (true, rest)
        else if Ascii.eqb c "+" then (false, rest)
        else (false, trimmed)
    | EmptyString => (false, trimmed)
    end in
  match digitPrefix (snd signed) with
  | EmptyString => NaN
  | digits =>
      match NilEmpty.uint_of_string digits with
      | Some d => Num (if fst signed then - Z.of_uint d else Z.of_uint d)
      | None => NaN
      end
  end.

(** [ComparisonOptions]: a field is [None] while it is [undefined]. *)
Record ComparisonOptions : Type := Options {
  dry : option bool;
  experiment : option string;
  runs : option number;
  verbose : option bool;
  debug : option bool;
  mode : option ExecutionMode
}.

Definition noOptions : ComparisonOptions := Options None None None None None None.

(** How [parseArgs] ends: with the options and the warnings printed on the
    way, or in [process.exit(0)] after the help text. *)
Inductive parsed : Type :=
| Parsed : ComparisonOptions -> list string -> parsed
| Exits : Z -> parsed.

Definition modeOf (s : string) : option ExecutionMode :=
  if String.eqb s "sdk" then Some sdk
  else if String.eqb s "agent" then Some agent
  else None.

Definition unknownMode (nextArg : string) : string :=
  "Warning: Unknown mode '" ++ nextArg ++ "'. Valid options: sdk, agent".

(** The [for] loop of [parseArgs] from [args[i]] on; [i++] in a case drops
    the argument that follows. *)
Fixpoint parseLoop (args : list string) (options : ComparisonOptions)
  (warnings : list string) : parsed :=
  match args with
  | [] => Parsed options warnings
  | arg :: rest =>
      if String.eqb arg "--dry" then
        parseLoop rest
          (Options (Some true) (experiment options) (runs options)
             (verbose options) (debug options) (mode options)) warnings
      else if String.eqb arg "--experiment" then
        match rest with
        | nextArg :: rest' =>
            if JS.truthy nextArg && negb (JS.startsWith "-" nextArg) then
              parseLoop rest'
                (Options (dry options) (Some nextArg) (runs options)
                   (verbose options) (debug options) (mode options)) warnings
            else parseLoop rest options warnings
        | [] => parseLoop rest options warnings
        end
      else if String.eqb arg "--mode" then
        match rest with
        | nextArg :: rest' =>
            match modeOf nextArg with
            | Some m =>
                parseLoop rest'
                  (Options (dry options) (experiment options) (runs options)
                     (verbose options) (debug options) (Some m)) warnings
            | None =>
                if JS.truthy nextArg then
                  parseLoop rest' options (warnings ++ [unknownMode nextArg])%list
                else parseLoop rest options warnings
            end
        | [] => parseLoop rest options warnings
        end
      else if String.eqb arg "--runs" then
        match rest with
        | nextArg :: rest' =>
            if JS.truthy nextArg then
              parseLoop rest'
                (Options (dry options) (experiment options)
                   (Some (parseInt nextArg)) (verbose options) (debug options)
                   (mode options)) warnings
            else parseLoop rest options warnings
        | [] => parseLoop rest options warnings
        end
      else if String.eqb arg "--verbose" || String.eqb arg "-v" then
        parseLoop rest
          (Options (dry options) (experiment options) (runs options)
             (Some true) (debug options) (mode options)) warnings
      else if String.eqb arg "--debug" then
        parseLoop rest
          (Options (dry options) (experiment options) (runs options)
             (verbose options) (Some true) (mode options)) warnings
      else if String.eqb arg "--help" || String.eqb arg "-h" then Exits 0
      else parseLoop rest options warnings
  end.

(** [parseArgs]; [argv] is [process.argv.slice(2)], [envMode] is
    [process.env['EXECUTION_MODE']]. *)
Definition parseArgs (argv : list string) (envMode : option string) : parsed :=
  match parseLoop argv noOptions [] with
  | Parsed options warnings =>
      match mode options, envMode with
      | None, Some e =>
          if JS.truthy e then
            match modeOf e with
            | Some m =>
                Parsed (Options (dry options) (experiment options) (runs options)
                          (verbose options) (debug options) (Some m)) warnings
            | None => Parsed options warnings
            end
          else Parsed options warnings
      | _, _ => Parsed options warnings
      end
  | Exits code => Exits code
  end.

(** [if (options.runs) { config.runs = options.runs; }] in [main]: [NaN] and
    zero are falsy. *)
Definition overrideRuns (options : ComparisonOptions) (config : ExperimentConfig.t)
  : ExperimentConfig.t :=
  match runs options with
  | Some (Num z) =>
      if z =? 0 then config
      else
        ExperimentConfig.Make (ExperimentConfig.name config)
          (ExperimentConfig.description config) (ExperimentConfig.model config)
          z (ExperimentConfig.timeout config) (ExperimentConfig.skill config)
          (ExperimentConfig.evals config) (ExperimentConfig.executionMode config)
          (ExperimentConfig.agent config)
  | _ => config
  end.

End Cli.

(** ** Skill concatenation ([scripts/concat-skill.mjs]) *)

Module ConcatSkill.

(** The class of [escapeRegex]: [. * + ? ^ $ { } ( ) | [ ] \]. *)
Definition isSpecial (c : ascii) : bool :=
  JS.includes (String c "") (".*+?^${}()|[]" ++ String RegExp.backslash "").

(** [escapeRegex]: a backslash before every character of the class. *)
Fixpoint escapeRegex (str : string) : string :=
  match str with
  | EmptyString => EmptyString
  | String c rest =>
      if isSpecial c then String RegExp.backslash (String c (escapeRegex rest))
      else String c (escapeRegex rest)
  end.

(** The source of [standaloneLink] for one link: a line feed, then the list
    item [- [text](file)], each bracket escaped. *)
Definition standaloneLinkSource (text file : string) : string :=
  String RegExp.backslash "n- " ++ String RegExp.backslash "[" ++
  escapeRegex text ++
  String RegExp.backslash "]" ++ String RegExp.backslash "(" ++
  escapeRegex file ++ String RegExp.backslash ")".

End ConcatSkill.

(** ** Task discovery ([discoverEvals]) *)

Module Discovery.
Import Regex.

(** [s.replace(r, "")] for a regular expression without the [g] flag: the
    first match is cut out. *)
Definition removeFirst (r : regex) (s : string) : string :=
  match search r 0 s with
  | Some m => JS.take (m_start m) s ++ m_after m
  | None => s
  end.

(** [/\/$/] *)
Definition trailingSlash : regex := Cat (chr "/") Eos.

(** The file system, as [discoverEvals] meets it. *)
Record Files : Type := MakeFiles {
  globDirs : string -> outcome (list string);     (* [glob("*/", { cwd })] *)
  existsSync : string -> bool;
  readFile : string -> outcome string
}.

(** The loop [for (const evalDir of evalDirs)]. *)
Fixpoint collect (fs : Files) (evalsDir : string) (evalDirs : list string)
  : outcome (list EvalDefinition.t) :=
  match evalDirs with
  | [] => Returns []
  | evalDir :: rest =>
      let evalPath := Path.join [evalsDir; evalDir] in
      let promptPath := Path.join [evalPath; "PROMPT.md"] in
      let evalFile := Path.join [evalPath; "EVAL.ts"] in
      if existsSync fs promptPath && existsSync fs evalFile then
        match readFile fs promptPath with
        | Returns prompt =>
            match collect fs evalsDir rest with
            | Returns evals =>
                Returns
                  (EvalDefinition.Make (removeFirst trailingSlash evalDir)
                     evalPath prompt evalFile :: evals)
            | Throws msg => Throws msg
            | Never => Never
            end
        | Throws msg => Throws msg
        | Never => Never
        end
      else collect fs evalsDir rest
  end.

(** [discoverEvals] *)
Definition discoverEvals (fs : Files) (evalsDir : string)
  : outcome (list EvalDefinition.t) :=
  match globDirs fs evalsDir with
  | Returns evalDirs => collect fs evalsDir evalDirs
  | Throws msg => Throws msg
  | Never => Never
  end.

End Discovery.

(** * Vocabulary of the statements *)

(** What one with-skill result contributes to the comparison. *)
Definition contribution (baselineByName : JSMap.t EvalResult.t)
  (w : EvalResult.t) : list EvalComparison.t :=
  Compare.compareOne baselineByName [] w.

Definition baselineNames (baseline : ExperimentResult.t) : list string :=
  map EvalResult.evalName (ExperimentResult.evalResults baseline).

Definition knownTo (baseline : ExperimentResult.t) (n : string) : bool :=
  existsb (String.eqb n) (baselineNames baseline).

(** The structured report read from the runner's output, if any: the text
    matched by [reportRegex], parsed. *)
Definition parsedReport (JSON_parse : string -> option CheckRunner.VitestReport)
  (stdout : string) : option CheckRunner.VitestReport :=
  match Regex.search CheckRunner.reportRegex 0 stdout with
  | Some jsonMatch => JSON_parse (Regex.m_text jsonMatch)
  | None => None
  end.

(** The prompt sent by [runSDKEval]. *)
Definition promptOf (evalDef : EvalDefinition.t) (skill : option SkillDefinition.t)
  : string :=
  match skill with
  | Some sk => Runner.augmentPromptWithSkill (EvalDefinition.prompt evalDef) sk
  | None => EvalDefinition.prompt evalDef
  end.

(** A program that never exits by itself and does not react to SIGTERM. *)
Definition stubborn (afterKill : Z) (out err : string)
  (parsed : option Agent.AgentJson) : Agent.AgentProgram :=
  Agent.Program None None None afterKill out err parsed.

(** A program that never exits by itself and that a SIGTERM ends after [d]
    ms. *)
Definition obedient (d afterKill : Z) (out err : string)
  (parsed : option Agent.AgentJson) : Agent.AgentProgram :=
  Agent.Program None None (Some (d, None)) afterKill out err parsed.

(** A program that exits by itself after [t] ms with code [c]. *)
Definition exiting (t c : Z) (reaction : option (Z * option Z)) (afterKill : Z)
  (out err : string) (parsed : option Agent.AgentJson) : Agent.AgentProgram :=
  Agent.Program None (Some (t, c)) reaction afterKill out err parsed.

(** What the loop of [runEval] pushes for trial [i] once the workspace
    exists: the result of the [try] block, or the result built by the [catch]
    block from the message thrown; nothing when the block never ends. *)
Definition recorded (w : World.t) (client : bool) (evalDef : EvalDefinition.t)
  (config : ExperimentConfig.t) (skill : option SkillDefinition.t)
  (baseDir : string) (i : Z) : option (RunResult.t * option Usage.t) :=
  match fst (Runner.attempt w client evalDef config skill
               (Runner.workspacePath baseDir evalDef config i (World.now w)) i) with
  | Returns r => Some r
  | Throws msg => Some (Runner.thrownResult i msg, None)
  | Never => None
  end.

(** The trials [i], [i+1], ... pushed by [n] iterations, when every
    workspace can be made and every [try] block ends. *)
Fixpoint pushed (worlds : Z -> World.t) (client : bool)
  (evalDef : EvalDefinition.t) (config : ExperimentConfig.t)
  (skill : option SkillDefinition.t) (baseDir : string) (n : nat) (i : Z)
  : option (list (RunResult.t * option Usage.t)) :=
  match n with
  | O => Some []
  | S n' =>
      match World.mkdirWorkspace (worlds i),
            recorded (worlds i) client evalDef config skill baseDir i,
            pushed worlds client evalDef config skill baseDir n' (i + 1) with
      | Returns _, Some r, Some rs => Some (r :: rs)
      | _, _, _ => None
      end
  end.

(** The progress callback returns, whatever it is called with. *)
Definition callbackReturns (w : World.t) : Prop :=
  (forall r, World.onProgress w r = Returns tt) /\
  (forall r, World.onProgressCaught w r = Returns tt).

(** What ends an iteration with an exception: its [mkdir], or the callback
    in its [catch] block. *)
Definition escapes (w : World.t) (client : bool) (evalDef : EvalDefinition.t)
  (config : ExperimentConfig.t) (skill : option SkillDefinition.t)
  (baseDir : string) (i : Z) (msg : string) : Prop :=
  World.mkdirWorkspace w = Throws msg \/
  World.mkdirWorkspace w = Returns tt /\
  exists earlier,
    World.onProgressCaught w (Runner.thrownResult i earlier) = Throws msg /\
    (fst (Runner.attempt w client evalDef config skill
            (Runner.workspacePath baseDir evalDef config i (World.now w)) i)
       = Throws earlier \/
     exists r,
       fst (Runner.attempt w client evalDef config skill
              (Runner.workspacePath baseDir evalDef config i (World.now w)) i)
         = Returns r /\
       World.onProgress w (fst r) = Throws earlier).

(** The directory of the [mkdir] a computation starts with. *)
Definition workspaceOf {A} (m : M A) : option string :=
  match snd m with
  | Mkdir d :: _ => Some d
  | _ => None
  end.

(** The tokens a recorded trial reports, zero when it reports none. *)
Definition reportedInput (r : RunResult.t) : Z :=
  match RunResult.usage r with Some u => Usage.inputTokens u | None => 0 end.

Definition reportedOutput (r : RunResult.t) : Z :=
  match RunResult.usage r with Some u => Usage.outputTokens u | None => 0 end.

(** The arithmetic mean of the per-task pass rates (what [overallPassRate]
    is not). *)
Definition meanPassRate (evalResults : list EvalResult.t) : float :=
  PrimFloat.div
    (fold_left PrimFloat.add (map EvalResult.passRate evalResults) 0%float)
    (JS.toNumber (Z.of_nat (List.length evalResults))).

(** A task result with [total] trials of which the first [passed] passed. *)
Definition taskWith (name : string) (passed total : nat) : EvalResult.t :=
  Runner.aggregate (EvalDefinition.Make name "" "" "")
    (ExperimentConfig.Make "" "" "" (Z.of_nat total) 0 None [] None None)
    (Runner.Acc
       (map (fun k =>
               RunResult.Make (Z.of_nat (S k)) (Nat.ltb k passed) 0 0 0 None None
                 None None) (seq 0 total))
       (Usage.Make 0 0)).



Definition no_slash (s : string) : bool :=
  JS.all_chars (fun c => negb (Ascii.eqb c Path.slash)) s.

(** Regular expressions without capture groups. *)
Fixpoint groupless (r : Regex.regex) : bool :=
  match r with
  | Regex.Eps | Regex.Chr _ | Regex.Bos | Regex.Eos => true
  | Regex.Cat a b | Regex.Alt a b => groupless a && groupless b
  | Regex.Star _ a | Regex.Ahead a => groupless a
  | Regex.Grp _ _ => false
  end.

(** What a match hands to its continuation keeps the captures it started
    with, when the expression has no group. *)
Definition keeps_caps (step : Regex.mstate -> Regex.cont -> option Regex.mstate) : Prop :=
  forall st k x, step st k = Some x ->
    exists st', k st' = Some x /\ Regex.caps st' = Regex.caps st.

(** A fenced block: the opening marker with its language tag, the file-name
    comment, the content, the closing marker. *)
Definition fenced (lang fname body : string) : string :=
  Extractor.fence ++ lang ++ JS.nl ++ "// " ++ fname ++ JS.nl ++
  body ++ JS.nl ++ Extractor.fence.

(** A recognized language tag, or none. *)
Definition recognized (lang : string) : Prop :=
  In lang ("" :: Extractor.languages).

(** A file name as declared: on one line, not starting with white space. *)
Definition plainName (fname : string) : bool :=
  match fname with
  | String c _ =>
      negb (JS.is_space c) && JS.all_chars (fun c => negb (JS.is_LF c)) fname
  | EmptyString => false
  end.

(** No line of [body] starts with a fence marker. *)
Definition no_fence_at_line_start (body : string) : bool :=
  negb (JS.includes (JS.nl ++ Extractor.fence) (JS.nl ++ body)).

(** No fence marker occurs in [s]. *)
Definition prose (s : string) : bool := negb (JS.includes Extractor.fence s).

(** [pre] is empty or ends a line. *)
Definition at_line_start (pre : string) : bool :=
  match Path.last_char pre with
  | Some c => JS.is_LF c
  | None => true
  end.

(** [post] is empty or starts with a line feed. *)
Definition ends_line (post : string) : bool :=
  JS.startsWith JS.nl post || String.eqb post "".

(** A line that opens a block in the line scan: a fence at its very start,
    then a recognized language tag or none, then white space at most. *)
Definition opensBlock (line : string) : bool :=
  Regex.test Extractor.fenceOpenLine (JS.trim line)
  && Regex.test Extractor.fenceAtLineStart line.

(** A line that closes a block in the line scan when no nested example is
    open: a fence at its very start, then white space at most. *)
Definition closesBlock (line : string) : bool :=
  String.eqb (JS.trim line) Extractor.fence
  && Regex.test Extractor.fenceAtLineStart line.

(** A line with a nested fence marker: indented, or behind the star of a
    documentation comment. *)
Definition nestedMarker (line : string) : bool :=
  Regex.test Extractor.jsdocFence line
  || Regex.test Extractor.indentedFence line.

(** The file name a file-name comment line declares. *)
Definition declaredName (line : string) : string :=
  JS.trim (Regex.remove_prefix Extractor.commentPrefix line).

(** The number of nested markers among the lines of a block. *)
Definition markers (body : list string) : nat :=
  List.length (filter nestedMarker body).

(** The nesting depth of the line scan after the lines of a block: every
    nested marker toggles it between 0 and 1. *)
Definition toggled (depth : Z) (body : list string) : Z :=
  if Nat.even (markers body) then depth else 1 - depth.

(** The keys of a map, in order. *)
Definition keys {V} (m : JSMap.t V) : list string := map fst m.

(** A directory name: not empty, neither [.] nor [..], without a slash. *)
Definition plainSegment (d : string) : bool :=
  negb (String.eqb d "") && negb (String.eqb d ".") && negb (String.eqb d "..")
  && no_slash d.

(** [K] holds after some run of characters of the class [q]. *)
Definition afterRun (q : ascii -> bool) (K : string -> bool) : string -> bool :=
  fix go (s : string) : bool :=
    K s ||
    match s with
    | String c s' => q c && go s'
    | EmptyString => false
    end.

(** What [.] matches. *)
Definition notLineTerminator (c : ascii) : bool := negb (JS.is_line_terminator c).

(** Wildcard matching: [*] stands for any run of characters other than line
    terminators, [.] for one such character, any other character for
    itself. *)
Fixpoint wild (pattern : string) : string -> bool :=
  match pattern with
  | EmptyString => fun name => String.eqb name ""
  | String c pattern' =>
      if Ascii.eqb c "*" then afterRun notLineTerminator (wild pattern')
      else fun name =>
        match name with
        | String d name' =>
            (if Ascii.eqb c "." then notLineTerminator d else Ascii.eqb c d)
            && wild pattern' name'
        | EmptyString => false
        end
  end.

(** The patterns made of [*], [.] and characters without a meaning in a
    regular expression. *)
Definition wildcardPattern (pattern : string) : bool :=
  JS.all_chars
    (fun c => Ascii.eqb c "*" || Ascii.eqb c "." || negb (RegExp.isSyntaxChar c))
    pattern.

(** What one pattern selects. *)
Definition selects (pattern name : string) : bool :=
  if JS.includes "*" pattern then wild pattern name else String.eqb name pattern.

(** No character of [s] has a meaning in a regular expression. *)
Definition plainText (s : string) : bool :=
  JS.all_chars (fun c => negb (RegExp.isSyntaxChar c)) s.

(** The matcher found a match. *)
Definition succeeds (o : option Regex.mstate) : bool :=
  match o with Some _ => true | None => false end.

(** The regular expression a wildcard pattern stands for, [$] included. *)
Fixpoint wildcardRegex (pattern : string) : Regex.regex :=
  match pattern with
  | EmptyString => Regex.Cat Regex.Eos Regex.Eps
  | String c pattern' =>
      Regex.Cat
        (if Ascii.eqb c "*" then Regex.Star true Regex.dot
         else if Ascii.eqb c "." then Regex.dot
         else Regex.chr c)
        (wildcardRegex pattern')
  end.

(** [sep] does not start inside [s], in [s ++ tail]. *)
Fixpoint notBefore (sep s tail : string) : bool :=
  match s with
  | EmptyString => true
  | String c s' =>
      negb (JS.startsWith sep (s ++ tail)) && notBefore sep s' tail
  end.

(** The characters of [s], one after the other, then [r]. *)
Fixpoint litThen (s : string) (r : Regex.regex) : Regex.regex :=
  match s with
  | EmptyString => r
  | String c s' => Regex.Cat (Regex.chr c) (litThen s' r)
  end.

(** The list line that [standaloneLink] is built to remove. *)
Definition linkLine (text file : string) : string :=
  JS.nl ++ "- [" ++ text ++ "](" ++ file ++ ")".

(** A directory that holds both files of a task. *)
Definition complete (fs : Discovery.Files) (evalsDir evalDir : string) : bool :=
  Discovery.existsSync fs (Path.join [Path.join [evalsDir; evalDir]; "PROMPT.md"])
  && Discovery.existsSync fs (Path.join [Path.join [evalsDir; evalDir]; "EVAL.ts"]).

(** The next character, if any, is no [*]. *)
Definition noStarAhead (tail : string) : Prop :=
  match tail with
  | String q _ => Ascii.eqb q "*" = false
  | EmptyString => True
  end.

(** The key looked for in the runner's output, quotes included. *)
Definition reportMarker : string :=
  CheckRunner.dquote ++ "testResults" ++ CheckRunner.dquote.

(** The character [c] does not occur in [s]. *)
Definition noChar (c : ascii) (s : string) : bool :=
  JS.all_chars (fun d => negb (Ascii.eqb d c)) s.

(** What a match hands to its continuation is a state further on in the
    same text. *)
Definition reaches (step : Regex.mstate -> Regex.cont -> option Regex.mstate) : Prop :=
  forall st k x, step st k = Some x ->
    exists st', k st' = Some x /\ exists a, Regex.rest st = a ++ Regex.rest st'.

(** The continuation of the second quantifier of [reportRegex]. *)
Definition braceThenEnd : Regex.cont :=
  fun st => Regex.run (Regex.chr "}") st Some.

(** The continuation of its first quantifier. *)
Definition afterMarker : Regex.cont :=
  fun st =>
    Regex.run
      (Regex.Cat (Regex.lit reportMarker)
         (Regex.Cat (Regex.Star true Regex.any) (Regex.chr "}"))) st Some.

(** [s] is not empty and its last character is no white space. *)
Definition endsInText (s : string) : bool :=
  match Path.last_char s with
  | Some c => negb (JS.is_space c)
  | None => false
  end.

(** The heading and the description line of a skill prompt. *)
Definition skillHeading (skill : SkillDefinition.t) : string :=
  "## Skill: " ++ SkillDefinition.name skill ++ JS.nl ++ JS.nl ++
  (if JS.truthy (SkillDefinition.description skill)
   then "**Description:** " ++ SkillDefinition.description skill ++ JS.nl
   else "").

(** * Sample inputs *)

Module Sample.

Definition task : EvalDefinition.t :=
  EvalDefinition.Make "add" "/evals/add" "Create math.ts exporting add."
    "/evals/add/EVAL.ts".

Definition sdkConfig (runs : Z) : ExperimentConfig.t :=
  ExperimentConfig.Make "baseline" "No skill" "claude-sonnet" runs 60 None
    ["*"] None None.

Definition agentConfig (runs : Z) : ExperimentConfig.t :=
  ExperimentConfig.Make "agent-baseline" "No skill" "claude-sonnet" runs 60
    None ["*"] (Some agent) (Some (AgentConfig.Make "claude" None None)).

(** A response whose only fence holds a documentation comment with a fenced
    example in it. *)
Definition nestedResponse : string :=
  JS.join_lines
    ["Here is the file:"; "";
     "```typescript"; "// math.ts";
     "/**"; " * Adds two numbers."; " * @example"; " * ```ts";
     " * add(1, 2)"; " * ```"; " */";
     "export function add(a: number, b: number): number {";
     "  return a + b;"; "}";
     "```"; ""; "It adds its arguments."].

Definition nestedBody : string :=
  JS.join_lines
    ["/**"; " * Adds two numbers."; " * @example"; " * ```ts";
     " * add(1, 2)"; " * ```"; " */";
     "export function add(a: number, b: number): number {";
     "  return a + b;"; "}"].

Definition chatter : string := "I am sorry, I cannot write files.".

Definition tokens : Usage.t := Usage.Make 120 45.

(** A progress callback that returns. *)
Definition quiet (_ : RunResult.t) : outcome unit := Returns tt.

Definition idle : Agent.AgentProgram :=
  Agent.Program None (Some (3000, 0)) (Some (50, None)) 10 "done" "" None.

(** The model answers with [nestedResponse], every file operation works and
    the checks pass. *)
Definition fine : World.t :=
  World.Make 1700000000000 1200 (Returns tt) (Returns tt)
    (Returns (nestedResponse, tokens)) (fun _ => Returns tt) false
    (Returns tt) (Returns tt) idle (Returns ["math.ts"])
    (CheckRunner.Closed (Some 0) "" "") (fun _ => None)
    quiet quiet.

(** The model call is aborted at the time-out. *)
Definition aborted : World.t :=
  World.Make 1700000000000 60000 (Returns tt) (Returns tt)
    (Throws "Request was aborted.") (fun _ => Returns tt) false
    (Returns tt) (Returns tt) idle (Returns [])
    (CheckRunner.Closed (Some 0) "" "") (fun _ => None)
    quiet quiet.

(** The model answers without any code. *)
Definition chatty : World.t :=
  World.Make 1700000000000 900 (Returns tt) (Returns tt)
    (Returns (chatter, tokens)) (fun _ => Returns tt) false
    (Returns tt) (Returns tt) idle (Returns [])
    (CheckRunner.Closed (Some 0) "" "") (fun _ => None)
    quiet quiet.

(** The test runner prints no report and exits with code 1. *)
Definition unreported : World.t :=
  World.Make 1700000000000 1500 (Returns tt) (Returns tt)
    (Returns (nestedResponse, tokens)) (fun _ => Returns tt) false
    (Returns tt) (Returns tt) idle (Returns ["math.ts"])
    (CheckRunner.Closed (Some 1) "Error: cannot find module" "" )
    (fun _ => None)
    quiet quiet.

(** The agent writes [math.ts], then exits with code 2; the checks pass. *)
Definition crashing : World.t :=
  World.Make 1700000000000 3100 (Returns tt) (Returns tt)
    (Throws "unused") (fun _ => Returns tt) false
    (Returns tt) (Returns tt)
    (Agent.Program None (Some (3000, 2)) (Some (50, None)) 10 "partial" "boom" None)
    (Returns ["math.ts"])
    (CheckRunner.Closed (Some 0) "" "") (fun _ => None)
    quiet quiet.

(** First trial aborted, the others fine. *)
Definition mixed (i : Z) : World.t := if i =? 1 then aborted else fine.

Definition experiment : Runner.ExperimentWorld :=
  Runner.EWorld "2024-01-01T00:00:00.000Z" "2024-01-01T00:01:00.000Z" 60000
    (Throws "unused") (Returns [task]) (fun _ => mixed).

End Sample.

(** ** Further sample inputs *)

Module Scenario.

(** An agent that never exits by itself and ends 50 ms after a SIGTERM. *)
Definition hanging : Agent.AgentProgram :=
  Agent.Program None None (Some (50, None)) 10 "working" "" None.

Definition skillConfig : ExperimentConfig.t :=
  ExperimentConfig.Make "agent-skill" "With skill" "claude-sonnet" 1 60
    (Some "skills/base-ui/SKILL.md") ["*"] (Some agent)
    (Some (AgentConfig.Make "claude" None None)).

(** The starter files cannot be copied. *)
Definition noStarter : World.t :=
  World.Make 1700000000000 15 (Returns tt)
    (Throws "ENOENT: no such file or directory")
    (Throws "unused") (fun _ => Returns tt) false
    (Returns tt) (Returns tt) Sample.idle (Returns [])
    (CheckRunner.Closed (Some 0) "" "") (fun _ => None)
    Sample.quiet Sample.quiet.

(** The agent exits cleanly and leaves no file behind. *)
Definition emptyHanded : World.t :=
  World.Make 1700000000000 3050 (Returns tt) (Returns tt)
    (Throws "unused") (fun _ => Returns tt) false
    (Returns tt) (Returns tt) Sample.idle (Returns [])
    (CheckRunner.Closed (Some 0) "" "") (fun _ => None)
    Sample.quiet Sample.quiet.

(** The model answers with [Sample.nestedResponse]; no file can be written. *)
Definition readOnly : World.t :=
  World.Make 1700000000000 1300 (Returns tt) (Returns tt)
    (Returns (Sample.nestedResponse, Sample.tokens))
    (fun _ => Throws "EACCES: permission denied") false
    (Returns tt) (Returns tt) Sample.idle (Returns [])
    (CheckRunner.Closed (Some 0) "" "") (fun _ => None)
    Sample.quiet Sample.quiet.

(** The workspace directory cannot be made. *)
Definition fullDisk : World.t :=
  World.Make 1700000000000 5 (Throws "ENOSPC: no space left on device")
    (Returns tt) (Returns (Sample.nestedResponse, Sample.tokens))
    (fun _ => Returns tt) false (Returns tt) (Returns tt) Sample.idle
    (Returns []) (CheckRunner.Closed (Some 0) "" "") (fun _ => None)
    Sample.quiet Sample.quiet.

(** The disk is full from the second trial on. *)
Definition filling (i : Z) : World.t := if i =? 1 then Sample.fine else fullDisk.

(** A progress callback that throws. *)
Definition brokenPipe (_ : RunResult.t) : outcome unit :=
  Throws "EPIPE: broken pipe".

(** As [Sample.fine], with a progress callback that throws on the result of
    the attempt and returns when it is called again in the [catch] block. *)
Definition noisy : World.t :=
  World.Make 1700000000000 1200 (Returns tt) (Returns tt)
    (Returns (Sample.nestedResponse, Sample.tokens)) (fun _ => Returns tt) false
    (Returns tt) (Returns tt) Sample.idle (Returns ["math.ts"])
    (CheckRunner.Closed (Some 0) "" "") (fun _ => None)
    brokenPipe Sample.quiet.

(** As [Sample.fine], with a progress callback that throws at every call. *)
Definition deaf : World.t :=
  World.Make 1700000000000 1200 (Returns tt) (Returns tt)
    (Returns (Sample.nestedResponse, Sample.tokens)) (fun _ => Returns tt) false
    (Returns tt) (Returns tt) Sample.idle (Returns ["math.ts"])
    (CheckRunner.Closed (Some 0) "" "") (fun _ => None)
    brokenPipe brokenPipe.




(** The content of a block with a fenced example in a documentation comment. *)
Definition pairedBody : list string :=
  ["/**"; " * @example"; " * ```ts"; " * add(1, 2)"; " * ```"; " */";
   "export const add = (a: number, b: number) => a + b;"].

(** A response that ends with a blank behind its closing fence: the regular
    expression of the first pass finds no block in it. *)
Definition pairedResponse : string :=
  JS.join_lines
    (["Here is the file:"; ""; "```typescript"; "// math.ts"] ++ pairedBody
     ++ ["``` "])%list.

(** The same, with a documentation comment that holds one fence marker
    only. *)
Definition unpairedBody : list string :=
  ["/**"; " * Call it as shown below."; " * ```"; " */";
   "export const add = (a: number, b: number) => a + b;"].

Definition unpairedResponse : string :=
  JS.join_lines
    (["Here is the file:"; ""; "```typescript"; "// math.ts"] ++ unpairedBody
     ++ ["``` "])%list.

(** Two results under one task name in the baseline. *)
Definition firstAdd : EvalResult.t :=
  EvalResult.Make "add" 2 0 0%float [] 1000%float None.

Definition secondAdd : EvalResult.t :=
  EvalResult.Make "add" 4 2 0.5%float [] 1200%float None.

Definition skilledAdd : EvalResult.t :=
  EvalResult.Make "add" 2 2 1%float [] 900%float None.

Definition baselineRun : ExperimentResult.t :=
  ExperimentResult.Make "baseline" (Sample.sdkConfig 2)
    "2024-01-01T00:00:00.000Z" "2024-01-01T00:01:00.000Z" 60000
    [firstAdd; secondAdd] 0.5%float None.

Definition skillRun : ExperimentResult.t :=
  ExperimentResult.Make "with-skill" (Sample.sdkConfig 2)
    "2024-01-01T00:02:00.000Z" "2024-01-01T00:03:00.000Z" 60000
    [skilledAdd] 1%float None.

Definition subtract : EvalDefinition.t :=
  EvalDefinition.Make "subtract" "/evals/subtract"
    "Create math.ts exporting subtract." "/evals/subtract/EVAL.ts".

Definition baseUi : SkillDefinition.t :=
  SkillDefinition.Make "base-ui" "Component rules" None "Use the Button.".

(** A directory of tasks: [add/] holds both files, [notes/] only a prompt. *)
Definition evalsTree : Discovery.Files :=
  Discovery.MakeFiles
    (fun _ => Returns ["add/"; "notes/"])
    (fun p =>
       existsb (String.eqb p)
         ["/evals/add/PROMPT.md"; "/evals/add/EVAL.ts"; "/evals/notes/PROMPT.md"])
    (fun _ => Returns "Create math.ts exporting add.").

(** Output of the test runner: a banner, the report, a closing line. *)
Definition reportText : string :=
  "{" ++ CheckRunner.dquote ++ "testResults" ++ CheckRunner.dquote ++ ":[]}".

Definition emptyReport : CheckRunner.VitestReport :=
  CheckRunner.Report (Some 0) (Some 0) (Some true).

Definition parseReport (s : string) : option CheckRunner.VitestReport :=
  if String.eqb s reportText then Some emptyReport else None.

(** A skill file whose front matter is an empty document. *)
Definition emptyFrontMatter : SkillLoader.Files :=
  SkillLoader.MakeFiles (fun _ => true)
    (fun _ =>
       Returns (SkillLoader.opening ++ "" ++ SkillLoader.closing ++ "Use the Button."))
    (fun _ => Some SkillLoader.YNull).

(** A skill file whose [name] is a number. *)
Definition numberedName : SkillLoader.Files :=
  SkillLoader.MakeFiles (fun _ => true)
    (fun _ =>
       Returns (SkillLoader.opening ++ "name: 3" ++ SkillLoader.closing ++
                " Use the Button. "))
    (fun _ => Some (SkillLoader.YMap [("name", SkillLoader.YOther)])).

End Scenario.

(** * Properties *)

(** ** Maps *)

Lemma JSMap_get_set_same {V} (k : string) (v : V) (m : JSMap.t V) :
  JSMap.get k (JSMap.set k v m) = Some v.
Proof.
  induction m as [|[k' v'] m IH]; simpl.
  - now rewrite String.eqb_refl.
  - destruct (String.eqb k k') eqn:E; simpl; rewrite ?E, ?String.eqb_refl; auto.
Qed.

Lemma JSMap_get_set_other {V} (k k0 : string) (v : V) (m : JSMap.t V) :
  k0 <> k -> JSMap.get k0 (JSMap.set k v m) = JSMap.get k0 m.
Proof.
  intros Hne. induction m as [|[k' v'] m IH]; simpl.
  - apply String.eqb_neq in Hne. now rewrite Hne.
  - destruct (String.eqb k k') eqn:E; simpl.
    + apply String.eqb_eq in E. subst k'.
      apply String.eqb_neq in Hne. now rewrite Hne.
    + now rewrite IH.
Qed.

Lemma JSMap_get_fold_set {V} (entries : list (string * V)) (m : JSMap.t V)
  (k : string) :
  JSMap.get k (fold_left (fun m kv => JSMap.set (fst kv) (snd kv) m) entries m) =
  match JSMap.get k (List.rev entries) with
  | Some v => Some v
  | None => JSMap.get k m
  end.
Proof.
  revert m. induction entries as [|[k1 v1] entries IH]; intros m; simpl.
  - reflexivity.
  - rewrite IH. clear IH.
    assert (Hsplit : forall l1 : JSMap.t V,
      JSMap.get k (l1 ++ [(k1, v1)])%list =
      match JSMap.get k l1 with
      | Some v => Some v
      | None => if String.eqb k k1 then Some v1 else None
      end).
    { induction l1 as [|[a b] l1 IHl]; simpl; [reflexivity|].
      destruct (String.eqb k a); auto. }
    rewrite Hsplit.
    destruct (JSMap.get k (List.rev entries)); [reflexivity|].
    destruct (String.eqb k k1) eqn:E.
    + apply String.eqb_eq in E. subst. apply JSMap_get_set_same.
    + apply String.eqb_neq in E. now apply JSMap_get_set_other.
Qed.

Lemma JSMap_get_In {V} (k : string) (v : V) (l : list (string * V)) :
  JSMap.get k l = Some v -> In (k, v) l.
Proof.
  induction l as [|[a b] l IH]; simpl; [discriminate|].
  destruct (String.eqb k a) eqn:E.
  - apply String.eqb_eq in E. intros [= ->]. left. now subst.
  - auto.
Qed.

Lemma JSMap_get_None {V} (k : string) (l : list (string * V)) :
  JSMap.get k l = None <-> ~ In k (map fst l).
Proof.
  induction l as [|[a b] l IH]; simpl.
  - tauto.
  - destruct (String.eqb k a) eqn:E.
    + apply String.eqb_eq in E. subst. split; [discriminate|tauto].
    + apply String.eqb_neq in E. rewrite IH. split.
      * intros H [H1|H1]; [now subst|auto].
      * tauto.
Qed.

Lemma JSMap_of_entries_get {V} (entries : list (string * V)) (k : string) :
  JSMap.get k (JSMap.of_entries entries) = JSMap.get k (List.rev entries).
Proof.
  unfold JSMap.of_entries. rewrite JSMap_get_fold_set.
  now destruct (JSMap.get k (List.rev entries)).
Qed.

(** ** Comparator *)

Section ComparatorFacts.

Variable baselineByName : JSMap.t EvalResult.t.

Lemma compareOne_app (acc : list EvalComparison.t) (w : EvalResult.t) :
  Compare.compareOne baselineByName acc w =
  (acc ++ contribution baselineByName w)%list.
Proof.
  unfold contribution, Compare.compareOne.
  destruct (JSMap.get _ _); simpl; [reflexivity|now rewrite app_nil_r].
Qed.

Lemma fold_compareOne (ws : list EvalResult.t) (acc : list EvalComparison.t) :
  fold_left (Compare.compareOne baselineByName) ws acc =
  (acc ++ flat_map (contribution baselineByName) ws)%list.
Proof.
  revert acc. induction ws as [|w ws IH]; intros acc; simpl.
  - now rewrite app_nil_r.
  - rewrite IH, compareOne_app, <- app_assoc. reflexivity.
Qed.

End ComparatorFacts.

Lemma baseline_lookup (baseline : ExperimentResult.t) (n : string) :
  match JSMap.get n
          (JSMap.of_entries
             (map (fun r => (EvalResult.evalName r, r))
                (ExperimentResult.evalResults baseline))) with
  | Some b =>
      In b (ExperimentResult.evalResults baseline) /\
      EvalResult.evalName b = n /\ knownTo baseline n = true
  | None => knownTo baseline n = false
  end.
Proof.
  rewrite JSMap_of_entries_get.
  destruct (JSMap.get n _) as [b|] eqn:E.
  - apply JSMap_get_In in E. apply in_rev in E. apply in_map_iff in E.
    destruct E as [r [Hr Hin]]. inversion Hr; subst. repeat split; auto.
    unfold knownTo, baselineNames. apply existsb_exists.
    exists (EvalResult.evalName b). split; [|apply String.eqb_refl].
    now apply in_map.
  - apply JSMap_get_None in E.
    unfold knownTo, baselineNames.
    destruct (existsb _ _) eqn:Ex; [|reflexivity].
    apply existsb_exists in Ex. destruct Ex as [x [Hx Heq]].
    apply String.eqb_eq in Heq. subst x. exfalso. apply E.
    rewrite map_rev, <- in_rev, map_map. simpl. exact Hx.
Qed.

(** C7. The comparator pairs the results of the two experiments by task name:
    every entry of the per-task list joins a with-skill result and a baseline
    result of the same name, with [improvement] their with-skill pass rate
    minus their baseline pass rate; the names listed are exactly the
    with-skill names that the baseline knows, in order, so that a name present
    on one side only yields no entry (and nothing fails: the function is
    total); the overall improvement is the difference of the two overall
    pass rates. *)
Theorem C7_comparator_pairs_by_name :
  forall baseline withSkill : ExperimentResult.t,
    let c := Compare.compareExperiments baseline withSkill in
    (forall e, In e (ComparisonResult.evalComparisons c) ->
       exists w b,
         In w (ExperimentResult.evalResults withSkill) /\
         In b (ExperimentResult.evalResults baseline) /\
         EvalResult.evalName w = EvalComparison.evalName e /\
         EvalResult.evalName b = EvalComparison.evalName e /\
         EvalComparison.baselinePassRate e = EvalResult.passRate b /\
         EvalComparison.withSkillPassRate e = EvalResult.passRate w /\
         EvalComparison.improvement e =
           PrimFloat.sub (EvalResult.passRate w) (EvalResult.passRate b)) /\
    map EvalComparison.evalName (ComparisonResult.evalComparisons c) =
      filter (knownTo baseline)
        (map EvalResult.evalName (ExperimentResult.evalResults withSkill)) /\
    (forall n, In n (map EvalComparison.evalName (ComparisonResult.evalComparisons c)) <->
       In n (baselineNames baseline) /\
       In n (map EvalResult.evalName (ExperimentResult.evalResults withSkill))) /\
    ComparisonResult.overallImprovement c =
      PrimFloat.sub (ExperimentResult.overallPassRate withSkill)
        (ExperimentResult.overallPassRate baseline).
Proof.
  intros baseline withSkill c.
  assert (Hnames :
    map EvalComparison.evalName (ComparisonResult.evalComparisons c) =
    filter (knownTo baseline)
      (map EvalResult.evalName (ExperimentResult.evalResults withSkill))).
  { subst c. unfold Compare.compareExperiments. simpl.
    rewrite fold_compareOne. simpl.
    induction (ExperimentResult.evalResults withSkill) as [|w ws IH]; simpl.
    - reflexivity.
    - rewrite map_app, IH. unfold contribution, Compare.compareOne.
      pose proof (baseline_lookup baseline (EvalResult.evalName w)) as HL.
      destruct (JSMap.get _ _).
      + destruct HL as (_ & _ & ->). reflexivity.
      + rewrite HL. reflexivity. }
  split; [|split; [exact Hnames|split]].
  - subst c. unfold Compare.compareExperiments. simpl.
    rewrite fold_compareOne. simpl. intros e He.
    apply in_flat_map in He. destruct He as [w [Hw He]].
    unfold contribution, Compare.compareOne in He.
    pose proof (baseline_lookup baseline (EvalResult.evalName w)) as HL.
    destruct (JSMap.get _ _) as [b|]; simpl in He; [|contradiction].
    destruct He as [<-|[]]. destruct HL as (Hb & Hn & _).
    exists w, b. simpl. repeat split; auto.
  - intros n. rewrite Hnames, filter_In. unfold knownTo.
    rewrite existsb_exists. split.
    + intros [Hin [x [Hx Heq]]]. apply String.eqb_eq in Heq. subst x. tauto.
    + intros [Hb Hw]. split; [exact Hw|]. exists n. split; [exact Hb|].
      apply String.eqb_refl.
  - reflexivity.
Qed.

(** ** Check runner *)

Lemma onClose_unparsed JSON_parse code stdout stderr :
  parsedReport JSON_parse stdout = None ->
  CheckRunner.onClose JSON_parse code stdout stderr =
  CheckRunner.byExitCode code stdout stderr.
Proof.
  unfold parsedReport, CheckRunner.onClose.
  destruct (Regex.search _ _ _); [|reflexivity].
  now intros ->.
Qed.

(** C6. When no structured report can be parsed from the runner's output (no
    text of the expected shape, or [JSON.parse] throws on it), the result of
    the check run is read off the exit code: zero gives passed, one test
    passed out of one; anything else gives failed, none passed out of one;
    and the promise of [runEvalTests] resolves, it does not reject. *)
Theorem C6_unparsed_report_falls_back_to_exit_code :
  forall (w : World.t) (workspaceDir evalFile : string)
         (code : option Z) (stdout stderr : string),
    World.vitest w = CheckRunner.Closed code stdout stderr ->
    parsedReport (World.JSON_parse w) stdout = None ->
    exists r,
      fst (Runner.runEvalTests w workspaceDir evalFile) = Returns r /\
      CheckRunner.testsTotal r = 1 /\
      (code = Some 0 ->
         CheckRunner.passed r = true /\ CheckRunner.testsPassed r = 1) /\
      (code <> Some 0 ->
         CheckRunner.passed r = false /\ CheckRunner.testsPassed r = 0).
Proof.
  intros w ws ef code stdout stderr Hrun Hnone.
  unfold Runner.runEvalTests. simpl. rewrite Hrun. simpl.
  rewrite (onClose_unparsed _ _ _ _ Hnone).
  eexists. split; [reflexivity|]. simpl. split; [reflexivity|]. split.
  - intros ->. simpl. auto.
  - intros Hne. destruct code as [c|]; simpl; [|auto].
    destruct (Z.eqb_spec c 0) as [->|_]; [congruence|auto].
Qed.

(** ** Direct-call strategy *)

Lemma writeGeneratedFiles_nil w workspaceDir :
  Runner.writeGeneratedFiles w workspaceDir [] = (Returns [], []).
Proof. reflexivity. Qed.

(** C5. In the direct-call strategy, a model response from which no file is
    extracted makes [runSDKEval] return (not throw) a failed result: [passed]
    false, the error "No files were generated by the agent", the response
    kept; the only external calls made are the copy of the starter files and
    the model call, so the check runner is not invoked. *)
Theorem C5_no_files_is_a_failed_trial :
  forall (w : World.t) (evalDef : EvalDefinition.t) (config : ExperimentConfig.t)
         (skill : option SkillDefinition.t) (workspaceDir : string) (i : Z)
         (response : string) (usage : Usage.t),
    World.copyStarter w = Returns tt ->
    World.claude w = Returns (response, usage) ->
    Extractor.parseGeneratedFiles response = [] ->
    let r := Runner.runSDKEval w evalDef config skill workspaceDir i in
    fst r =
      Returns
        (RunResult.Make i false 0 1 (World.elapsed w)
           (Some "No files were generated by the agent")
           (Some response) (Some []) (Some usage), usage) /\
    snd r =
      [CopyStarterFiles (EvalDefinition.path evalDef) workspaceDir;
       CallClaudeAPI (ExperimentConfig.model config) (promptOf evalDef skill)
         (ExperimentConfig.timeout config)] /\
    (forall a b, ~ In (RunVitest a b) (snd r)).
Proof.
  intros w evalDef config skill ws i response usage Hcopy Hapi Hnone r.
  assert (Hr : r =
    (Returns
       (RunResult.Make i false 0 1 (World.elapsed w)
          (Some "No files were generated by the agent")
          (Some response) (Some []) (Some usage), usage),
     [CopyStarterFiles (EvalDefinition.path evalDef) ws;
      CallClaudeAPI (ExperimentConfig.model config) (promptOf evalDef skill)
        (ExperimentConfig.timeout config)])).
  { subst r. unfold Runner.runSDKEval, bind, perform.
    rewrite Hcopy, Hapi. cbn [fst snd]. rewrite Hnone.
    rewrite writeGeneratedFiles_nil. reflexivity. }
  rewrite Hr. cbn [fst snd]. repeat split.
  intros a b [H|[H|[]]]; discriminate.
Qed.

(** ** Agent-session strategy *)

Lemma timerDelay_range (ms : Z) :
  1 <= Agent.timerDelay ms <= 2147483647.
Proof.
  unfold Agent.timerDelay.
  destruct (Z.leb_spec 1 ms); destruct (Z.leb_spec ms 2147483647); cbn; lia.
Qed.

Lemma timerDelay_in_range (ms : Z) :
  1 <= ms <= 2147483647 -> Agent.timerDelay ms = ms.
Proof.
  intros H. unfold Agent.timerDelay.
  destruct (Z.leb_spec 1 ms); destruct (Z.leb_spec ms 2147483647); cbn; lia.
Qed.

(** Evaluation of the event loop, leaving the arithmetic alone. *)
Ltac agent_eval :=
  cbv beta iota zeta delta
    [Agent.timeline Agent.run_loop Agent.spawned Agent.step Agent.next_event
     Agent.onTimeout Agent.onGrace Agent.onClose Agent.kill Agent.at_time
     Agent.sooner Agent.clock Agent.timedOut Agent.killed Agent.running
     Agent.timeoutTimer Agent.graceTimer Agent.closeEvent Agent.signals
     Agent.resolved Agent.spawnError Agent.exitsAt Agent.onSIGTERM
     Agent.onSIGKILL Agent.written_stdout Agent.written_stderr
     Agent.parsed_stdout CheckRunner.nullish
     stubborn obedient exiting fold_left app fst snd negb].

(** An exit before the time-out: the timer is cleared, no signal is sent, and
    the result carries the exit code; it is a success for code zero only. *)
Lemma exit_before_timeout t c reaction afterKill out err parsed timeout :
  t < Agent.timerDelay (timeout * 1000) ->
  let prog := exiting t c reaction afterKill out err parsed in
  Agent.signals (Agent.timeline prog timeout) = [] /\
  Agent.resolved (Agent.timeline prog timeout) =
    Some (Agent.Result c out err (c =? 0) (Agent.parseUsage parsed)).
Proof.
  intros Hlt prog. subst prog. apply Z.ltb_lt in Hlt.
  agent_eval. rewrite Hlt. agent_eval. split; reflexivity.
Qed.

(** After a time-out, a program that exits on SIGTERM yields a result that is
    not a success, with exit code 1 (the code of a signalled process being
    [null]). *)
Lemma timeout_then_exit d afterKill out err parsed timeout :
  let prog := obedient d afterKill out err parsed in
  Agent.signals (Agent.timeline prog timeout) =
    [(Agent.timerDelay (timeout * 1000), Agent.SIGTERM)] /\
  Agent.resolved (Agent.timeline prog timeout) =
    Some (Agent.Result 1 out (err ++ JS.nl ++ "[Agent timed out]") false
            (Agent.parseUsage parsed)).
Proof.
  intros prog. subst prog.
  pose proof (timerDelay_range (timeout * 1000)) as Hd.
  agent_eval. change (Agent.timerDelay 5000) with 5000.
  replace (Z.max (Agent.timerDelay (timeout * 1000)) 0)
    with (Agent.timerDelay (timeout * 1000)) by lia.
  destruct (Agent.timerDelay (timeout * 1000) + d
            <? Agent.timerDelay (timeout * 1000) + 5000);
    agent_eval; split; reflexivity.
Qed.

(** A timed-out agent that does exit on SIGTERM: the strategy returns a
    result that is not passed and carries the error "Agent exited with code
    1". *)
Lemma timed_out_trial_result (w : World.t) (evalDef : EvalDefinition.t)
  (config : ExperimentConfig.t) (a : AgentConfig.t) (workspaceDir : string)
  (i d afterKill : Z) (out err : string) (parsed : option Agent.AgentJson)
  (listed : list string) :
  ExperimentConfig.agent config = Some a ->
  World.program w = obedient d afterKill out err parsed ->
  World.copyStarter w = Returns tt ->
  World.copySkill w = Returns tt ->
  World.writePrompt w = Returns tt ->
  World.listFiles w = Returns listed ->
  exists r,
    fst (Runner.runAgentEval w evalDef config workspaceDir i) = Returns r /\
    RunResult.passed r = false /\
    RunResult.error r = Some "Agent exited with code 1" /\
    RunResult.generatedFiles r = Some listed.
Proof.
  intros Hagent Hprog Hcopy Hskill Hprompt Hfiles.
  assert (Hexec :
    Agent.executeAgent config (World.program w) (ExperimentConfig.timeout config)
    = Some (Agent.Result 1 out (err ++ JS.nl ++ "[Agent timed out]") false
              (Agent.parseUsage parsed))).
  { unfold Agent.executeAgent. rewrite Hagent, Hprog.
    cbn [Agent.spawnError obedient].
    apply (timeout_then_exit d afterKill out err parsed). }
  unfold Runner.runAgentEval, Runner.awaitAgent, bind, try_catch, perform, ret.
  rewrite Hcopy, Hprompt, Hexec, Hfiles.
  destruct (Runner.hasSkill config && World.skillExists w); cbn;
    rewrite ?Hskill; cbn; eexists; repeat split.
Qed.

(** C3 (what the code does).  For every time-out and every program that
    neither exits by itself nor reacts to SIGTERM: SIGTERM is sent when the
    timer of the time-out fires (after [timeout * 1000] ms, or after 1 ms
    when [setTimeout] does not take that delay), and it is the only signal
    ever sent; when the grace timer fires five seconds later [agent.killed]
    is already [true], so no SIGKILL follows, the process stays alive, the
    promise of [executeAgent] is never resolved and the awaiting trial never
    gets a result. *)
Theorem C3_sigkill_is_never_sent :
  forall (timeout afterKill : Z) (out err : string)
         (parsed : option Agent.AgentJson)
         (w : World.t) (config : ExperimentConfig.t) (a : AgentConfig.t)
         (workspaceDir : string),
    let prog := stubborn afterKill out err parsed in
    let final := Agent.timeline prog timeout in
    Agent.signals final =
      [(Agent.timerDelay (timeout * 1000), Agent.SIGTERM)] /\
    Agent.clock final = Agent.timerDelay (timeout * 1000) + 5000 /\
    (1 <= timeout * 1000 <= 2147483647 ->
     Agent.timerDelay (timeout * 1000) = timeout * 1000) /\
    Agent.killed final = true /\
    Agent.running final = true /\
    Agent.resolved final = None /\
    Agent.step prog final = None /\
    (ExperimentConfig.agent config = Some a ->
     World.program w = prog ->
     ExperimentConfig.timeout config = timeout ->
     fst (Runner.awaitAgent w config workspaceDir) = Never).
Proof.
  intros timeout afterKill out err parsed w config a ws prog final.
  pose proof (timerDelay_range (timeout * 1000)) as Hd.
  assert (Hfinal : final =
    Agent.Loop (Agent.timerDelay (timeout * 1000) + 5000) true true true None
      None None [(Agent.timerDelay (timeout * 1000), Agent.SIGTERM)] None).
  { subst final prog. agent_eval. change (Agent.timerDelay 5000) with 5000.
    f_equal; [lia|]. f_equal. f_equal. lia. }
  rewrite Hfinal. agent_eval. repeat split;
    try (intros; apply timerDelay_in_range; lia).
  intros Hagent Hprog Htimeout.
  unfold Runner.awaitAgent, Agent.executeAgent, perform.
  rewrite Hagent, Hprog, Htimeout. cbn [Agent.spawnError prog stubborn fst].
  fold final. rewrite Hfinal. reflexivity.
Qed.

(** The agent branch of a trial whose agent failed, left files and passes
    the checks. *)
Lemma agentTrial_passes_despite_failure :
  forall (w : World.t) (evalDef : EvalDefinition.t) (config : ExperimentConfig.t)
         (workspaceDir : string) (i : Z)
         (ar : Agent.AgentExecutionResult) (f : string) (fs : list string),
    World.copyStarter w = Returns tt ->
    World.copySkill w = Returns tt ->
    World.writePrompt w = Returns tt ->
    Agent.executeAgent config (World.program w) (ExperimentConfig.timeout config)
      = Some ar ->
    Agent.success ar = false ->
    World.listFiles w = Returns (f :: fs) ->
    CheckRunner.passed
      (CheckRunner.settle (World.JSON_parse w) (World.vitest w)) = true ->
    exists r,
      fst (Runner.agentTrial w evalDef config workspaceDir i) =
        Returns (r, Agent.usage ar) /\
      RunResult.runNumber r = i /\
      RunResult.passed r = true /\
      RunResult.error r =
        Some ("Agent exited with code " ++ JS.numToString (Agent.exitCode ar)) /\
      RunResult.generatedFiles r = Some (f :: fs)%list.
Proof.
  intros w evalDef config ws i ar f fs Hcopy Hskill Hprompt Hexec Hfail Hfiles Hpass.
  unfold Runner.agentTrial, Runner.runAgentEval, Runner.awaitAgent,
    Runner.runEvalTests.
  unfold bind, try_catch, perform, ret.
  rewrite Hcopy, Hprompt, Hexec, Hfiles, Hfail.
  destruct (Runner.hasSkill config && World.skillExists w); cbn;
    rewrite ?Hskill; cbn; rewrite Hpass;
    eexists; repeat split.
Qed.

(** ** Trial orchestration *)

Lemma fst_bind {A B} (m : M A) (f : A -> M B) :
  fst (bind m f) =
  match fst m with
  | Returns a => fst (f a)
  | Throws msg => Throws msg
  | Never => Never
  end.
Proof. destruct m as [[a|msg|] log]; reflexivity. Qed.

(** The outcome of one iteration, case by case: the workspace, the attempt,
    the callback in the [try] block, the callback in the [catch] block. *)
Lemma trial_fst w client evalDef config skill baseDir debug i acc :
  fst (Runner.trial w client evalDef config skill baseDir debug i acc) =
  match World.mkdirWorkspace w with
  | Returns _ =>
      match fst (Runner.attempt w client evalDef config skill
                   (Runner.workspacePath baseDir evalDef config i (World.now w)) i) with
      | Returns r =>
          match World.onProgress w (fst r) with
          | Returns _ =>
              Returns (Runner.Acc (Runner.acc_runs acc ++ [fst r])%list
                         (Runner.add_usage (Runner.acc_usage acc) (snd r)))
          | Throws msg =>
              match World.onProgressCaught w (Runner.thrownResult i msg) with
              | Returns _ =>
                  Returns (Runner.Acc
                             ((Runner.acc_runs acc ++ [fst r]) ++
                              [Runner.thrownResult i msg])%list
                             (Runner.add_usage (Runner.acc_usage acc) (snd r)))
              | Throws msg' => Throws msg'
              | Never => Never
              end
          | Never => Never
          end
      | Throws msg =>
          match World.onProgressCaught w (Runner.thrownResult i msg) with
          | Returns _ =>
              Returns (Runner.Acc
                         (Runner.acc_runs acc ++ [Runner.thrownResult i msg])%list
                         (Runner.acc_usage acc))
          | Throws msg' => Throws msg'
          | Never => Never
          end
      | Never => Never
      end
  | Throws msg => Throws msg
  | Never => Never
  end.
Proof.
  unfold Runner.trial, Runner.createWorkspace, Runner.workspacePath.
  unfold bind at 1. unfold bind at 1. unfold perform at 1.
  destruct (World.mkdirWorkspace w) as [[]|msg|]; try reflexivity.
  cbn [ret fst snd].
  destruct (Runner.attempt _ _ _ _ _ _ _) as [[r|msg|] log];
    unfold Runner.caught, settled, finally, bind, perform, ret; cbn [fst snd].
  - destruct (World.onProgress w (fst r)) as [[]|msg|]; cbn [fst snd];
      [destruct debug; reflexivity| |reflexivity].
    destruct (World.onProgressCaught w _) as [[]|msg'|]; cbn [fst snd];
      destruct debug; reflexivity.
  - destruct (World.onProgressCaught w _) as [[]|msg'|]; cbn [fst snd];
      destruct debug; reflexivity.
  - reflexivity.
Qed.


(** An iteration that returns has made its workspace; what its attempt
    recorded comes first among the results it pushed, and the usage of the
    attempt is added to the total. *)
Lemma trial_returns w client evalDef config skill baseDir debug i acc acc' :
  fst (Runner.trial w client evalDef config skill baseDir debug i acc)
    = Returns acc' ->
  World.mkdirWorkspace w = Returns tt /\
  exists r more,
    recorded w client evalDef config skill baseDir i = Some r /\
    Runner.acc_runs acc' = (Runner.acc_runs acc ++ fst r :: more)%list /\
    Runner.acc_usage acc' = Runner.add_usage (Runner.acc_usage acc) (snd r).
Proof.
  rewrite trial_fst. unfold recorded.
  destruct (World.mkdirWorkspace w) as [[]|msg|]; try discriminate.
  destruct (fst (Runner.attempt _ _ _ _ _ _ _)) as [r|msg|]; try discriminate.
  - destruct (World.onProgress w (fst r)) as [[]|msg|]; try discriminate.
    + intros [= <-]. split; [reflexivity|]. exists r, []. auto.
    + destruct (World.onProgressCaught w _) as [[]|msg'|]; try discriminate.
      intros [= <-]. split; [reflexivity|]. exists r, [Runner.thrownResult i msg].
      cbn [Runner.acc_runs Runner.acc_usage]. rewrite <- app_assoc. auto.
  - destruct (World.onProgressCaught w _) as [[]|msg'|]; try discriminate.
    intros [= <-]. split; [reflexivity|].
    exists (Runner.thrownResult i msg, None), []. auto.
Qed.

(** An iteration throws only what [mkdir] throws, or what the callback
    throws in the [catch] block. *)
Lemma trial_throws w client evalDef config skill baseDir debug i acc msg :
  fst (Runner.trial w client evalDef config skill baseDir debug i acc)
    = Throws msg ->
  World.mkdirWorkspace w = Throws msg \/
  World.mkdirWorkspace w = Returns tt /\
  exists earlier,
    World.onProgressCaught w (Runner.thrownResult i earlier) = Throws msg /\
    (fst (Runner.attempt w client evalDef config skill
            (Runner.workspacePath baseDir evalDef config i (World.now w)) i)
       = Throws earlier \/
     exists r,
       fst (Runner.attempt w client evalDef config skill
              (Runner.workspacePath baseDir evalDef config i (World.now w)) i)
         = Returns r /\
       World.onProgress w (fst r) = Throws earlier).
Proof.
  rewrite trial_fst.
  destruct (World.mkdirWorkspace w) as [[]|m|]; try discriminate;
    [|intros [= ->]; now left].
  intros H. right. split; [reflexivity|]. revert H.
  destruct (fst (Runner.attempt _ _ _ _ _ _ _)) as [r|m|]; try discriminate.
  - destruct (World.onProgress w (fst r)) as [[]|m|] eqn:Ep; try discriminate.
    destruct (World.onProgressCaught w _) as [[]|m'|] eqn:Ec; try discriminate.
    intros [= ->]. exists m. split; [exact Ec|]. right. exists r. auto.
  - destruct (World.onProgressCaught w _) as [[]|m'|] eqn:Ec; try discriminate.
    intros [= ->]. exists m. auto.
Qed.

(** The external calls of one iteration, case by case. *)
Lemma trial_snd (w : World.t) client evalDef config skill baseDir
  (debug : bool) (i : Z) (acc : Runner.progress) :
  let ws := Runner.workspacePath baseDir evalDef config i (World.now w) in
  let body := Runner.attempt w client evalDef config skill ws i in
  let report := Progress i (ExperimentConfig.runs config) in
  let cleanup : list effect := if debug then [] else [RemoveDir ws] in
  let inCatch := fun (msg : string) =>
    report ::
    match World.onProgressCaught w (Runner.thrownResult i msg) with
    | Never => @nil effect
    | _ => cleanup
    end in
  snd (Runner.trial w client evalDef config skill baseDir debug i acc) =
  Mkdir ws ::
  match World.mkdirWorkspace w with
  | Returns _ =>
      (snd body ++
       match fst body with
       | Returns r =>
           report ::
           match World.onProgress w (fst r) with
           | Returns _ => cleanup
           | Throws msg => inCatch msg
           | Never => []
           end
       | Throws msg => inCatch msg
       | Never => []
       end)%list
  | _ => []
  end.
Proof.
  cbv zeta.
  unfold Runner.trial, Runner.createWorkspace, Runner.workspacePath.
  unfold bind at 1. unfold bind at 1. unfold perform at 1.
  destruct (World.mkdirWorkspace w) as [[]|msg|]; try reflexivity.
  cbn [ret fst snd app].
  destruct (Runner.attempt _ _ _ _ _ _ _) as [[r|msg|] log];
    unfold Runner.caught, Runner.cleanupWorkspace, settled, finally, bind,
      perform, ret; cbn [fst snd].
  - destruct (World.onProgress w (fst r)) as [[]|msg|];
      [| destruct (World.onProgressCaught w _) as [[]|msg'|] |];
      destruct debug; cbn [fst snd app];
      rewrite ?app_nil_r, <- ?app_assoc; reflexivity.
  - destruct (World.onProgressCaught w _) as [[]|msg'|];
      destruct debug; cbn [fst snd app];
      rewrite ?app_nil_r, <- ?app_assoc; reflexivity.
  - now rewrite app_nil_r.
Qed.

Section TrialsFacts.

Variable worlds : Z -> World.t.
Variable client : bool.
Variable evalDef : EvalDefinition.t.
Variable config : ExperimentConfig.t.
Variable skill : option SkillDefinition.t.
Variable baseDir : string.
Variable debug : bool.

(** When the loop returns, every workspace was made, every attempt ended, and
    the usage total is that of the attempts. *)
Lemma trials_returns (n : nat) :
  forall (i : Z) (acc acc' : Runner.progress),
    fst (Runner.trials worlds client evalDef config skill baseDir debug n i acc)
      = Returns acc' ->
    exists rs,
      pushed worlds client evalDef config skill baseDir n i = Some rs /\
      Runner.acc_usage acc' =
        fold_left Runner.add_usage (map snd rs) (Runner.acc_usage acc).
Proof.
  induction n as [|n IH]; intros i acc acc'; simpl.
  - intros [= <-]. exists []. auto.
  - rewrite fst_bind.
    destruct (fst (Runner.trial _ _ _ _ _ _ _ _ _)) as [acc1|msg|] eqn:E;
      try discriminate.
    apply trial_returns in E. destruct E as (Hmk & r & more & Hrec & _ & Hu1).
    intros H. apply IH in H. destruct H as (rs & Hp & Hu).
    rewrite Hmk, Hrec, Hp. exists (r :: rs). split; [reflexivity|].
    simpl. now rewrite Hu, Hu1.
Qed.





End TrialsFacts.

Lemma runSDKEval_result w evalDef config skill workspaceDir i r u :
  fst (Runner.runSDKEval w evalDef config skill workspaceDir i) = Returns (r, u) ->
  RunResult.runNumber r = i /\ RunResult.usage r = Some u.
Proof.
  unfold Runner.runSDKEval. rewrite fst_bind.
  unfold perform at 1. cbn [fst].
  destruct (World.copyStarter w) as [[]|msg|]; try discriminate.
  rewrite fst_bind. unfold perform at 1. cbn [fst].
  destruct (World.claude w) as [[response usage]|msg|]; try discriminate.
  cbn [fst snd]. rewrite fst_bind.
  destruct (fst (Runner.writeGeneratedFiles _ _ _)) as [written|msg|];
    try discriminate.
  destruct (Nat.eqb (List.length written) 0).
  - cbn. intros [= <- <-]. auto.
  - unfold Runner.runEvalTests. cbn. intros [= <- <-]. auto.
Qed.

Lemma runAgentEval_result w evalDef config workspaceDir i ar :
  fst (Runner.runAgentEval w evalDef config workspaceDir i) = Returns ar ->
  RunResult.runNumber ar = i /\ RunResult.passed ar = false.
Proof.
  unfold Runner.runAgentEval, try_catch.
  match goal with |- context [match ?m with _ => _ end] =>
    destruct m as [[x|msg|] log] eqn:E end; cbn [fst ret].
  - revert E. unfold Runner.awaitAgent, bind, perform, ret.
    destruct (World.copyStarter w) as [[]|?|]; try discriminate.
    destruct (Runner.hasSkill config && World.skillExists w);
      [destruct (World.copySkill w) as [[]|?|]; try discriminate|];
      cbn [fst snd];
      (destruct (World.writePrompt w) as [[]|?|]; try discriminate);
      (destruct (Agent.executeAgent _ _ _); try discriminate);
      (destruct (World.listFiles w) as [l|?|]; try discriminate);
      cbn; intros [= <-] [= <-]; auto.
  - intros [= <-]. auto.
  - discriminate.
Qed.

Lemma recorded_result w client evalDef config skill baseDir i r u :
  recorded w client evalDef config skill baseDir i = Some (r, u) ->
  RunResult.runNumber r = i /\ RunResult.usage r = u.
Proof.
  unfold recorded, Runner.attempt.
  destruct (Runner.isAgentMode config).
  - unfold Runner.agentTrial. rewrite fst_bind.
    destruct (fst (Runner.runAgentEval _ _ _ _ _)) as [ar|msg|] eqn:E;
      [|intros [= <- <-]; auto|discriminate].
    apply runAgentEval_result in E. destruct E as [En _].
    unfold Runner.runEvalTests.
    destruct (RunResult.generatedFiles ar) as [[|f fs]|]; cbn;
      intros [= <- <-]; auto.
  - unfold Runner.sdkTrial. destruct client; cbn [negb].
    + rewrite fst_bind.
      destruct (fst (Runner.runSDKEval _ _ _ _ _ _)) as [[r' u']|msg|] eqn:E;
        [|intros [= <- <-]; auto|discriminate].
      apply runSDKEval_result in E. cbn. intros [= <- <-]. exact E.
    + cbn. intros [= <- <-]. auto.
Qed.

Lemma fold_add_Z (l : list Z) (a : Z) :
  fold_left Z.add l a = a + fold_left Z.add l 0.
Proof.
  revert a. induction l as [|x l IH]; intros a; simpl.
  - lia.
  - rewrite IH, (IH x). lia.
Qed.

Lemma fold_add_usage (rs : list RunResult.t) (total : Usage.t) :
  fold_left Runner.add_usage (map RunResult.usage rs) total =
  Usage.Make
    (Usage.inputTokens total + Runner.sumZ (map reportedInput rs))
    (Usage.outputTokens total + Runner.sumZ (map reportedOutput rs)).
Proof.
  unfold Runner.sumZ.
  revert total. induction rs as [|r rs IH]; intros [a b]; simpl.
  - f_equal; lia.
  - rewrite IH.
    rewrite (fold_add_Z _ (reportedInput r)), (fold_add_Z _ (reportedOutput r)).
    unfold reportedInput, reportedOutput.
    destruct (RunResult.usage r) as [[x y]|]; simpl; f_equal; lia.
Qed.

(** The usage added for a recorded attempt is the one its result carries. *)
Lemma pushed_usage worlds client evalDef config skill baseDir (n : nat) :
  forall i rs,
    pushed worlds client evalDef config skill baseDir n i = Some rs ->
    map snd rs = map RunResult.usage (map fst rs).
Proof.
  induction n as [|n IH]; intros i rs; simpl.
  - now intros [= <-].
  - destruct (World.mkdirWorkspace (worlds i)) as [[]|msg|]; try discriminate.
    destruct (recorded _ _ _ _ _ _ _) as [[r u]|] eqn:Er; try discriminate.
    destruct (pushed _ _ _ _ _ _ n (i + 1)) as [rs'|] eqn:E; try discriminate.
    intros [= <-]. simpl. apply recorded_result in Er. destruct Er as [_ <-].
    f_equal. eauto.
Qed.

(** The shape of what [runEval] returns: the aggregation of the results
    pushed, with the usage of the attempts as the total. *)
Lemma runEval_returns worlds client evalDef config skill baseDir debug r :
  fst (Runner.runEval worlds client evalDef config skill baseDir debug) = Returns r ->
  exists rs runs,
    pushed worlds client evalDef config skill baseDir
      (Z.to_nat (ExperimentConfig.runs config)) 1 = Some rs /\
    r = Runner.aggregate evalDef config
          (Runner.Acc runs
             (Usage.Make (Runner.sumZ (map reportedInput (map fst rs)))
                (Runner.sumZ (map reportedOutput (map fst rs))))).
Proof.
  unfold Runner.runEval. rewrite fst_bind.
  destruct (fst (Runner.trials _ _ _ _ _ _ _ _ _ _)) as [acc|msg|] eqn:E;
    try discriminate.
  cbn. intros [= <-].
  apply trials_returns in E. destruct E as (rs & Hp & Hu).
  exists rs, (Runner.acc_runs acc). split; [exact Hp|]. f_equal.
  destruct acc as [runs usage]. cbn [Runner.acc_runs Runner.acc_usage] in *.
  f_equal. rewrite Hu, (pushed_usage _ _ _ _ _ _ _ _ _ Hp), fold_add_usage.
  reflexivity.
Qed.




(** ** Experiment orchestration *)

Lemma runExperiment_returns ew config evalsDir baseDir debug r :
  fst (Runner.runExperiment ew config evalsDir baseDir debug) = Returns r ->
  exists evalResults, r = Runner.assemble ew config evalResults.
Proof.
  unfold Runner.runExperiment.
  set (rest := fun skill : option SkillDefinition.t => bind _ _).
  assert (Hrest : forall sk, fst (rest sk) = Returns r ->
            exists evalResults, r = Runner.assemble ew config evalResults).
  { intros sk. unfold rest. rewrite fst_bind. cbn [perform fst].
    destruct (Runner.filteredEvals ew) as [[|e evals]|msg|]; try discriminate.
    rewrite fst_bind.
    destruct (fst (Runner.runEvals _ _ _ _ _ _ _)) as [ers|msg|];
      try discriminate.
    cbn. intros [= <-]. eauto. }
  assert (Hgo : fst (bind
            (match ExperimentConfig.skill config with
             | Some p =>
                 if JS.truthy p
                 then bind (perform (ReadSkill p) (Runner.loadSkill ew))
                        (fun sk => ret (Some sk))
                 else ret None
             | None => ret None
             end) rest) = Returns r ->
          exists evalResults, r = Runner.assemble ew config evalResults).
  { rewrite fst_bind.
    destruct (ExperimentConfig.skill config) as [p|]; [destruct (JS.truthy p)|];
      cbn [ret fst]; try apply Hrest.
    rewrite fst_bind. cbn [perform fst].
    destruct (Runner.loadSkill ew); try discriminate. cbn [ret fst]. apply Hrest. }
  destruct (Runner.isAgentMode config);
    destruct (ExperimentConfig.agent config); try exact Hgo.
  discriminate.
Qed.

(** C2 (amended).  Whenever the trials of all tasks add up to a positive
    total, the overall pass rate of an experiment is the sum of the passed
    runs divided by the sum of the total runs, the trial-weighted ratio; when
    the total is not positive it is 0.  It is not the mean of the per-task
    rates: with one task passing its single trial and one failing all ten of
    its trials, it is 1/11 while the mean is 1/2. *)
Theorem C2_overall_pass_rate_is_trial_weighted :
  forall (ew : Runner.ExperimentWorld) (config : ExperimentConfig.t)
         (evalsDir baseDir : string) (debug : bool) (r : ExperimentResult.t),
    fst (Runner.runExperiment ew config evalsDir baseDir debug) = Returns r ->
    let totalRuns :=
      Runner.sumZ (map EvalResult.totalRuns (ExperimentResult.evalResults r)) in
    let totalPassed :=
      Runner.sumZ (map EvalResult.passedRuns (ExperimentResult.evalResults r)) in
    (0 < totalRuns ->
       ExperimentResult.overallPassRate r = Runner.divide totalPassed totalRuns) /\
    (totalRuns <= 0 -> ExperimentResult.overallPassRate r = 0%float) /\
    Runner.overallPassRateOf [taskWith "a" 1 1; taskWith "b" 0 10] =
      Runner.divide 1 11 /\
    meanPassRate [taskWith "a" 1 1; taskWith "b" 0 10] = 0.5%float /\
    PrimFloat.ltb (Runner.divide 1 11) 0.5%float = true.
Proof.
  intros ew config evalsDir baseDir debug r Hret totalRuns totalPassed.
  apply runExperiment_returns in Hret. destruct Hret as [ers ->].
  subst totalRuns totalPassed. cbn [Runner.assemble
    ExperimentResult.evalResults ExperimentResult.overallPassRate].
  unfold Runner.overallPassRateOf at 1 2.
  split; [|split; [|split; [|split]]].
  - intros H. apply Z.ltb_lt in H. rewrite H. reflexivity.
  - intros H. destruct (Z.ltb_spec 0 (Runner.sumZ (map EvalResult.totalRuns ers)));
      [lia|reflexivity].
  - vm_compute. reflexivity.
  - vm_compute. reflexivity.
  - vm_compute. reflexivity.
Qed.


Lemma runExperiment_inversion ew config evalsDir baseDir debug r :
  fst (Runner.runExperiment ew config evalsDir baseDir debug) = Returns r ->
  exists sk evals ers,
    Runner.filteredEvals ew = Returns evals /\
    evals <> [] /\
    fst (Runner.runEvals ew (negb (Runner.isAgentMode config)) config sk
           baseDir debug evals) = Returns ers /\
    r = Runner.assemble ew config ers.
Proof.
  unfold Runner.runExperiment.
  set (rest := fun skill : option SkillDefinition.t => bind _ _).
  set (P := exists sk evals ers,
    Runner.filteredEvals ew = Returns evals /\
    evals <> [] /\
    fst (Runner.runEvals ew (negb (Runner.isAgentMode config)) config sk
           baseDir debug evals) = Returns ers /\
    r = Runner.assemble ew config ers).
  assert (Hrest : forall sk, fst (rest sk) = Returns r -> P).
  { intros sk. unfold rest. rewrite fst_bind. cbn [perform fst].
    destruct (Runner.filteredEvals ew) as [[|e evals]|msg|]; try discriminate.
    rewrite fst_bind.
    destruct (fst (Runner.runEvals _ _ _ _ _ _ _)) as [ers|msg|] eqn:E;
      try discriminate.
    cbn [ret fst]. intros [= <-]. exists sk, (e :: evals)%list, ers.
    repeat split; auto. discriminate. }
  assert (Hgo : fst (bind
            (match ExperimentConfig.skill config with
             | Some p =>
                 if JS.truthy p
                 then bind (perform (ReadSkill p) (Runner.loadSkill ew))
                        (fun sk => ret (Some sk))
                 else ret None
             | None => ret None
             end) rest) = Returns r -> P).
  { rewrite fst_bind.
    destruct (ExperimentConfig.skill config) as [p|]; [destruct (JS.truthy p)|];
      cbn [ret fst]; try apply Hrest.
    rewrite fst_bind. cbn [perform fst].
    destruct (Runner.loadSkill ew); try discriminate. cbn [ret fst]. apply Hrest. }
  destruct (Runner.isAgentMode config);
    destruct (ExperimentConfig.agent config); try exact Hgo.
  discriminate.
Qed.




(** C10.  In agent mode, a trial whose agent did not succeed (it exited with
    a nonzero code, or was stopped at the time-out) but left at least one file
    in the workspace, and whose check run then passes, is recorded with
    [passed] true and with the agent's failure text, "Agent exited with code
    N", still in [error]: that result is pushed and its usage added, as the
    only result of the iteration when the progress callback returns, and as
    the first one whenever the iteration returns. *)
Theorem C10_agent_failure_does_not_fail_a_passing_trial :
  forall (w : World.t) (client : bool) (evalDef : EvalDefinition.t)
         (config : ExperimentConfig.t) (skill : option SkillDefinition.t)
         (baseDir : string) (debug : bool) (i : Z) (acc : Runner.progress)
         (ar : Agent.AgentExecutionResult) (f : string) (fs : list string),
    Runner.isAgentMode config = true ->
    World.mkdirWorkspace w = Returns tt ->
    World.copyStarter w = Returns tt ->
    World.copySkill w = Returns tt ->
    World.writePrompt w = Returns tt ->
    Agent.executeAgent config (World.program w) (ExperimentConfig.timeout config)
      = Some ar ->
    Agent.success ar = false ->
    World.listFiles w = Returns (f :: fs) ->
    CheckRunner.passed
      (CheckRunner.settle (World.JSON_parse w) (World.vitest w)) = true ->
    exists r,
      (World.onProgress w r = Returns tt ->
       fst (Runner.trial w client evalDef config skill baseDir debug i acc) =
         Returns (Runner.Acc (Runner.acc_runs acc ++ [r])%list
                    (Runner.add_usage (Runner.acc_usage acc) (Agent.usage ar)))) /\
      RunResult.runNumber r = i /\
      RunResult.passed r = true /\
      RunResult.error r =
        Some ("Agent exited with code " ++ JS.numToString (Agent.exitCode ar)) /\
      RunResult.generatedFiles r = Some (f :: fs)%list /\
      (forall acc',
         fst (Runner.trial w client evalDef config skill baseDir debug i acc)
           = Returns acc' ->
         exists more,
           Runner.acc_runs acc' = (Runner.acc_runs acc ++ r :: more)%list /\
           Runner.acc_usage acc' =
             Runner.add_usage (Runner.acc_usage acc) (Agent.usage ar)).
Proof.
  intros w client evalDef config skill baseDir debug i acc ar f fs
    Hmode Hmk Hcopy Hskill Hprompt Hexec Hfail Hfiles Hpass.
  destruct (agentTrial_passes_despite_failure w evalDef config
              (Runner.workspacePath baseDir evalDef config i (World.now w)) i
              ar f fs Hcopy Hskill Hprompt Hexec Hfail Hfiles Hpass)
    as (r & Hr & H1 & H2 & H3 & H4).
  assert (Hrec : recorded w client evalDef config skill baseDir i =
                 Some (r, Agent.usage ar)).
  { unfold recorded, Runner.attempt. now rewrite Hmode, Hr. }
  exists r. repeat split; auto.
  - intros Hcb. rewrite trial_fst, Hmk. unfold Runner.attempt.
    rewrite Hmode, Hr. cbn [fst snd]. now rewrite Hcb.
  - intros acc' Hret. apply trial_returns in Hret.
    destruct Hret as (_ & r' & more & Hrec' & Hruns & Hu).
    rewrite Hrec in Hrec'. injection Hrec' as <-. eauto.
Qed.

(** ** Strings *)

Lemma append_assoc (a b c : string) : (a ++ b) ++ c = a ++ (b ++ c).
Proof. induction a as [|x a IH]; simpl; [reflexivity|now rewrite IH]. Qed.

Lemma append_nil_r (a : string) : a ++ "" = a.
Proof. induction a as [|x a IH]; simpl; [reflexivity|now rewrite IH]. Qed.

Lemma append_inj_l (a x y : string) : a ++ x = a ++ y -> x = y.
Proof. induction a as [|c a IH]; simpl; [auto|]. intros [= H]. auto. Qed.

Lemma all_chars_app p (a b : string) :
  JS.all_chars p (a ++ b) = JS.all_chars p a && JS.all_chars p b.
Proof.
  induction a as [|c a IH]; simpl; [reflexivity|].
  now rewrite IH, andb_assoc.
Qed.

Lemma all_chars_weaken (p q : ascii -> bool) (s : string) :
  (forall c, p c = true -> q c = true) ->
  JS.all_chars p s = true -> JS.all_chars q s = true.
Proof.
  intros Hpq. induction s as [|c s IH]; simpl; [auto|].
  intros H. apply andb_prop in H. destruct H as [H1 H2].
  rewrite (Hpq _ H1), IH; auto.
Qed.

(** ** Decimal numerals *)

Lemma uint_digits (d : Decimal.uint) :
  JS.all_chars JS.is_digit (NilEmpty.string_of_uint d) = true.
Proof. induction d; simpl; auto. Qed.

Lemma string_of_uint_nonnil (d : Decimal.uint) :
  d <> Decimal.Nil ->
  NilZero.string_of_uint d = NilEmpty.string_of_uint d /\
  exists c s, NilEmpty.string_of_uint d = String c s.
Proof. destruct d; intros H; try congruence; simpl; eauto. Qed.

(** The numeral of a number that is not negative: digits, at least one. *)
Lemma numToString_digits (z : Z) :
  0 <= z ->
  JS.all_chars JS.is_digit (JS.numToString z) = true /\
  exists c s, JS.numToString z = String c s.
Proof.
  intros Hz. unfold JS.numToString. destruct z as [|p|p]; [| |lia].
  - simpl. split; [reflexivity|eauto].
  - simpl.
    destruct (string_of_uint_nonnil _ (Unsigned.to_uint_nonnil p)) as [-> Hne].
    split; [apply uint_digits|exact Hne].
Qed.

(** Any numeral: digits after an optional sign. *)
Lemma numToString_chars (z : Z) :
  JS.all_chars (fun c => JS.is_digit c || Ascii.eqb c "-") (JS.numToString z)
    = true.
Proof.
  destruct z as [|p|p].
  - reflexivity.
  - apply all_chars_weaken with (p := JS.is_digit).
    + intros c ->. reflexivity.
    + apply numToString_digits. lia.
  - unfold JS.numToString. simpl.
    destruct (string_of_uint_nonnil _ (Unsigned.to_uint_nonnil p)) as [-> _].
    apply all_chars_weaken with (p := JS.is_digit).
    + intros c ->. reflexivity.
    + apply uint_digits.
Qed.

Lemma numToString_inj (a b : Z) : JS.numToString a = JS.numToString b -> a = b.
Proof.
  unfold JS.numToString. intros H.
  apply DecimalZ.to_int_inj.
  assert (Hok : forall z, Z.to_int z <> Decimal.Pos Decimal.Nil /\
                          Z.to_int z <> Decimal.Neg Decimal.Nil).
  { intros [|p|p]; simpl; split; try discriminate;
      intros [= E]; exact (Unsigned.to_uint_nonnil p E). }
  pose proof (NilZero.isi _ (proj1 (Hok a)) (proj2 (Hok a))) as Ha.
  pose proof (NilZero.isi _ (proj1 (Hok b)) (proj2 (Hok b))) as Hb.
  rewrite H in Ha. congruence.
Qed.

(** Two numerals of digits, each followed by a hyphen, that start the same
    string are the same numeral. *)
Lemma digits_then_hyphen (a b x y : string) :
  JS.all_chars JS.is_digit a = true ->
  JS.all_chars JS.is_digit b = true ->
  a ++ String "-" x = b ++ String "-" y -> a = b.
Proof.
  revert b. induction a as [|c a IH]; intros [|d b]; simpl; intros Ha Hb H.
  - reflexivity.
  - injection H as <- _. discriminate.
  - injection H as -> _. discriminate.
  - apply andb_prop in Ha. apply andb_prop in Hb.
    injection H as <- H. f_equal. apply IH; tauto.
Qed.

(** ** Paths *)

Lemma split_acc_no_sep (sep : ascii) (s cur : string) :
  JS.all_chars (fun c => negb (Ascii.eqb c sep)) s = true ->
  JS.split_acc sep s cur = [cur ++ s].
Proof.
  revert cur. induction s as [|c s IH]; intros cur; simpl.
  - now rewrite append_nil_r.
  - intros H. apply andb_prop in H. destruct H as [Hc Hs].
    apply negb_true_iff in Hc. rewrite Hc, IH by exact Hs.
    now rewrite append_assoc.
Qed.

(** Splitting [pre ++ s] when [s] holds no separator: the pieces of [pre],
    the last one continued by [s]. *)
Lemma split_acc_app (sep : ascii) (pre : string) :
  forall cur, exists init lastseg,
    forall s, JS.all_chars (fun c => negb (Ascii.eqb c sep)) s = true ->
      JS.split_acc sep (pre ++ s) cur = (init ++ [(lastseg ++ s)%string])%list.
Proof.
  induction pre as [|c pre IH]; intros cur.
  - exists [], cur. intros s Hs. simpl. now apply split_acc_no_sep.
  - simpl. destruct (Ascii.eqb c sep).
    + destruct (IH "") as (init & lastseg & H).
      exists (cur :: init)%list, lastseg. intros s Hs. simpl. now rewrite H.
    + destruct (IH (cur ++ String c "")) as (init & lastseg & H).
      exists init, lastseg. exact H.
Qed.

Lemma join_cons (sep x : string) (l : list string) :
  l <> [] -> JS.join sep (x :: l) = x ++ sep ++ JS.join sep l.
Proof. destruct l; [congruence|reflexivity]. Qed.

Lemma join_snoc (sep : string) (K : list string) :
  exists P, forall x, JS.join sep (K ++ [x]) = P ++ x.
Proof.
  induction K as [|k K [P IH]].
  - exists "". reflexivity.
  - exists (k ++ sep ++ P). intros x. simpl app.
    rewrite join_cons by (destruct K; discriminate).
    now rewrite IH, !append_assoc.
Qed.

Lemma app_digit_not_empty (l : string) (c : ascii) (s : string) :
  l ++ String c s <> "".
Proof. destruct l; discriminate. Qed.

Lemma app_digit_not_dot (l : string) (c : ascii) (s : string) :
  JS.is_digit c = true -> l ++ String c s <> ".".
Proof.
  intros Hc. destruct l as [|a l]; simpl.
  - intros [= -> _]. discriminate.
  - intros [= _ H]. exact (app_digit_not_empty _ _ _ H).
Qed.

Lemma app_digit_not_dotdot (l : string) (c : ascii) (s : string) :
  JS.is_digit c = true -> l ++ String c s <> "..".
Proof.
  intros Hc. destruct l as [|a l]; simpl.
  - intros [= -> _]. discriminate.
  - intros [= _ H]. exact (app_digit_not_dot _ _ _ Hc H).
Qed.

(** A segment that starts with a digit is kept as it is. *)
Lemma push_segment_digit (allow : bool) (kept : list string)
  (l : string) (c : ascii) (s : string) :
  JS.is_digit c = true ->
  Path.push_segment allow kept (l ++ String c s) =
    (kept ++ [(l ++ String c s)%string])%list.
Proof.
  intros Hc. unfold Path.push_segment.
  destruct (String.eqb_spec (l ++ String c s) "") as [E|_];
    [exact (False_ind _ (app_digit_not_empty _ _ _ E))|].
  destruct (String.eqb_spec (l ++ String c s) ".") as [E|_];
    [exact (False_ind _ (app_digit_not_dot _ _ _ Hc E))|].
  destruct (String.eqb_spec (l ++ String c s) "..") as [E|_];
    [exact (False_ind _ (app_digit_not_dotdot _ _ _ Hc E))|].
  reflexivity.
Qed.

Lemma last_char_app (pre : string) (c : ascii) (s : string) :
  Path.last_char (pre ++ String c s) = Path.last_char (String c s).
Proof.
  induction pre as [|a pre IH]; [reflexivity|].
  simpl append. change (Path.last_char (String a (pre ++ String c s)))
    with (match pre ++ String c s with
          | EmptyString => Some a
          | String _ _ => Path.last_char (pre ++ String c s)
          end).
  destruct (pre ++ String c s) eqn:E; [destruct pre; discriminate|].
  exact IH.
Qed.

Lemma last_char_no_slash (s : string) :
  no_slash s = true ->
  match Path.last_char s with
  | Some c => Ascii.eqb c Path.slash = false
  | None => True
  end.
Proof.
  induction s as [|c s IH]; simpl; [auto|].
  intros H. apply andb_prop in H. destruct H as [Hc Hs].
  apply negb_true_iff in Hc. destruct s; [exact Hc|]. apply IH. exact Hs.
Qed.

Lemma normalize_nonempty (p : string) :
  p <> "" ->
  Path.normalize p =
  let q := Path.normalizeString p (negb (Path.isAbsolute p)) in
  match q with
  | EmptyString =>
      if Path.isAbsolute p then "/"
      else if Path.hasTrailingSeparator p then "./" else "."
  | _ =>
      let q' := if Path.hasTrailingSeparator p then q ++ "/" else q in
      if Path.isAbsolute p then "/" ++ q' else q'
  end.
Proof. destruct p; [congruence|reflexivity]. Qed.

(** Normalizing [pre ++ s], for a tail [s] that starts with a digit and holds
    no [/]: a prefix that depends on [pre] alone, then [s] untouched. *)
Lemma normalize_app (pre : string) :
  exists A, forall c s,
    JS.is_digit c = true -> no_slash (String c s) = true ->
    Path.normalize (pre ++ String c s) = A ++ String c s.
Proof.
  set (abs := match pre with
              | String a _ => Ascii.eqb a Path.slash
              | EmptyString => false
              end).
  destruct (split_acc_app Path.slash pre "") as (init & lastseg & Hsplit).
  destruct (join_snoc "/" (fold_left (Path.push_segment (negb abs)) init []))
    as [P HP].
  exists ((if abs then "/" else "") ++ P ++ lastseg).
  intros c s Hc Hs.
  assert (Habs : Path.isAbsolute (pre ++ String c s) = abs).
  { subst abs. destruct pre; simpl; [|reflexivity].
    unfold no_slash in Hs. simpl in Hs. apply andb_prop in Hs.
    destruct Hs as [Hs _]. now apply negb_true_iff in Hs. }
  assert (Htrail : Path.hasTrailingSeparator (pre ++ String c s) = false).
  { unfold Path.hasTrailingSeparator. rewrite last_char_app.
    pose proof (last_char_no_slash _ Hs) as H.
    destruct (Path.last_char (String c s)); auto. }
  assert (Hq : Path.normalizeString (pre ++ String c s) (negb abs) =
               P ++ lastseg ++ String c s).
  { unfold Path.normalizeString, JS.split.
    rewrite Hsplit by exact Hs.
    rewrite fold_left_app. simpl fold_left.
    rewrite push_segment_digit by exact Hc. apply HP. }
  rewrite normalize_nonempty by apply app_digit_not_empty.
  cbv zeta. rewrite Habs, Htrail, Hq.
  destruct (P ++ lastseg ++ String c s) eqn:Eq.
  - rewrite <- append_assoc in Eq.
    exact (False_ind _ (app_digit_not_empty _ _ _ Eq)).
  - rewrite <- Eq. destruct abs; simpl; now rewrite ?append_assoc.
Qed.

Lemma join_workspace (baseDir runId : string) :
  JS.truthy runId = true ->
  Path.join [baseDir; ".workspaces"; runId] =
  Path.normalize
    ((if JS.truthy baseDir then baseDir ++ "/.workspaces/" else ".workspaces/")
     ++ runId).
Proof.
  intros H. unfold Path.join. cbn [filter].
  change (JS.truthy ".workspaces") with true. rewrite H. cbv iota.
  destruct (JS.truthy baseDir); cbn [JS.join]; f_equal.
  rewrite !append_assoc. reflexivity.
Qed.

Lemma digit_no_slash (s : string) :
  JS.all_chars (fun c => JS.is_digit c || Ascii.eqb c "-") s = true ->
  no_slash s = true.
Proof.
  apply all_chars_weaken. intros c.
  destruct c as [[] [] [] [] [] [] [] []]; try discriminate; reflexivity.
Qed.

(** The part of a run identifier that follows ["-run"]: it starts with a
    digit and holds no [/]. *)
Lemma runId_tail (k t : Z) :
  1 <= k ->
  exists c s,
    JS.numToString k ++ "-" ++ JS.numToString t = String c s /\
    JS.is_digit c = true /\ no_slash (String c s) = true.
Proof.
  intros Hk.
  destruct (numToString_digits k ltac:(lia)) as (Hdig & c & s & Ek).
  exists c, (s ++ "-" ++ JS.numToString t).
  split; [now rewrite Ek|].
  assert (Hall : JS.all_chars (fun c => JS.is_digit c || Ascii.eqb c "-")
                   (JS.numToString k ++ "-" ++ JS.numToString t) = true).
  { rewrite !all_chars_app, !andb_true_iff. split; [|split].
    - apply all_chars_weaken with (2 := Hdig). now intros a ->.
    - reflexivity.
    - apply numToString_chars. }
  rewrite Ek in Hdig, Hall. split.
  - simpl in Hdig. apply andb_prop in Hdig. tauto.
  - apply digit_no_slash. exact Hall.
Qed.

Lemma workspacePath_shape baseDir evalDef config :
  exists A, forall k t, 1 <= k ->
    Runner.workspacePath baseDir evalDef config k t =
    A ++ JS.numToString k ++ "-" ++ JS.numToString t.
Proof.
  set (P := EvalDefinition.name evalDef ++ "-" ++ ExperimentConfig.name config
            ++ "-run").
  set (Q := if JS.truthy baseDir then baseDir ++ "/.workspaces/"
            else ".workspaces/").
  destruct (normalize_app (Q ++ P)) as [A HA].
  exists A. intros k t Hk.
  destruct (runId_tail k t Hk) as (c & s & E & Hc & Hs).
  assert (Hid : Runner.runId evalDef config k t = P ++ String c s).
  { unfold Runner.runId. rewrite <- E. subst P. now rewrite !append_assoc. }
  unfold Runner.workspacePath. rewrite join_workspace.
  - fold Q. rewrite Hid, <- append_assoc, E. now apply HA.
  - rewrite Hid. destruct P; reflexivity.
Qed.

Lemma workspacePaths_differ (baseDir : string) (evalDef : EvalDefinition.t)
  (config : ExperimentConfig.t) (i j now_i now_j : Z) :
  1 <= i -> 1 <= j -> i <> j ->
  Runner.workspacePath baseDir evalDef config i now_i <>
  Runner.workspacePath baseDir evalDef config j now_j.
Proof.
  intros Hi Hj Hne Heq. apply Hne.
  destruct (workspacePath_shape baseDir evalDef config) as [A HA].
  rewrite (HA i now_i Hi), (HA j now_j Hj) in Heq.
  apply append_inj_l in Heq.
  apply numToString_inj.
  eapply digits_then_hyphen; [| |exact Heq];
    apply numToString_digits; lia.
Qed.

(** C9.  Two distinct trials of the same task under the same configuration
    work in distinct directories, whatever the clock shows when each starts,
    the same instant included.  The directory of a trial is the one its
    iteration of [runEval] makes first, [baseDir/.workspaces/] followed by
    the task name, the configuration name, ["-run"], the trial index, a
    hyphen and the time stamp; the attempt of the trial is run in it, and it
    is the directory removed at the end. *)
Theorem C9_workspace_paths_are_distinct :
  forall (baseDir : string) (evalDef : EvalDefinition.t)
         (config : ExperimentConfig.t) (client : bool)
         (skill : option SkillDefinition.t) (debug : bool)
         (w_i w_j : World.t) (i j : Z) (acc_i acc_j : Runner.progress),
    1 <= i -> 1 <= j -> i <> j ->
    let trial_i :=
      Runner.trial w_i client evalDef config skill baseDir debug i acc_i in
    let trial_j :=
      Runner.trial w_j client evalDef config skill baseDir debug j acc_j in
    exists d_i d_j,
      workspaceOf trial_i = Some d_i /\
      workspaceOf trial_j = Some d_j /\
      d_i <> d_j /\
      d_i = Path.join [baseDir; ".workspaces";
                       Runner.runId evalDef config i (World.now w_i)] /\
      (World.mkdirWorkspace w_i = Returns tt ->
       exists rest,
         snd trial_i =
           (Mkdir d_i ::
            snd (Runner.attempt w_i client evalDef config skill d_i i) ++ rest)%list /\
         forall d, In (RemoveDir d) rest -> d = d_i).
Proof.
  intros baseDir evalDef config client skill debug w_i w_j i j acc_i acc_j
    Hi Hj Hne trial_i trial_j.
  exists (Runner.workspacePath baseDir evalDef config i (World.now w_i)),
         (Runner.workspacePath baseDir evalDef config j (World.now w_j)).
  subst trial_i trial_j. unfold workspaceOf. rewrite !trial_snd.
  split; [reflexivity|]. split; [reflexivity|].
  split; [now apply workspacePaths_differ|]. split; [reflexivity|].
  intros Hmk. rewrite Hmk. eexists. split; [reflexivity|].
  intros d Hd.
  assert (Hclean :
            In (RemoveDir d) (if debug then [] else
              [RemoveDir (Runner.workspacePath baseDir evalDef config i
                            (World.now w_i))]) ->
            d = Runner.workspacePath baseDir evalDef config i (World.now w_i)).
  { destruct debug; [intros []|]. intros [[= ->]|[]]. reflexivity. }
  destruct (fst (Runner.attempt _ _ _ _ _ _ _)) as [r|msg|]; cbn in Hd.
  - destruct Hd as [Hd|Hd]; [discriminate|].
    destruct (World.onProgress w_i (fst r)) as [[]|msg|]; cbn in Hd; auto;
      [|contradiction].
    destruct Hd as [Hd|Hd]; [discriminate|].
    destruct (World.onProgressCaught w_i _); cbn in Hd; auto; contradiction.
  - destruct Hd as [Hd|Hd]; [discriminate|].
    destruct (World.onProgressCaught w_i _); cbn in Hd; auto; contradiction.
  - contradiction.
Qed.

(** * The output extractor *)

(** ** The matcher, one construct at a time *)

Section MatcherFacts.
Import Regex.

Lemma run_Cat a b st k : run (Cat a b) st k = run a st (fun st' => run b st' k).
Proof. reflexivity. Qed.

Lemma run_Alt a b st k :
  run (Alt a b) st k =
  match run a st k with Some x => Some x | None => run b st k end.
Proof. reflexivity. Qed.

Lemma run_Star g a st k :
  run (Star g a) st k =
  star_loop g (run a) k (S (String.length (rest st))) st.
Proof. reflexivity. Qed.

Lemma run_Grp i a st k :
  run (Grp i a) st k =
  run a st (fun st' => k (set_cap i (JS.take (pos st' - pos st) (rest st)) st')).
Proof. reflexivity. Qed.

Lemma run_Chr_hit p c s' n cs k :
  p c = true ->
  run (Chr p) (MState n (String c s') cs) k = k (MState (S n) s' cs).
Proof. intros H. simpl. now rewrite H. Qed.

Lemma run_Chr_miss p st k :
  match rest st with
  | String c _ => p c = false
  | EmptyString => True
  end ->
  run (Chr p) st k = None.
Proof. simpl. destruct (rest st) as [|c s']; [reflexivity|]. now intros ->. Qed.

Lemma run_chr c s' n cs k :
  run (chr c) (MState n (String c s') cs) k = k (MState (S n) s' cs).
Proof. apply run_Chr_hit. apply Ascii.eqb_refl. Qed.

(** A literal that is there is consumed. *)
Lemma run_lit s : forall r n cs k,
  run (lit s) (MState n (s ++ r) cs) k = k (MState (n + String.length s) r cs).
Proof.
  induction s as [|c s IH]; intros r n cs k.
  - simpl. now rewrite Nat.add_0_r.
  - change (lit (String c s)) with (Cat (chr c) (lit s)).
    rewrite run_Cat. simpl append. rewrite run_chr, IH.
    simpl String.length. now rewrite Nat.add_succ_r.
Qed.

(** A literal that is not there fails, whatever follows it. *)
Lemma run_lit_miss s : forall st k,
  JS.startsWith s (rest st) = false -> run (lit s) st k = None.
Proof.
  induction s as [|c s IH]; intros [n r cs] k; simpl rest.
  - destruct r; discriminate.
  - destruct r as [|d r]; intros H.
    + reflexivity.
    + change (lit (String c s)) with (Cat (chr c) (lit s)).
      rewrite run_Cat. simpl in H.
      destruct (Ascii.eqb c d) eqn:E.
      * apply Ascii.eqb_eq in E. subst d. rewrite run_chr.
        apply IH. exact H.
      * apply run_Chr_miss. exact E.
Qed.

(** A greedy run over a class: when the text starts with [s], all in the
    class, and goes on with [r], not starting in the class, and the
    continuation succeeds after [s], that success is the result. *)
Lemma star_greedy_class (p : ascii -> bool) (k : cont) (r : string)
  (cs : list (nat * string)) (x : mstate) :
  match r with
  | String c _ => p c = false
  | EmptyString => True
  end ->
  forall (s : string) (fuel n : nat),
    JS.all_chars p s = true ->
    (String.length s < fuel)%nat ->
    k (MState (n + String.length s) r cs) = Some x ->
    star_loop true (run (Chr p)) k fuel (MState n (s ++ r) cs) = Some x.
Proof.
  intros Hr. induction s as [|c s IH]; intros fuel n Hs Hfuel Hk.
  - destruct fuel as [|fuel]; [simpl in Hfuel; lia|].
    simpl String.length in Hk. rewrite Nat.add_0_r in Hk.
    simpl append. cbn [star_loop]. rewrite run_Chr_miss by exact Hr. exact Hk.
  - destruct fuel as [|fuel]; [simpl in Hfuel; lia|].
    simpl in Hs. apply andb_prop in Hs. destruct Hs as [Hc Hs].
    simpl append. cbn [star_loop]. rewrite run_Chr_hit by exact Hc.
    cbn [pos]. replace (Nat.eqb (S n) n) with false
      by (symmetry; apply Nat.eqb_neq; lia).
    rewrite IH; [reflexivity|exact Hs|simpl in Hfuel; lia|].
    simpl String.length in Hk. now rewrite Nat.add_succ_r in Hk.
Qed.

(** A lazy run over any character: when the continuation fails before every
    character of [s] and succeeds after [s], that success is the result. *)
Lemma star_lazy_any (k : cont) (r : string) (cs : list (nat * string))
  (x : mstate) :
  forall (s : string) (fuel n : nat),
    (String.length s < fuel)%nat ->
    (forall a b, s = a ++ b -> b <> "" ->
       k (MState (n + String.length a) (b ++ r) cs) = None) ->
    k (MState (n + String.length s) r cs) = Some x ->
    star_loop false (run any) k fuel (MState n (s ++ r) cs) = Some x.
Proof.
  induction s as [|c s IH]; intros fuel n Hfuel Hbefore Hk.
  - destruct fuel as [|fuel]; [simpl in Hfuel; lia|].
    simpl String.length in Hk. rewrite Nat.add_0_r in Hk.
    simpl append. cbn [star_loop]. now rewrite Hk.
  - destruct fuel as [|fuel]; [simpl in Hfuel; lia|].
    simpl append. cbn [star_loop].
    pose proof (Hbefore "" (String c s) eq_refl ltac:(discriminate)) as H0.
    simpl in H0. rewrite Nat.add_0_r in H0. rewrite H0.
    unfold any. rewrite run_Chr_hit by reflexivity.
    cbn [pos]. replace (Nat.eqb (S n) n) with false
      by (symmetry; apply Nat.eqb_neq; lia).
    apply IH.
    + simpl in Hfuel. lia.
    + intros a b Hab Hb.
      pose proof (Hbefore (String c a) b ltac:(now rewrite Hab) Hb) as H.
      simpl String.length in H. now rewrite Nat.add_succ_r in H.
    + simpl String.length in Hk. now rewrite Nat.add_succ_r in Hk.
Qed.

End MatcherFacts.

Section LookaheadFacts.
Import Regex.

Lemma star_loop_keeps_caps g step :
  keeps_caps step ->
  forall fuel, keeps_caps (fun st k => star_loop g step k fuel st).
Proof.
  intros Hstep fuel.
  induction fuel as [|fuel IH]; intros st k x; cbn [star_loop].
  - intros H. exists st. auto.
  - set (again := step st _).
    assert (Hagain : again = Some x ->
              exists st', k st' = Some x /\ caps st' = caps st).
    { subst again. intros H. apply Hstep in H.
      destruct H as (st1 & H1 & Hc1).
      destruct (Nat.eqb (pos st1) (pos st)); [discriminate|].
      apply IH in H1. destruct H1 as (st' & Hk & Hc).
      exists st'. split; [exact Hk|congruence]. }
    destruct g.
    + destruct again as [y|]; [intros [= <-]; now apply Hagain|].
      intros H. exists st. auto.
    + destruct (k st) as [y|] eqn:Ek; [intros [= <-]; exists st; auto|].
      exact Hagain.
Qed.

Lemma run_keeps_caps r : groupless r = true -> keeps_caps (run r).
Proof.
  induction r as [| p | a IHa b IHb | a IHa b IHb | g a IHa | i a IHa
                 | a IHa | | ]; simpl groupless; intros Hg st k x.
  - simpl. intros H. exists st. auto.
  - simpl. destruct (rest st) as [|c s']; [discriminate|].
    destruct (p c); [|discriminate]. intros H. eexists. split; [exact H|].
    reflexivity.
  - apply andb_prop in Hg. destruct Hg as [Ha Hb].
    rewrite run_Cat. intros H. apply (IHa Ha) in H.
    destruct H as (st1 & H1 & Hc1). apply (IHb Hb) in H1.
    destruct H1 as (st2 & H2 & Hc2). exists st2. split; [exact H2|congruence].
  - apply andb_prop in Hg. destruct Hg as [Ha Hb].
    rewrite run_Alt. destruct (run a st k) as [y|] eqn:E.
    + intros [= <-]. now apply (IHa Ha) in E.
    + now apply (IHb Hb).
  - rewrite run_Star.
    apply (star_loop_keeps_caps g (run a) (IHa Hg)).
  - discriminate.
  - simpl. destruct (run a st Some) as [st1|] eqn:E; [|discriminate].
    apply (IHa Hg) in E. destruct E as (st' & [= ->] & Hc).
    intros H. eexists. split; [exact H|]. exact Hc.
  - simpl. destruct (Nat.eqb (pos st) 0); [|discriminate].
    intros H. exists st. auto.
  - simpl. destruct (rest st); [|discriminate]. intros H. exists st. auto.
Qed.

Lemma startsWith_nl (s : string) :
  JS.startsWith JS.nl s = true -> exists s', s = String JS.LF s'.
Proof.
  destruct s as [|c s']; [discriminate|]. cbn [JS.startsWith JS.nl].
  destruct (Ascii.eqb_spec JS.LF c) as [<-|]; [eauto|discriminate].
Qed.

(** The lookahead [(?=\s*\n|$)] holds at the end of the text and before a
    line feed; it consumes nothing and captures nothing. *)
Lemma run_lookahead (n : nat) (post : string) (cs : list (nat * string))
  (k : cont) :
  JS.startsWith JS.nl post = true \/ post = "" ->
  run (Ahead (Alt (Cat (Star true space) (chr JS.LF)) Eos))
    (MState n post cs) k = k (MState n post cs).
Proof.
  intros Hpost.
  set (la := Alt (Cat (Star true space) (chr JS.LF)) Eos).
  assert (Hsome : exists z, run la (MState n post cs) Some = Some z).
  { subst la. rewrite run_Alt.
    destruct Hpost as [H| ->]; [|simpl; eexists; reflexivity].
    apply startsWith_nl in H. destruct H as [post' ->].
    assert (Hfirst : exists z,
      run (Cat (Star true space) (chr JS.LF))
        (MState n (String JS.LF post') cs) Some = Some z).
    { rewrite run_Cat, run_Star. cbn [rest String.length star_loop].
      match goal with |- context [match ?a with Some x => Some x | None => _ end] =>
        destruct a as [y|]; [eexists; reflexivity|] end.
      cbv beta. rewrite run_chr. eexists. reflexivity. }
    destruct Hfirst as [z ->]. eexists. reflexivity. }
  destruct Hsome as [z Hz].
  assert (Hc : caps z = cs).
  { apply (run_keeps_caps la eq_refl) in Hz.
    destruct Hz as (st' & [= ->] & Hc). exact Hc. }
  change (run (Ahead la) (MState n post cs) k) with
    (match run la (MState n post cs) Some with
     | Some st' => k (MState n post (caps st'))
     | None => None
     end).
  rewrite Hz, Hc. reflexivity.
Qed.

End LookaheadFacts.

(** ** The first pass on a well-formed fence *)

Section PrimaryPassFacts.
Import Regex.

Lemma take_app_length (a b : string) : JS.take (String.length a) (a ++ b) = a.
Proof. induction a as [|c a IH]; simpl; [now destruct b|now rewrite IH]. Qed.

Lemma run_opt_language (lang r : string) (n : nat) (cs : list (nat * string))
  (k : cont) (x : mstate) :
  recognized lang ->
  k (MState (n + String.length lang) (JS.nl ++ r) cs) = Some x ->
  run (Opt (alts Extractor.languages)) (MState n (lang ++ JS.nl ++ r) cs) k
    = Some x.
Proof.
  intros Hlang Hk. unfold Opt, Extractor.languages. cbn [alts].
  destruct Hlang as [<-|[<-|[<-|[<-|[<-|[]]]]]].
  - rewrite !run_Alt, !run_lit_miss by reflexivity.
    simpl in Hk. rewrite Nat.add_0_r in Hk. exact Hk.
  - rewrite run_Alt, run_Alt, run_lit, Hk. reflexivity.
  - rewrite run_Alt, run_Alt, run_lit_miss by reflexivity.
    rewrite run_Alt, run_lit, Hk. reflexivity.
  - rewrite run_Alt, run_Alt, run_lit_miss by reflexivity.
    rewrite run_Alt, run_lit_miss by reflexivity.
    rewrite run_Alt, run_lit, Hk. reflexivity.
  - rewrite run_Alt, run_Alt, run_lit_miss by reflexivity.
    rewrite run_Alt, run_lit_miss by reflexivity.
    rewrite run_Alt, run_lit_miss by reflexivity.
    rewrite run_lit, Hk. reflexivity.
Qed.

(** Nothing of the closing sequence starts inside the content. *)
Lemma no_close_inside (body r : string) :
  no_fence_at_line_start body = true ->
  forall a b, body = a ++ b -> b <> "" ->
    JS.startsWith (JS.nl ++ Extractor.fence)
      (b ++ JS.nl ++ Extractor.fence ++ r) = false.
Proof.
  unfold no_fence_at_line_start. intros H a b -> Hb.
  apply negb_true_iff in H.
  assert (Hsuffix : forall a0 b0,
            JS.includes (JS.nl ++ Extractor.fence) (a0 ++ b0) = false ->
            JS.startsWith (JS.nl ++ Extractor.fence) b0 = false).
  { induction a0 as [|c a0 IH]; intros b0 H0.
    - simpl append in H0. destruct b0; cbn [JS.includes] in H0;
        apply orb_false_elim in H0; tauto.
    - apply IH. simpl append in H0. cbn [JS.includes] in H0.
      apply orb_false_elim in H0. tauto. }
  pose proof (Hsuffix (JS.nl ++ a) b) as Hb0.
  rewrite append_assoc in Hb0. specialize (Hb0 H).
  destruct b as [|c1 [|c2 [|c3 [|c4 b]]]]; try congruence;
    cbn [JS.startsWith JS.nl Extractor.fence append] in Hb0 |- *;
    repeat match goal with
           | |- context [Ascii.eqb ?x ?y] =>
               destruct (Ascii.eqb_spec x y); subst; cbn [andb]
           end; try reflexivity; try discriminate; try assumption.
Qed.

Lemma length_app (a b : string) :
  String.length (a ++ b) = (String.length a + String.length b)%nat.
Proof. induction a as [|c a IH]; simpl; [reflexivity|now rewrite IH]. Qed.

Lemma take_group_1 (m : nat) (c : ascii) (f r : string) :
  JS.take (S m + String.length f - m) (String c (f ++ r)) = String c f.
Proof.
  replace (S m + String.length f - m)%nat with (S (String.length f)) by lia.
  simpl. now rewrite take_app_length.
Qed.

Lemma take_group_2 (m : nat) (body r : string) :
  JS.take (m + String.length body - m) (body ++ r) = body.
Proof.
  replace (m + String.length body - m)%nat with (String.length body) by lia.
  apply take_app_length.
Qed.

Lemma run_close_miss (x : regex) (st : mstate) (k : cont) :
  JS.startsWith (JS.nl ++ Extractor.fence) (rest st) = false ->
  run (Cat (chr JS.LF) (Cat (lit Extractor.fence) x)) st k = None.
Proof.
  intros H.
  change (run (Cat (chr JS.LF) (Cat (lit Extractor.fence) x)) st k)
    with (run (lit (JS.nl ++ Extractor.fence)) st (fun st' => run x st' k)).
  now apply run_lit_miss.
Qed.

Lemma nl_app (s : string) : JS.nl ++ s = String JS.LF s.
Proof. reflexivity. Qed.

Lemma run_Alt_first a b st k x :
  run a st k = Some x -> run (Alt a b) st k = Some x.
Proof. intros H. rewrite run_Alt, H. reflexivity. Qed.

Lemma is_LF_space (c : ascii) : JS.is_space c = false -> JS.is_LF c = false.
Proof.
  unfold JS.is_LF. destruct (Ascii.eqb_spec c JS.LF) as [->|]; [|reflexivity].
  discriminate.
Qed.

(** The expression matches a well-formed block from its first character to
    the end of its closing marker, taking the declared name and the whole
    content. *)
Lemma match_fenced (n : nat) (lang fname body post : string) :
  recognized lang ->
  plainName fname = true ->
  body <> "" ->
  no_fence_at_line_start body = true ->
  ends_line post = true ->
  exists e,
    run Extractor.codeBlockRegex
      (MState n (fenced lang fname body ++ post) []) Some =
    Some (MState e post [(2%nat, body); (1%nat, fname)]).
Proof.
  intros Hlang Hname Hbody Hclean Hpost.
  destruct fname as [|c f]; [discriminate|].
  cbn [plainName JS.all_chars] in Hname.
  apply andb_prop in Hname. destruct Hname as [Hc Hf].
  apply andb_prop in Hf. destruct Hf as [_ Hf].
  apply negb_true_iff in Hc.
  eexists. unfold Extractor.codeBlockRegex, fenced.
  rewrite !append_assoc.
  (* the opening marker and its tag *)
  rewrite run_Cat, run_lit, run_Cat.
  apply run_opt_language; [exact Hlang|].
  rewrite run_Cat, nl_app, run_chr.
  (* the file-name comment *)
  rewrite run_Cat. unfold Opt at 1. apply run_Alt_first.
  change ("// " ++ String c f ++ ?x) with ("//" ++ " " ++ String c (f ++ x)).
  rewrite run_Cat, run_lit, run_Cat, run_Star. unfold space.
  apply star_greedy_class; [exact Hc|reflexivity|simpl; lia|].
  rewrite run_Cat, run_Grp. unfold Plus. rewrite run_Cat. unfold notLF at 1.
  rewrite run_Chr_hit by (now rewrite (is_LF_space _ Hc)).
  rewrite run_Star. unfold notLF.
  apply star_greedy_class;
    [reflexivity|exact Hf|cbn [rest]; rewrite length_app; lia|].
  unfold set_cap. cbn [pos rest caps].
  rewrite take_group_1, (nl_app (body ++ _)), run_chr.
  (* the content, up to the first closing sequence *)
  rewrite run_Cat, run_Grp, run_Star.
  apply star_lazy_any.
  - cbn [rest]. rewrite length_app. lia.
  - intros a b Hab Hb. unfold set_cap. cbn [pos rest caps].
    apply run_close_miss. cbn [rest].
    now apply (no_close_inside body post Hclean a b).
  - unfold set_cap. cbn [pos rest caps]. rewrite take_group_2.
    rewrite run_Cat, nl_app, run_chr, run_Cat, run_lit.
    fold space. rewrite run_lookahead; [reflexivity|].
    unfold ends_line in Hpost. apply orb_prop in Hpost.
    destruct Hpost as [H|H]; [now left|right; now apply String.eqb_eq].
Qed.

Lemma match_here_miss (p : nat) (s : string) :
  JS.startsWith Extractor.fence s = false ->
  match_here Extractor.codeBlockRegex p s = None.
Proof.
  intros H. unfold match_here, Extractor.codeBlockRegex.
  rewrite run_Cat, run_lit_miss by exact H. reflexivity.
Qed.

Lemma prose_cons (c : ascii) (s : string) :
  prose (String c s) = true ->
  JS.startsWith Extractor.fence (String c s) = false /\ prose s = true.
Proof.
  unfold prose. cbn [JS.includes]. intros H. apply negb_true_iff in H.
  apply orb_false_elim in H. destruct H as [H1 H2]. now rewrite H2.
Qed.

(** Where there is no fence marker the expression matches nowhere. *)
Lemma search_prose (s : string) :
  prose s = true -> forall p, search Extractor.codeBlockRegex p s = None.
Proof.
  induction s as [|c s IH]; intros H p.
  - reflexivity.
  - apply prose_cons in H. destruct H as [H1 H2].
    cbn [search]. rewrite match_here_miss by exact H1. now apply IH.
Qed.

(** A marker does not start in prose that ends a line, whatever follows. *)
Lemma no_fence_across (b x : string) :
  b <> "" -> prose b = true -> at_line_start b = true ->
  JS.startsWith Extractor.fence (b ++ x) = false.
Proof.
  intros Hb Hprose Hline.
  destruct b as [|c1 [|c2 [|c3 b]]]; [congruence| | |].
  - cbn in Hline. apply Ascii.eqb_eq in Hline. subst c1. reflexivity.
  - cbn in Hline. apply Ascii.eqb_eq in Hline. subst c2.
    cbn [append JS.startsWith Extractor.fence].
    destruct (Ascii.eqb "`" c1); reflexivity.
  - apply prose_cons in Hprose. destruct Hprose as [H _].
    cbn [append JS.startsWith Extractor.fence] in H |- *. exact H.
Qed.

Lemma at_line_start_tail (c : ascii) (s : string) :
  at_line_start (String c s) = true -> at_line_start s = true.
Proof. destruct s; [reflexivity|auto]. Qed.

(** The search walks through such prose to what follows it. *)
Lemma search_skip (pre : string) :
  forall (x : string) (p : nat),
    prose pre = true -> at_line_start pre = true ->
    search Extractor.codeBlockRegex p (pre ++ x) =
    search Extractor.codeBlockRegex (p + String.length pre) x.
Proof.
  induction pre as [|c pre IH]; intros x p Hprose Hline.
  - simpl. now rewrite Nat.add_0_r.
  - simpl append. cbn [search].
    rewrite match_here_miss
      by (apply (no_fence_across (String c pre) x); [discriminate|assumption..]).
    rewrite IH.
    + simpl String.length. now rewrite Nat.add_succ_r.
    + now apply prose_cons in Hprose.
    + now apply at_line_start_tail in Hline.
Qed.

(** The first pass on a response made of prose, one well-formed block and
    prose again: one match, holding the declared name and the content. *)
Lemma exec_all_fenced (pre lang fname body post : string) :
  prose pre = true -> at_line_start pre = true ->
  recognized lang -> plainName fname = true -> body <> "" ->
  no_fence_at_line_start body = true ->
  ends_line post = true -> prose post = true ->
  exists m,
    (forall fuel,
       exec_all (S fuel) Extractor.codeBlockRegex 0
         (pre ++ fenced lang fname body ++ post) = [m]) /\
    m_caps m = [(2%nat, body); (1%nat, fname)].
Proof.
  intros Hpre Hline Hlang Hname Hbody Hclean Hends Hpost.
  destruct (match_fenced (0 + String.length pre) lang fname body post
              Hlang Hname Hbody Hclean Hends) as [e He].
  assert (Hs : search Extractor.codeBlockRegex (0 + String.length pre)
                 (fenced lang fname body ++ post) =
               Some (RMatch (0 + String.length pre) e
                       (JS.take (e - (0 + String.length pre))
                          (fenced lang fname body ++ post))
                       post [(2%nat, body); (1%nat, fname)])).
  { destruct (fenced lang fname body ++ post) eqn:E;
      cbn [search]; unfold match_here; rewrite He; reflexivity. }
  eexists. split.
  - intros fuel. cbn [exec_all]. rewrite search_skip by assumption.
    rewrite Hs. cbn [m_end m_after]. apply (f_equal (cons _)).
    destruct fuel; [reflexivity|].
    cbn [exec_all]. now rewrite search_prose.
  - reflexivity.
Qed.

End PrimaryPassFacts.

Section PrimaryPassResult.
Import Regex.

Lemma primaryPass_fenced (pre lang fname body post : string) :
  prose pre = true -> at_line_start pre = true ->
  recognized lang -> plainName fname = true -> body <> "" ->
  no_fence_at_line_start body = true ->
  ends_line post = true -> prose post = true ->
  Extractor.primaryPass (pre ++ fenced lang fname body ++ post) =
    [(remove_prefix Extractor.leadingSlash (JS.trim fname), JS.trim body)].
Proof.
  intros Hpre Hline Hlang Hname Hbody Hclean Hends Hpost.
  destruct (exec_all_fenced pre lang fname body post
              Hpre Hline Hlang Hname Hbody Hclean Hends Hpost)
    as (m & Hm & Hcaps).
  unfold Extractor.primaryPass. rewrite Hm. cbn [fold_left].
  unfold Extractor.record_match. rewrite Hcaps. cbn [cap_of Nat.eqb].
  destruct fname as [|c f]; [discriminate|].
  destruct body as [|d b]; [congruence|].
  reflexivity.
Qed.

End PrimaryPassResult.

(** ** The second pass *)

Section FallbackFacts.
Import Regex.

Lemma set_fresh {V} (k : string) (v : V) (m : JSMap.t V) :
  ~ In k (keys m) -> JSMap.set k v m = (m ++ [(k, v)])%list.
Proof.
  induction m as [|[k' v'] m IH]; simpl; intros H; [reflexivity|].
  destruct (String.eqb_spec k k') as [->|_]; [tauto|].
  rewrite IH by tauto. reflexivity.
Qed.

Lemma set_keys {V} (k : string) (v : V) (m : JSMap.t V) :
  keys (JSMap.set k v m) = keys m \/
  (~ In k (keys m) /\ keys (JSMap.set k v m) = (keys m ++ [k])%list).
Proof.
  induction m as [|[k' v'] m IH]; simpl.
  - right. auto.
  - destruct (String.eqb_spec k k') as [->|Hne]; simpl.
    + left. reflexivity.
    + destruct IH as [IH|[Hin IH]].
      * left. now rewrite IH.
      * right. split; [intros [H|H]; [congruence|tauto]|]. now rewrite IH.
Qed.

Lemma set_NoDup {V} (k : string) (v : V) (m : JSMap.t V) :
  NoDup (keys m) -> NoDup (keys (JSMap.set k v m)).
Proof.
  intros H. destruct (set_keys k v m) as [->|[Hin ->]]; [exact H|].
  apply NoDup_app; [exact H|repeat constructor; auto|].
  intros x Hx [<-|[]]. contradiction.
Qed.

(** Copying a map without repeated keys, entry by entry, rebuilds it. *)
Lemma copy_entries {V} (l acc : JSMap.t V) :
  NoDup (keys l) ->
  (forall k, In k (keys l) -> ~ In k (keys acc)) ->
  fold_left (fun m kv => JSMap.set (fst kv) (snd kv) m) l acc = (acc ++ l)%list.
Proof.
  revert acc. induction l as [|[k v] l IH]; intros acc Hnd Hfresh; simpl.
  - now rewrite app_nil_r.
  - inversion Hnd as [|? ? Hk Hnd']; subst.
    rewrite set_fresh by (apply Hfresh; now left).
    rewrite IH.
    + now rewrite <- app_assoc.
    + exact Hnd'.
    + intros k' Hk' Hin. unfold keys in Hin. rewrite map_app in Hin.
      apply in_app_or in Hin. destruct Hin as [Hin|[<-|[]]].
      * apply (Hfresh k'); [now right|exact Hin].
      * contradiction.
Qed.

Lemma scan_line_NoDup (st : Extractor.scan) (line : string) :
  NoDup (keys (Extractor.files st)) ->
  NoDup (keys (Extractor.files (Extractor.scan_line st line))).
Proof.
  intros H. unfold Extractor.scan_line.
  repeat match goal with
         | |- context [if ?b then _ else _] => destruct b
         end; cbn [Extractor.files]; try exact H.
  unfold Extractor.close_block.
  destruct (Extractor.filename st); [|exact H].
  destruct (_ && _); [|exact H].
  now apply set_NoDup.
Qed.

Lemma fallback_NoDup (response : string) :
  NoDup (keys (Extractor.extractCodeBlocksWithNestedBackticks response)).
Proof.
  unfold Extractor.extractCodeBlocksWithNestedBackticks.
  assert (H : forall lines st, NoDup (keys (Extractor.files st)) ->
            NoDup (keys (Extractor.files (fold_left Extractor.scan_line lines st)))).
  { induction lines as [|l lines IH]; intros st Hst; simpl; [exact Hst|].
    apply IH. now apply scan_line_NoDup. }
  apply H. constructor.
Qed.

(** When the first pass finds nothing, the result is that of the second. *)
Lemma parse_falls_back (response : string) :
  Extractor.primaryPass response = [] ->
  Extractor.parseGeneratedFiles response =
  Extractor.extractCodeBlocksWithNestedBackticks response.
Proof.
  intros H. unfold Extractor.parseGeneratedFiles. rewrite H.
  change (Nat.eqb (Extractor.map_size []) 0) with true. cbv iota.
  unfold Extractor.map_set.
  refine (copy_entries
            (Extractor.extractCodeBlocksWithNestedBackticks response) [] _ _).
  - apply fallback_NoDup.
  - intros k _ [].
Qed.

(** When it finds something, the second pass plays no part. *)
Lemma parse_keeps_primary (response : string) :
  Extractor.primaryPass response <> [] ->
  Extractor.parseGeneratedFiles response = Extractor.primaryPass response.
Proof.
  intros H. unfold Extractor.parseGeneratedFiles.
  destruct (Extractor.primaryPass response); [congruence|reflexivity].
Qed.

End FallbackFacts.

Section ScanFacts.
Import Regex.

Lemma search_Bos_later (r : regex) (s : string) :
  forall p, p <> 0%nat -> search (Cat Bos r) p s = None.
Proof.
  induction s as [|c s IH]; intros p Hp; cbn [search]; unfold match_here;
    rewrite run_Cat; cbn [run pos];
    (replace (Nat.eqb p 0) with false by (symmetry; now apply Nat.eqb_neq)).
  - reflexivity.
  - apply IH. lia.
Qed.

(** A test anchored with [^] looks at the start of the line only. *)
Lemma test_Bos (r : regex) (s : string) :
  test (Cat Bos r) s =
  match run r (MState 0 s []) Some with Some _ => true | None => false end.
Proof.
  unfold test.
  assert (H : search (Cat Bos r) 0 s =
              match run r (MState 0 s []) Some with
              | Some st => Some (RMatch 0 (pos st) (JS.take (pos st - 0) s)
                                   (rest st) (caps st))
              | None => None
              end).
  { destruct s as [|c s]; cbn [search]; unfold match_here;
      rewrite run_Cat; cbn [run pos Nat.eqb];
      destruct (run r _ Some); try reflexivity.
    apply search_Bos_later. lia. }
  rewrite H. now destruct (run r _ Some).
Qed.

(** A line taken for a file-name comment starts with a slash. *)
Lemma filename_line_starts_with_slash (line : string) :
  test Extractor.filenameCommentLine line = true ->
  exists s, line = String "/" s.
Proof.
  unfold Extractor.filenameCommentLine. rewrite test_Bos, run_Cat.
  destruct (JS.startsWith "//" line) eqn:E.
  - intros _. destruct line as [|c s]; [discriminate|].
    cbn [JS.startsWith] in E. apply andb_prop in E. destruct E as [E _].
    apply Ascii.eqb_eq in E. subst c. eauto.
  - rewrite run_lit_miss by exact E. discriminate.
Qed.

(** Such a line is no nested marker. *)
Lemma slash_line_is_no_marker (s : string) :
  test Extractor.jsdocFence (String "/" s) = false /\
  test Extractor.indentedFence (String "/" s) = false.
Proof.
  unfold Extractor.jsdocFence, Extractor.indentedFence.
  rewrite !test_Bos. split.
  - rewrite run_Cat, run_Star. cbn [rest String.length star_loop].
    unfold space at 1. rewrite run_Chr_miss by reflexivity.
    rewrite run_Cat. unfold chr at 1. rewrite run_Chr_miss by reflexivity.
    reflexivity.
  - unfold Plus. rewrite !run_Cat. unfold space at 1.
    rewrite run_Chr_miss by reflexivity. reflexivity.
Qed.

(** Inside a block, a line with an indented or starred fence marker is kept
    as content: the block stays open and no file is emitted. *)
Lemma scan_line_marker (st : Extractor.scan) (line : string) :
  Extractor.inCodeBlock st = true ->
  test Extractor.jsdocFence line || test Extractor.indentedFence line = true ->
  let st' := Extractor.scan_line st line in
  Extractor.inCodeBlock st' = true /\
  Extractor.files st' = Extractor.files st /\
  Extractor.filename st' = Extractor.filename st /\
  Extractor.codeBlockContent st' = (Extractor.codeBlockContent st ++ [line])%list.
Proof.
  intros Hin Hmarker st'. subst st'. unfold Extractor.scan_line.
  rewrite Hin. cbn [negb].
  assert (Hname : test Extractor.filenameCommentLine line = false).
  { destruct (test Extractor.filenameCommentLine line) eqn:E; [|reflexivity].
    apply filename_line_starts_with_slash in E. destruct E as [s ->].
    destruct (slash_line_is_no_marker s) as [H1 H2].
    rewrite H1, H2 in Hmarker. discriminate. }
  rewrite Hname, andb_false_r, Hmarker. cbn. auto.
Qed.

End ScanFacts.

(** ** The line scan on a block *)

Section LineScanFacts.
Import Regex.

Lemma star_loop_reaches g step :
  reaches step -> forall fuel, reaches (fun st k => star_loop g step k fuel st).
Proof.
  intros Hstep fuel.
  induction fuel as [|fuel IH]; intros st k x; cbn [star_loop].
  - intros H. exists st. split; [exact H|]. exists "". reflexivity.
  - set (again := step st _).
    assert (Hagain : again = Some x ->
      exists st', k st' = Some x /\ exists a, rest st = a ++ rest st').
    { subst again. intros H. apply Hstep in H.
      destruct H as (st1 & H1 & a1 & E1).
      destruct (Nat.eqb (pos st1) (pos st)); [discriminate|].
      apply IH in H1. destruct H1 as (st' & Hk & a2 & E2).
      exists st'. split; [exact Hk|]. exists (a1 ++ a2).
      now rewrite E1, E2, append_assoc. }
    assert (Hhere : k st = Some x ->
      exists st', k st' = Some x /\ exists a, rest st = a ++ rest st').
    { intros H. exists st. split; [exact H|]. exists "". reflexivity. }
    destruct g.
    + destruct again as [y|]; [intros [= <-]; now apply Hagain|exact Hhere].
    + destruct (k st) as [y|] eqn:Ek; [intros [= <-]; now apply Hhere|exact Hagain].
Qed.

Lemma run_reaches r : reaches (run r).
Proof.
  induction r as [| p | a IHa b IHb | a IHa b IHb | g a IHa | i a IHa
                 | a IHa | | ]; intros st k x.
  - simpl. intros H. exists st. split; [exact H|]. exists "". reflexivity.
  - simpl. destruct (rest st) as [|c s'] eqn:E; [discriminate|].
    destruct (p c); [|discriminate]. intros H. eexists. split; [exact H|].
    exists (String c ""). reflexivity.
  - rewrite run_Cat. intros H. apply IHa in H.
    destruct H as (st1 & H1 & a1 & E1). apply IHb in H1.
    destruct H1 as (st2 & H2 & a2 & E2). exists st2. split; [exact H2|].
    exists (a1 ++ a2). now rewrite E1, E2, append_assoc.
  - rewrite run_Alt. destruct (run a st k) as [y|] eqn:E.
    + intros [= <-]. now apply IHa in E.
    + apply IHb.
  - rewrite run_Star. apply (star_loop_reaches g (run a) IHa).
  - rewrite run_Grp. intros H. apply IHa in H.
    destruct H as (st1 & H1 & a1 & E1). eexists. split; [exact H1|].
    exists a1. exact E1.
  - simpl. destruct (run a st Some) as [st1|]; [|discriminate].
    intros H. eexists. split; [exact H|]. exists "". reflexivity.
  - simpl. destruct (Nat.eqb (pos st) 0); [|discriminate].
    intros H. exists st. split; [exact H|]. exists "". reflexivity.
  - simpl. destruct (rest st) eqn:E; [|discriminate]. intros H. exists st.
    split; [exact H|]. exists "". now rewrite E.
Qed.

Lemma run_lit_starts (s : string) (st : mstate) (k : cont) (x : mstate) :
  run (lit s) st k = Some x -> JS.startsWith s (rest st) = true.
Proof.
  intros H. destruct (JS.startsWith s (rest st)) eqn:E; [reflexivity|].
  rewrite run_lit_miss in H by exact E. discriminate.
Qed.

Lemma includes_behind (p a b : string) :
  (exists c, b = c ++ a) -> JS.startsWith p a = true -> JS.includes p b = true.
Proof.
  intros [c ->] H. induction c as [|d c IH]; simpl.
  - destruct a; simpl in *; now rewrite H.
  - rewrite IH. apply orb_true_r.
Qed.

(** What matches something and then a literal holds the literal. *)
Lemma run_then_lit (r : regex) (s l : string) :
  run (Cat r (lit s)) (MState 0 l []) Some <> None -> JS.includes s l = true.
Proof.
  rewrite run_Cat. destruct (run r _ _) as [x|] eqn:E; [|congruence].
  intros _. apply run_reaches in E. destruct E as (st' & H & T).
  apply run_lit_starts in H. exact (includes_behind _ _ _ T H).
Qed.

(** A line with a nested marker holds a fence. *)
Lemma marker_includes_fence (line : string) :
  nestedMarker line = true -> JS.includes Extractor.fence line = true.
Proof.
  unfold nestedMarker, Extractor.jsdocFence, Extractor.indentedFence.
  rewrite !test_Bos. intros H. apply orb_prop in H. destruct H as [H|H].
  - apply (run_then_lit
             (Cat (Star true space) (Cat (chr "*") (Star true space)))).
    rewrite !run_Cat. rewrite !run_Cat in H.
    destruct (run (Star true space) _ _); [discriminate|discriminate].
  - apply (run_then_lit (Plus space)).
    rewrite run_Cat in H |- *.
    destruct (run (Plus space) _ _); [discriminate|discriminate].
Qed.

(** A line that starts with a fence starts with a backquote. *)
Lemma fence_start_is_backquote (line : string) :
  test Extractor.fenceAtLineStart line = true ->
  exists s, line = String "`" s.
Proof.
  unfold Extractor.fenceAtLineStart. rewrite test_Bos.
  destruct (JS.startsWith Extractor.fence line) eqn:E.
  - intros _. destruct line as [|c s]; [discriminate|].
    cbn [JS.startsWith Extractor.fence] in E. apply andb_prop in E.
    destruct E as [E _]. apply Ascii.eqb_eq in E. subst c. eauto.
  - rewrite run_lit_miss by exact E. discriminate.
Qed.

(** A line whose first character is neither white space nor a star has no
    nested marker. *)
Lemma plain_start_is_no_marker (c : ascii) (s : string) :
  JS.is_space c = false -> Ascii.eqb "*" c = false ->
  nestedMarker (String c s) = false.
Proof.
  intros Hsp Hstar.
  unfold nestedMarker, Extractor.jsdocFence, Extractor.indentedFence.
  rewrite !test_Bos.
  rewrite run_Cat, run_Star. cbn [rest String.length star_loop].
  unfold space at 1. rewrite run_Chr_miss by exact Hsp.
  rewrite run_Cat. unfold chr at 1. rewrite run_Chr_miss by exact Hstar.
  unfold Plus. rewrite !run_Cat. unfold space at 1.
  rewrite run_Chr_miss by exact Hsp. reflexivity.
Qed.

Lemma marker_not_at_line_start (line : string) :
  nestedMarker line = true -> test Extractor.fenceAtLineStart line = false.
Proof.
  intros H. destruct (test Extractor.fenceAtLineStart line) eqn:E;
    [|reflexivity].
  apply fence_start_is_backquote in E. destruct E as [s ->].
  rewrite plain_start_is_no_marker in H by reflexivity. discriminate.
Qed.

(** Outside a block, lines that open none leave the scan as it is. *)
Lemma scan_outside (lines : list string) :
  forall st,
    Extractor.inCodeBlock st = false ->
    (forall l, In l lines -> opensBlock l = false) ->
    fold_left Extractor.scan_line lines st = st.
Proof.
  induction lines as [|l lines IH]; intros st Hout Hno; cbn [fold_left].
  - reflexivity.
  - assert (E : Extractor.scan_line st l = st).
    { unfold Extractor.scan_line. rewrite Hout. cbn [negb].
      fold (opensBlock l). rewrite (Hno l) by now left. reflexivity. }
    rewrite E. apply IH; [exact Hout|]. intros l' H. apply Hno. now right.
Qed.

(** Inside a block, lines that do not close it are all kept, the nested
    markers among them toggling the depth. *)
Lemma scan_body (body : list string) :
  forall files content name depth,
    depth = 0 \/ depth = 1 ->
    (forall l, In l body -> closesBlock l = false) ->
    (content <> [] \/
     forall l, hd_error body = Some l ->
       test Extractor.filenameCommentLine l = false) ->
    fold_left Extractor.scan_line body
      (Extractor.Scan files true content name depth) =
    Extractor.Scan files true (content ++ body) name (toggled depth body).
Proof.
  induction body as [|l body IH]; intros files content name depth Hd Hopen Hfirst;
    cbn [fold_left].
  - now rewrite app_nil_r.
  - assert (Hname : Nat.eqb (List.length content) 0
                    && test Extractor.filenameCommentLine l = false).
    { destruct Hfirst as [H|H].
      - destruct content; [congruence|reflexivity].
      - rewrite (H l eq_refl). apply andb_false_r. }
    assert (Hstep : Extractor.scan_line
              (Extractor.Scan files true content name depth) l =
            Extractor.Scan files true (content ++ [l]) name
              (if nestedMarker l then 1 - depth else depth)).
    { unfold Extractor.scan_line.
      cbn [Extractor.inCodeBlock Extractor.codeBlockContent Extractor.files
           Extractor.filename Extractor.nestingDepth negb].
      rewrite Hname. fold (nestedMarker l).
      destruct (nestedMarker l) eqn:Em.
      - rewrite (marker_includes_fence l Em), (marker_not_at_line_start l Em).
        cbn [negb andb]. destruct Hd as [-> | ->]; reflexivity.
      - pose proof (Hopen l (or_introl eq_refl)) as Hc.
        unfold closesBlock in Hc. rewrite Hc. reflexivity. }
    rewrite Hstep, IH.
    + rewrite <- app_assoc. cbn [app]. f_equal.
      unfold toggled, markers. cbn [filter].
      destruct (nestedMarker l); cbn [List.length].
      * rewrite Nat.even_succ, <- Nat.negb_even.
        destruct (Nat.even _); cbn [negb]; destruct Hd as [-> | ->]; reflexivity.
      * reflexivity.
    + destruct (nestedMarker l); destruct Hd as [-> | ->]; auto.
    + intros l' H. apply Hopen. now right.
    + left. now destruct content.
Qed.

(** The scan up to the first line of the content of the first block. *)
Lemma scan_opening (before : list string) (openLine nameLine : string)
  (rest : list string) :
  (forall l, In l before -> opensBlock l = false) ->
  opensBlock openLine = true ->
  test Extractor.filenameCommentLine nameLine = true ->
  fold_left Extractor.scan_line (before ++ openLine :: nameLine :: rest)
    Extractor.scan0 =
  fold_left Extractor.scan_line rest
    (Extractor.Scan [] true [] (Some (declaredName nameLine)) 0).
Proof.
  intros Hbefore Hopen Hname.
  rewrite fold_left_app, (scan_outside before) by (auto; reflexivity).
  cbn [fold_left]. f_equal.
  assert (E : Extractor.scan_line Extractor.scan0 openLine =
              Extractor.Scan [] true [] None 0).
  { unfold Extractor.scan_line, Extractor.scan0.
    cbn [Extractor.inCodeBlock Extractor.files negb].
    fold (opensBlock openLine). now rewrite Hopen. }
  rewrite E. unfold Extractor.scan_line.
  cbn [Extractor.inCodeBlock Extractor.codeBlockContent Extractor.files
       Extractor.nestingDepth negb List.length Nat.eqb andb].
  now rewrite Hname.
Qed.

Lemma all_chars_trimStart (s : string) :
  JS.all_chars JS.is_space (JS.trimStart s) = JS.all_chars JS.is_space s.
Proof.
  induction s as [|c s IH]; [reflexivity|].
  cbn [JS.trimStart]. destruct (JS.is_space c) eqn:E.
  - rewrite IH. cbn [JS.all_chars]. now rewrite E.
  - reflexivity.
Qed.

Lemma all_chars_rev_acc (p : ascii -> bool) (s : string) :
  forall acc,
    JS.all_chars p (JS.rev_acc s acc) = JS.all_chars p s && JS.all_chars p acc.
Proof.
  induction s as [|c s IH]; intros acc; cbn [JS.rev_acc JS.all_chars].
  - reflexivity.
  - rewrite IH. cbn [JS.all_chars].
    destruct (p c), (JS.all_chars p s), (JS.all_chars p acc); reflexivity.
Qed.

(** Trimming keeps what is not white space. *)
Lemma all_chars_trim (s : string) :
  JS.all_chars JS.is_space (JS.trim s) = JS.all_chars JS.is_space s.
Proof.
  unfold JS.trim, JS.trimEnd, JS.rev.
  rewrite all_chars_rev_acc, all_chars_trimStart, all_chars_rev_acc,
    all_chars_trimStart.
  cbn [JS.all_chars]. now rewrite !andb_true_r.
Qed.

(** A greedy run over white space with nothing to follow consumes white
    space only. *)
Lemma star_space_consumes (fuel : nat) :
  forall st st',
    star_loop true (run space) Some fuel st = Some st' ->
    exists s, rest st = s ++ rest st' /\ JS.all_chars JS.is_space s = true.
Proof.
  induction fuel as [|fuel IH]; intros st st'; cbn [star_loop].
  - intros [= <-]. now exists "".
  - unfold space at 1. cbn [run].
    destruct (rest st) as [|c r] eqn:E.
    + intros [= <-]. exists "". now rewrite E.
    + destruct (JS.is_space c) eqn:Ec.
      * cbn [advance pos].
        replace (Nat.eqb (S (pos st)) (pos st)) with false
          by (symmetry; apply Nat.eqb_neq; lia).
        destruct (star_loop true (run space) Some fuel _) as [y|] eqn:Es.
        -- intros [= <-]. apply IH in Es. destruct Es as (s & Hs & Hall).
           cbn [rest advance] in Hs. exists (String c s).
           cbn [append JS.all_chars]. split; [now rewrite <- Hs|].
           now rewrite Ec.
        -- intros [= <-]. exists "". now rewrite E.
      * intros [= <-]. exists "". now rewrite E.
Qed.

(** The name that a file-name comment declares is not empty. *)
Lemma declared_name_not_empty (line : string) :
  test Extractor.filenameCommentLine line = true ->
  declaredName line <> "".
Proof.
  unfold Extractor.filenameCommentLine. rewrite test_Bos, run_Cat.
  destruct (JS.startsWith "//" line) eqn:Estart.
  2:{ rewrite run_lit_miss by exact Estart. discriminate. }
  assert (Hline : exists r, line = "//" ++ r).
  { destruct line as [|a [|b r]]; cbn [JS.startsWith] in Estart;
      rewrite ?andb_false_r in Estart; try discriminate.
    apply andb_prop in Estart. destruct Estart as [Ea Eb].
    apply andb_prop in Eb. destruct Eb as [Eb _].
    apply Ascii.eqb_eq in Ea, Eb. subst a b. now exists r. }
  destruct Hline as [r ->]. rewrite run_lit.
  intros Hmatch.
  assert (Htext : JS.all_chars JS.is_space r = false).
  { destruct (run _ _ Some) as [x|] eqn:E; [clear Hmatch|discriminate].
    rewrite run_Cat in E. apply run_reaches in E.
    destruct E as (st1 & E & a1 & E1). cbn [rest] in E1.
    rewrite run_Cat in E. apply run_reaches in E.
    destruct E as (st2 & E & a2 & E2).
    rewrite run_Cat in E. unfold chr at 1 in E. cbn [run] in E.
    destruct (rest st2) as [|c t] eqn:E3; [discriminate|].
    destruct (Ascii.eqb "." c) eqn:Ec; [|discriminate].
    apply Ascii.eqb_eq in Ec. subst c.
    rewrite E1, E2, !all_chars_app. cbn [JS.all_chars].
    change (JS.is_space ".") with false.
    now rewrite !andb_false_r. }
  unfold declaredName, remove_prefix, match_here, Extractor.commentPrefix.
  rewrite run_Cat.
  change (run Bos (MState 0 ("//" ++ r) [])
            (fun st' => run (Cat (lit "//") (Star true space)) st' Some))
    with (run (Cat (lit "//") (Star true space)) (MState 0 ("//" ++ r) []) Some).
  rewrite run_Cat, run_lit, run_Star.
  destruct (star_loop true (run space) Some _ _) as [st'|] eqn:Es.
  - apply star_space_consumes in Es. destruct Es as (s & Hs & Hall).
    cbn [rest] in Hs. cbn [m_after].
    intros Hempty.
    assert (H : JS.all_chars JS.is_space (JS.trim (rest st')) = true)
      by now rewrite Hempty.
    rewrite all_chars_trim in H.
    rewrite Hs, all_chars_app, Hall, H in Htext. discriminate.
  - intros Hempty.
    assert (H : JS.all_chars JS.is_space (JS.trim ("//" ++ r)) = true)
      by now rewrite Hempty.
    rewrite all_chars_trim in H. discriminate.
Qed.

(** A block whose nested markers are paired is closed by its closing fence
    and recovered whole. *)
Lemma line_scan_recovers (response : string) (before : list string)
  (openLine nameLine : string) (body : list string) (closeLine : string)
  (after : list string) :
  JS.split_lines response =
    (before ++ openLine :: nameLine :: body ++ closeLine :: after)%list ->
  (forall l, In l before -> opensBlock l = false) ->
  opensBlock openLine = true ->
  test Extractor.filenameCommentLine nameLine = true ->
  body <> [] ->
  (forall l, hd_error body = Some l ->
     test Extractor.filenameCommentLine l = false) ->
  (forall l, In l body -> closesBlock l = false) ->
  Nat.even (markers body) = true ->
  closesBlock closeLine = true ->
  (forall l, In l after -> opensBlock l = false) ->
  Extractor.extractCodeBlocksWithNestedBackticks response =
    [(remove_prefix Extractor.leadingSlash (declaredName nameLine),
      JS.trim (JS.join_lines body))].
Proof.
  intros Hsplit Hbefore Hopen Hname Hbody Hfirst Hlines Heven Hclose Hafter.
  pose proof (declared_name_not_empty nameLine Hname) as Hdecl.
  unfold Extractor.extractCodeBlocksWithNestedBackticks.
  rewrite Hsplit, scan_opening by assumption.
  rewrite fold_left_app, scan_body by auto.
  unfold toggled. rewrite Heven. cbn [app fold_left].
  assert (E : Extractor.scan_line
            (Extractor.Scan [] true body (Some (declaredName nameLine)) 0)
            closeLine =
          Extractor.Scan
            [(remove_prefix Extractor.leadingSlash (declaredName nameLine),
              JS.trim (JS.join_lines body))]
            false body (Some (declaredName nameLine)) 0).
  { unfold Extractor.scan_line.
    cbn [Extractor.inCodeBlock Extractor.codeBlockContent Extractor.files
         Extractor.filename Extractor.nestingDepth negb].
    assert (Hlen : Nat.eqb (List.length body) 0 = false)
      by (destruct body; [congruence|reflexivity]).
    rewrite Hlen. cbn [andb]. fold (nestedMarker closeLine).
    assert (Hm : nestedMarker closeLine = false).
    { destruct (nestedMarker closeLine) eqn:Em; [|reflexivity].
      apply marker_not_at_line_start in Em. unfold closesBlock in Hclose.
      rewrite Em, andb_false_r in Hclose. discriminate. }
    rewrite Hm. unfold closesBlock in Hclose. rewrite Hclose.
    cbn [Z.eqb andb]. f_equal.
    unfold Extractor.close_block.
    cbn [Extractor.filename Extractor.codeBlockContent Extractor.files].
    assert (Ht : JS.truthy (declaredName nameLine) = true)
      by (destruct (declaredName nameLine); [congruence|reflexivity]).
    rewrite Ht. destruct body; [congruence|reflexivity]. }
  rewrite E, (scan_outside after) by (auto; reflexivity). reflexivity.
Qed.

(** A block with an odd number of nested markers stays open: no file. *)
Lemma line_scan_unpaired (response : string) (before : list string)
  (openLine nameLine : string) (body after : list string) :
  JS.split_lines response =
    (before ++ openLine :: nameLine :: body ++ after)%list ->
  (forall l, In l before -> opensBlock l = false) ->
  opensBlock openLine = true ->
  test Extractor.filenameCommentLine nameLine = true ->
  (forall l, hd_error body = Some l ->
     test Extractor.filenameCommentLine l = false) ->
  (forall l, In l body -> closesBlock l = false) ->
  Nat.even (markers body) = false ->
  (forall l, In l after -> nestedMarker l = false) ->
  Extractor.extractCodeBlocksWithNestedBackticks response = [].
Proof.
  intros Hsplit Hbefore Hopen Hname Hfirst Hlines Hodd Hafter.
  unfold Extractor.extractCodeBlocksWithNestedBackticks.
  rewrite Hsplit, scan_opening by assumption.
  rewrite fold_left_app, scan_body by auto.
  unfold toggled. rewrite Hodd. cbn [app Z.sub Z.opp Z.add].
  assert (Hne : body <> []).
  { intros ->. discriminate. }
  assert (Hrest : forall lines content,
            content <> [] ->
            (forall l, In l lines -> nestedMarker l = false) ->
            Extractor.files
              (fold_left Extractor.scan_line lines
                 (Extractor.Scan [] true content
                    (Some (declaredName nameLine)) 1)) = []).
  { induction lines as [|l lines IH]; intros content Hc Hno; cbn [fold_left].
    - reflexivity.
    - assert (E : Extractor.scan_line
                (Extractor.Scan [] true content
                   (Some (declaredName nameLine)) 1) l =
              Extractor.Scan [] true (content ++ [l])
                (Some (declaredName nameLine)) 1).
      { unfold Extractor.scan_line.
        cbn [Extractor.inCodeBlock Extractor.codeBlockContent Extractor.files
             Extractor.filename Extractor.nestingDepth negb].
        assert (Hlen : Nat.eqb (List.length content) 0 = false)
          by (destruct content; [congruence|reflexivity]).
        rewrite Hlen. cbn [andb]. fold (nestedMarker l).
        rewrite (Hno l) by now left.
        cbn [Z.eqb]. rewrite andb_false_r. reflexivity. }
      rewrite E. apply IH.
      + now destruct content.
      + intros l' H. apply Hno. now right. }
  apply Hrest; [exact Hne|exact Hafter].
Qed.

End LineScanFacts.

(** C4.  The second, line-by-line pass decides the result exactly when the
    first pass extracts no file: otherwise the result is that of the first
    pass.  In the second pass, a line inside a block that carries an indented
    or starred fence marker never closes the block: it is kept as content.
    For a response made of prose, one block (opened at the start of a line by
    a fence with a recognized language tag or none, declaring its file name
    on the first line) and prose again, where no line of the content starts
    with a fence marker, however many indented or prefixed markers it holds,
    the extractor returns exactly one file: the declared name (trimmed,
    without a leading slash) with the whole content, trimmed, nested examples
    included.  For a response given by its lines, with one block that
    declares its file name on its first line, the second pass recovers that
    file with the whole content when the nested markers of the content are
    paired (their number is even), and that is the result of the extractor
    when the first pass extracts nothing; when their number is odd and no
    later line carries a nested marker, the block is never closed and the
    second pass recovers no file, so that the extractor returns none when
    the first pass extracts nothing. *)
Theorem C4_nested_fences_do_not_end_the_block :
  (forall response,
     Extractor.primaryPass response <> [] ->
     Extractor.parseGeneratedFiles response = Extractor.primaryPass response) /\
  (forall response,
     Extractor.primaryPass response = [] ->
     Extractor.parseGeneratedFiles response =
     Extractor.extractCodeBlocksWithNestedBackticks response) /\
  (forall (st : Extractor.scan) (line : string),
     Extractor.inCodeBlock st = true ->
     Regex.test Extractor.jsdocFence line
       || Regex.test Extractor.indentedFence line = true ->
     Extractor.inCodeBlock (Extractor.scan_line st line) = true /\
     Extractor.files (Extractor.scan_line st line) = Extractor.files st /\
     Extractor.codeBlockContent (Extractor.scan_line st line) =
       (Extractor.codeBlockContent st ++ [line])%list) /\
  (forall pre lang fname body post : string,
     prose pre = true -> at_line_start pre = true ->
     recognized lang -> plainName fname = true ->
     body <> "" -> no_fence_at_line_start body = true ->
     ends_line post = true -> prose post = true ->
     Extractor.parseGeneratedFiles (pre ++ fenced lang fname body ++ post) =
       [(Regex.remove_prefix Extractor.leadingSlash (JS.trim fname),
         JS.trim body)]) /\
  (forall (response : string) (before : list string)
          (openLine nameLine : string) (body : list string)
          (closeLine : string) (after : list string),
     JS.split_lines response =
       (before ++ openLine :: nameLine :: body ++ closeLine :: after)%list ->
     (forall l, In l before -> opensBlock l = false) ->
     opensBlock openLine = true ->
     Regex.test Extractor.filenameCommentLine nameLine = true ->
     body <> [] ->
     (forall l, hd_error body = Some l ->
        Regex.test Extractor.filenameCommentLine l = false) ->
     (forall l, In l body -> closesBlock l = false) ->
     Nat.even (markers body) = true ->
     closesBlock closeLine = true ->
     (forall l, In l after -> opensBlock l = false) ->
     let file :=
       (Regex.remove_prefix Extractor.leadingSlash (declaredName nameLine),
        JS.trim (JS.join_lines body)) in
     Extractor.extractCodeBlocksWithNestedBackticks response = [file] /\
     (Extractor.primaryPass response = [] ->
      Extractor.parseGeneratedFiles response = [file])) /\
  (forall (response : string) (before : list string)
          (openLine nameLine : string) (body after : list string),
     JS.split_lines response =
       (before ++ openLine :: nameLine :: body ++ after)%list ->
     (forall l, In l before -> opensBlock l = false) ->
     opensBlock openLine = true ->
     Regex.test Extractor.filenameCommentLine nameLine = true ->
     (forall l, hd_error body = Some l ->
        Regex.test Extractor.filenameCommentLine l = false) ->
     (forall l, In l body -> closesBlock l = false) ->
     Nat.even (markers body) = false ->
     (forall l, In l after -> nestedMarker l = false) ->
     Extractor.extractCodeBlocksWithNestedBackticks response = [] /\
     (Extractor.primaryPass response = [] ->
      Extractor.parseGeneratedFiles response = [])).
Proof.
  split; [exact parse_keeps_primary|].
  split; [exact parse_falls_back|].
  split; [|split; [|split]].
  - intros st line Hin Hmarker.
    destruct (scan_line_marker st line Hin Hmarker) as (H1 & H2 & _ & H4).
    auto.
  - intros pre lang fname body post Hpre Hline Hlang Hname Hbody Hclean
      Hends Hpost.
    rewrite parse_keeps_primary;
      rewrite primaryPass_fenced by assumption; [reflexivity|discriminate].
  - intros response before openLine nameLine body closeLine after Hsplit
      Hbefore Hopen Hname Hbody Hfirst Hlines Heven Hclose Hafter file.
    assert (E := line_scan_recovers response before openLine nameLine body
                   closeLine after Hsplit Hbefore Hopen Hname Hbody Hfirst
                   Hlines Heven Hclose Hafter).
    split; [exact E|]. intros Hnone.
    now rewrite parse_falls_back, E.
  - intros response before openLine nameLine body after Hsplit Hbefore Hopen
      Hname Hfirst Hlines Hodd Hafter.
    assert (E := line_scan_unpaired response before openLine nameLine body
                   after Hsplit Hbefore Hopen Hname Hfirst Hlines Hodd Hafter).
    split; [exact E|]. intros Hnone.
    now rewrite parse_falls_back, E.
Qed.

(** * Further properties *)

(** ** The agent process *)

Ltac agent_cases :=
  repeat (agent_eval;
          match goal with
          | |- context [if ?b then _ else _] => destruct b eqn:?
          end);
  agent_eval.

Ltac agent_done :=
  repeat split; try discriminate;
  try (intros;
       match goal with H : Some _ = Some _ |- _ => injection H as <- end;
       reflexivity).

Lemma timeline_cases (prog : Agent.AgentProgram) (timeout : Z) :
  let final := Agent.timeline prog timeout in
  let fires := Agent.timerDelay (timeout * 1000) in
  (exists t c,
     Agent.exitsAt prog = Some (t, c) /\ t < fires /\
     Agent.signals final = [] /\
     Agent.resolved final =
       Some (Agent.Result c (Agent.written_stdout prog)
               (Agent.written_stderr prog) (c =? 0)
               (Agent.parseUsage (Agent.parsed_stdout prog)))) \/
  ((forall t c, Agent.exitsAt prog = Some (t, c) -> fires <= t) /\
   Agent.signals final = [(fires, Agent.SIGTERM)] /\
   Agent.killed final = true /\
   (forall r, Agent.resolved final = Some r ->
      Agent.success r = false /\
      Agent.stderr r =
        Agent.written_stderr prog ++ JS.nl ++ "[Agent timed out]")).
Proof.
  intros final fires.
  pose proof (timerDelay_range (timeout * 1000)) as Hfires. fold fires in Hfires.
  assert (Hmax : Z.max fires 0 = fires) by lia.
  subst final. unfold Agent.timeline, Agent.spawned. fold fires.
  clearbody fires.
  destruct prog as [se [[t c]|] [[d code]|] ak out err parsed].
  - destruct (Z.ltb_spec t fires) as [Hlt|Hge].
    + left. exists t, c. split; [reflexivity|]. split; [exact Hlt|].
      apply Z.ltb_lt in Hlt. agent_eval. rewrite Hlt. agent_eval. auto.
    + right. split; [intros t' c' [= <- <-]; exact Hge|].
      apply Z.ltb_ge in Hge. agent_eval. rewrite Hge, Hmax.
      agent_cases; agent_done.
  - destruct (Z.ltb_spec t fires) as [Hlt|Hge].
    + left. exists t, c. split; [reflexivity|]. split; [exact Hlt|].
      apply Z.ltb_lt in Hlt. agent_eval. rewrite Hlt. agent_eval. auto.
    + right. split; [intros t' c' [= <- <-]; exact Hge|].
      apply Z.ltb_ge in Hge. agent_eval. rewrite Hge, Hmax.
      agent_cases; agent_done.
  - right. split; [discriminate|].
    agent_eval. rewrite Hmax. agent_cases; agent_done.
  - right. split; [discriminate|].
    agent_eval. rewrite Hmax. agent_cases; agent_done.
Qed.

(** X1.  Whenever executeAgent resolves with success true, the exit code is 0,
    an agent configuration was given, the process could be spawned, it exited
    by itself with code 0 before the timer of the time-out fired, no signal
    was sent to it, and stdout and stderr of the result are exactly what the
    process wrote.  The timer fires after [timeout * 1000] ms, and after 1 ms
    when that delay is below 1 or above 2147483647. *)
Theorem X1_agent_success_is_a_clean_exit :
  forall (config : ExperimentConfig.t) (prog : Agent.AgentProgram)
         (timeout : Z) (r : Agent.AgentExecutionResult),
    Agent.executeAgent config prog timeout = Some r ->
    Agent.success r = true ->
    Agent.exitCode r = 0 /\
    Agent.stdout r = Agent.written_stdout prog /\
    Agent.stderr r = Agent.written_stderr prog /\
    ExperimentConfig.agent config <> None /\
    Agent.spawnError prog = None /\
    (exists t,
       Agent.exitsAt prog = Some (t, 0) /\
       t < Agent.timerDelay (timeout * 1000) /\
       (1 <= timeout * 1000 <= 2147483647 -> t < timeout * 1000)) /\
    Agent.signals (Agent.timeline prog timeout) = [].
Proof.
  intros config prog timeout r Hexec Hsucc.
  unfold Agent.executeAgent in Hexec.
  destruct (ExperimentConfig.agent config) as [a|];
    [|injection Hexec as <-; discriminate].
  destruct (Agent.spawnError prog) as [msg|] eqn:Eerr;
    [injection Hexec as <-; discriminate|].
  destruct (timeline_cases prog timeout)
    as [(t & c & Hexit & Hlt & Hsig & Hres)|(_ & _ & _ & Hfail)].
  - rewrite Hres in Hexec. injection Hexec as <-. cbn in Hsucc |- *.
    apply Z.eqb_eq in Hsucc. subst c.
    repeat split; try reflexivity; try discriminate; try exact Hsig.
    exists t. repeat split; auto.
    intros Hrange. now rewrite (timerDelay_in_range _ Hrange) in Hlt.
  - destruct (Hfail r Hexec) as [Hf _]. congruence.
Qed.

(** X2.  For every agent program and time-out, executeAgent sends at most one
    signal; it is SIGTERM, sent when the timer of the time-out fires, and only
    to a process that has not exited before.  The timer fires [timeout * 1000]
    ms after the spawn when that delay lies between 1 and 2147483647, and
    after 1 ms otherwise.  If a signal was sent and the call resolves, the
    result has success false and its stderr is the process's stderr followed
    by a line feed and '[Agent timed out]'. *)
Theorem X2_at_most_one_signal_and_it_is_sigterm :
  forall (prog : Agent.AgentProgram) (timeout : Z),
    let final := Agent.timeline prog timeout in
    (List.length (Agent.signals final) <= 1)%nat /\
    (forall t s, In (t, s) (Agent.signals final) ->
       s = Agent.SIGTERM /\
       t = Agent.timerDelay (timeout * 1000) /\
       (1 <= timeout * 1000 <= 2147483647 -> t = timeout * 1000) /\
       (timeout * 1000 < 1 \/ 2147483647 < timeout * 1000 -> t = 1) /\
       (forall t' c, Agent.exitsAt prog = Some (t', c) -> t <= t')) /\
    (Agent.signals final <> [] ->
     forall r, Agent.resolved final = Some r ->
       Agent.success r = false /\
       Agent.stderr r = Agent.written_stderr prog ++ JS.nl ++ "[Agent timed out]").
Proof.
  intros prog timeout final. subst final.
  destruct (timeline_cases prog timeout)
    as [(t & c & Hexit & Hlt & Hsig & Hres)|(Hlate & Hsig & _ & Hfail)];
    rewrite Hsig.
  - split; [simpl; lia|]. split; [intros ? ? []|congruence].
  - split; [simpl; lia|]. split.
    + intros t s [[= <- <-]|[]]. repeat split; auto.
      * apply timerDelay_in_range.
      * unfold Agent.timerDelay. intros Hout.
        destruct (Z.leb_spec 1 (timeout * 1000));
          destruct (Z.leb_spec (timeout * 1000) 2147483647); cbn; lia.
    + intros _. exact Hfail.
Qed.

(** ** One agent session *)

Lemma startsWith_app (x a b : string) :
  JS.startsWith x a = true -> JS.startsWith x (a ++ b) = true.
Proof.
  revert a. induction x as [|c x IH]; intros a; [reflexivity|].
  destruct a as [|d a]; [discriminate|]. simpl.
  intros H. apply andb_prop in H. destruct H as [-> H]. now apply IH.
Qed.

Lemma includes_app_l (x a b : string) :
  JS.includes x a = true -> JS.includes x (a ++ b) = true.
Proof.
  induction a as [|d a IH].
  - cbn [JS.includes]. rewrite orb_false_r. intros H.
    destruct x; [destruct b; reflexivity|discriminate].
  - cbn [JS.includes append]. intros H. apply orb_prop in H.
    destruct H as [H|H].
    + change (String d (a ++ b)) with (String d a ++ b).
      now rewrite startsWith_app.
    + rewrite IH by exact H. apply orb_true_r.
Qed.

(** X3.  runAgentEval never rejects: an exception of one of its steps becomes
    a failed RunResult. When copying the starter files throws, nothing else is
    done and the result has passed false, 0 of 0 tests, the message as error,
    an empty list of generated files and no usage; the same result is returned
    when listing the generated files throws after the agent has run. *)
Theorem X3_runAgentEval_never_rejects :
  forall (w : World.t) (evalDef : EvalDefinition.t) (config : ExperimentConfig.t)
         (workspaceDir : string) (i : Z),
    let m := Runner.runAgentEval w evalDef config workspaceDir i in
    let failed := fun msg =>
      RunResult.Make i false 0 0 (World.elapsed w) (Some msg) None (Some []) None in
    (forall msg, fst m <> Throws msg) /\
    (forall msg,
       World.copyStarter w = Throws msg ->
       m = (Returns (failed msg),
            [CopyStarterFiles (EvalDefinition.path evalDef) workspaceDir])) /\
    (forall msg ar,
       World.copyStarter w = Returns tt ->
       World.copySkill w = Returns tt ->
       World.writePrompt w = Returns tt ->
       Agent.executeAgent config (World.program w)
         (ExperimentConfig.timeout config) = Some ar ->
       World.listFiles w = Throws msg ->
       fst m = Returns (failed msg)).
Proof.
  intros w evalDef config ws i m failed. subst m failed.
  split; [|split].
  - intros msg. unfold Runner.runAgentEval, try_catch.
    match goal with |- context [match ?b with _ => _ end] =>
      destruct b as [[x|msg'|] log] end; cbn; discriminate.
  - intros msg Hcopy. unfold Runner.runAgentEval, try_catch, bind, perform.
    rewrite Hcopy. reflexivity.
  - intros msg ar Hcopy Hskill Hprompt Hexec Hlist.
    unfold Runner.runAgentEval, Runner.awaitAgent, try_catch, bind, perform, ret.
    rewrite Hcopy, Hprompt, Hexec, Hlist.
    destruct (Runner.hasSkill config && World.skillExists w);
      rewrite ?Hskill; reflexivity.
Qed.

(** X4.  When the configuration names a skill whose file does not exist,
    runAgentEval copies no skill file, yet the PROMPT.md it writes still tells
    the agent to read the `SKILL.md` file in this directory: the copy is
    guarded by existsSync, the instruction only by the configuration. *)
Theorem X4_prompt_names_a_skill_file_that_was_not_copied :
  forall (w : World.t) (evalDef : EvalDefinition.t) (config : ExperimentConfig.t)
         (workspaceDir : string) (i : Z),
    Runner.hasSkill config = true ->
    World.skillExists w = false ->
    World.copyStarter w = Returns tt ->
    let log := snd (Runner.runAgentEval w evalDef config workspaceDir i) in
    let written := Runner.finalPrompt (EvalDefinition.prompt evalDef) true in
    (exists rest,
       log = CopyStarterFiles (EvalDefinition.path evalDef) workspaceDir
             :: WritePromptFile workspaceDir written :: rest) /\
    JS.includes "read the `SKILL.md` file in this directory" written = true /\
    (forall a b, ~ In (CopySkillFile a b) log).
Proof.
  intros w evalDef config ws i Hskill Hexists Hcopy log written.
  subst log written.
  assert (Hlog : exists rest,
    snd (Runner.runAgentEval w evalDef config ws i) =
      CopyStarterFiles (EvalDefinition.path evalDef) ws
      :: WritePromptFile ws (Runner.finalPrompt (EvalDefinition.prompt evalDef) true)
      :: rest /\
    forall a b, ~ In (CopySkillFile a b) rest).
  { unfold Runner.runAgentEval, Runner.awaitAgent, try_catch, bind, perform, ret.
    rewrite Hcopy, Hskill, Hexists. cbn [andb].
    destruct (World.writePrompt w) as [[]|msg|];
      [|eexists; split; [reflexivity|intros a b []]..].
    destruct (Agent.executeAgent _ _ _);
      [|eexists; split; [reflexivity|cbn; intros a b [H|[]]; discriminate]].
    destruct (World.listFiles w); cbn;
      (eexists; split; [reflexivity|]); cbn;
      intros a' b' H; repeat (destruct H as [H|H]; try discriminate); exact H. }
  destruct Hlog as (rest & Hlog & Hno). split; [eauto|]. split.
  - change (Runner.finalPrompt (EvalDefinition.prompt evalDef) true)
      with (Runner.finalPrompt "" true ++ EvalDefinition.prompt evalDef).
    apply includes_app_l. vm_compute. reflexivity.
  - rewrite Hlog. intros a b [H|[H|H]]; try discriminate. exact (Hno a b H).
Qed.

(** ** One trial *)

(** The agent branch when the agent leaves no file: no check run. *)
Lemma agentTrial_without_files (w : World.t) (evalDef : EvalDefinition.t)
  (config : ExperimentConfig.t) (workspaceDir : string) (i : Z)
  (ar : Agent.AgentExecutionResult) :
  World.copyStarter w = Returns tt ->
  World.copySkill w = Returns tt ->
  World.writePrompt w = Returns tt ->
  Agent.executeAgent config (World.program w) (ExperimentConfig.timeout config)
    = Some ar ->
  World.listFiles w = Returns [] ->
  let m := Runner.agentTrial w evalDef config workspaceDir i in
  (exists r,
     fst m = Returns (r, Agent.usage ar) /\
     RunResult.passed r = false /\
     RunResult.testsPassed r = 0 /\
     RunResult.testsTotal r = 0 /\
     RunResult.generatedFiles r = Some [] /\
     RunResult.error r =
       Some (if Agent.success ar then "No files were generated by the agent"
             else "Agent exited with code " ++ JS.numToString (Agent.exitCode ar))) /\
  (forall a b, ~ In (RunVitest a b) (snd m)).
Proof.
  intros Hcopy Hskill Hprompt Hexec Hfiles m. subst m.
  unfold Runner.agentTrial, Runner.runAgentEval, Runner.awaitAgent.
  unfold bind, try_catch, perform, ret.
  rewrite Hcopy, Hprompt, Hexec, Hfiles.
  destruct (Runner.hasSkill config && World.skillExists w);
    rewrite ?Hskill; cbn; (split; [eexists; split; [reflexivity|];
      cbn; repeat split; destruct (Agent.success ar); reflexivity|]);
    intros a b H;
    repeat (destruct H as [H|H]; try discriminate); exact H.
Qed.

(** X5.  In agent mode, a trial whose agent left no file in the workspace is
    recorded as failed with 0 of 0 tests and the check runner is never
    started. Its error is 'No files were generated by the agent' when the
    agent succeeded and 'Agent exited with code N' otherwise, and the agent's
    token usage is still added to the running total.  That result is the only
    one pushed when the progress callback returns, and the first one pushed
    whenever the iteration returns. *)
Theorem X5_agent_trial_without_files_is_not_checked :
  forall (w : World.t) (client : bool) (evalDef : EvalDefinition.t)
         (config : ExperimentConfig.t) (skill : option SkillDefinition.t)
         (baseDir : string) (debug : bool) (i : Z) (acc : Runner.progress)
         (ar : Agent.AgentExecutionResult),
    Runner.isAgentMode config = true ->
    World.mkdirWorkspace w = Returns tt ->
    World.copyStarter w = Returns tt ->
    World.copySkill w = Returns tt ->
    World.writePrompt w = Returns tt ->
    Agent.executeAgent config (World.program w) (ExperimentConfig.timeout config)
      = Some ar ->
    World.listFiles w = Returns [] ->
    let m := Runner.trial w client evalDef config skill baseDir debug i acc in
    (exists r,
       (World.onProgress w r = Returns tt ->
        fst m = Returns (Runner.Acc (Runner.acc_runs acc ++ [r])%list
                           (Runner.add_usage (Runner.acc_usage acc) (Agent.usage ar)))) /\
       RunResult.passed r = false /\
       RunResult.testsPassed r = 0 /\
       RunResult.testsTotal r = 0 /\
       RunResult.generatedFiles r = Some [] /\
       RunResult.error r =
         Some (if Agent.success ar then "No files were generated by the agent"
               else "Agent exited with code " ++ JS.numToString (Agent.exitCode ar)) /\
       (forall acc',
          fst m = Returns acc' ->
          exists more,
            Runner.acc_runs acc' = (Runner.acc_runs acc ++ r :: more)%list /\
            Runner.acc_usage acc' =
              Runner.add_usage (Runner.acc_usage acc) (Agent.usage ar))) /\
    (forall a b, ~ In (RunVitest a b) (snd m)).
Proof.
  intros w client evalDef config skill baseDir debug i acc ar
    Hmode Hmk Hcopy Hskill Hprompt Hexec Hfiles m. subst m.
  destruct (agentTrial_without_files w evalDef config
              (Runner.workspacePath baseDir evalDef config i (World.now w)) i ar
              Hcopy Hskill Hprompt Hexec Hfiles)
    as [(r & Hr & Hprops) Hlog].
  assert (Hbody : Runner.attempt w client evalDef config skill
                    (Runner.workspacePath baseDir evalDef config i (World.now w)) i
                  = Runner.agentTrial w evalDef config
                      (Runner.workspacePath baseDir evalDef config i (World.now w)) i).
  { unfold Runner.attempt. now rewrite Hmode. }
  split.
  - exists r. split; [|repeat split; try tauto].
    + intros Hcb. rewrite trial_fst, Hmk, Hbody, Hr. cbn [fst snd].
      now rewrite Hcb.
    + intros acc' Hret. apply trial_returns in Hret.
      destruct Hret as (_ & r' & more & Hrec & Hruns & Hu).
      unfold recorded in Hrec. rewrite Hbody, Hr in Hrec.
      injection Hrec as <-. eauto.
  - intros a b Hin. rewrite trial_snd in Hin. cbv zeta in Hin.
    rewrite Hmk, Hbody, Hr in Hin.
    destruct Hin as [Hin|Hin]; [discriminate|].
    apply in_app_or in Hin. destruct Hin as [Hin|Hin]; [exact (Hlog a b Hin)|].
    destruct Hin as [Hin|Hin]; [discriminate|].
    destruct (World.onProgress w (fst (r, Agent.usage ar))) as [[]|msg|].
    + destruct debug; [contradiction|].
      destruct Hin as [Hin|[]]; discriminate.
    + destruct Hin as [Hin|Hin]; [discriminate|].
      destruct (World.onProgressCaught w _); destruct debug;
        try contradiction; destruct Hin as [Hin|[]]; discriminate.
    + contradiction.
Qed.

(** X6.  One iteration of runEval makes the workspace, runs the attempt in it
    and reports to the progress callback: once, or twice when the callback
    throws on the result of the attempt, its second call being the one of the
    catch block.  Whenever the iteration ends, by returning or by throwing
    what the callback throws in the catch block, the workspace is removed
    last, exactly when debug is off; when the attempt or a call of the
    callback never ends, nothing is removed.  If making the workspace throws,
    the iteration throws that error and nothing else is done. *)
Theorem X6_workspace_is_removed_unless_debugging :
  forall (w : World.t) (client : bool) (evalDef : EvalDefinition.t)
         (config : ExperimentConfig.t) (skill : option SkillDefinition.t)
         (baseDir : string) (debug : bool) (i : Z) (acc : Runner.progress),
    let ws := Runner.workspacePath baseDir evalDef config i (World.now w) in
    let body := Runner.attempt w client evalDef config skill ws i in
    let m := Runner.trial w client evalDef config skill baseDir debug i acc in
    let report := Progress i (ExperimentConfig.runs config) in
    (World.mkdirWorkspace w = Returns tt -> fst m <> Never ->
     exists reports,
       (reports = [report] \/ reports = [report; report]) /\
       snd m =
         ([Mkdir ws] ++ snd body ++ reports ++
          (if debug then [] else [RemoveDir ws]))%list /\
       (reports = [report; report] <->
        exists r msg,
          fst body = Returns r /\ World.onProgress w (fst r) = Throws msg)) /\
    (World.mkdirWorkspace w = Returns tt -> fst m = Never ->
     exists reports,
       (reports = [] \/ reports = [report] \/ reports = [report; report]) /\
       snd m = ([Mkdir ws] ++ snd body ++ reports)%list) /\
    (forall msg, World.mkdirWorkspace w = Throws msg ->
     m = (Throws msg, [Mkdir ws])).
Proof.
  intros w client evalDef config skill baseDir debug i acc ws body m report.
  assert (Hfst := trial_fst w client evalDef config skill baseDir debug i acc).
  assert (Hsnd := trial_snd w client evalDef config skill baseDir debug i acc).
  cbv zeta in Hsnd. fold ws in Hfst, Hsnd. fold body in Hfst, Hsnd.
  fold m in Hfst, Hsnd. fold report in Hsnd.
  split; [|split].
  - intros Hmk Hends. rewrite Hmk in Hfst, Hsnd. rewrite Hsnd.
    destruct (fst body) as [r|msg|] eqn:Eb.
    + destruct (World.onProgress w (fst r)) as [[]|msg|] eqn:Ep.
      * exists [report]. split; [now left|]. split; [reflexivity|].
        split; [discriminate|]. intros (r' & msg & [= <-] & H). congruence.
      * exists [report; report]. split; [now right|]. split.
        -- destruct (World.onProgressCaught w _); [reflexivity|reflexivity|].
           now rewrite Hfst in Hends.
        -- split; [eauto|reflexivity].
      * now rewrite Hfst in Hends.
    + exists [report]. split; [now left|]. split.
      * destruct (World.onProgressCaught w _); [reflexivity|reflexivity|].
        now rewrite Hfst in Hends.
      * split; [discriminate|]. intros (r' & msg' & H & _). discriminate.
    + now rewrite Hfst in Hends.
  - intros Hmk Hnever. rewrite Hmk in Hfst, Hsnd. rewrite Hsnd.
    destruct (fst body) as [r|msg|] eqn:Eb.
    + destruct (World.onProgress w (fst r)) as [[]|msg|] eqn:Ep.
      * rewrite Hfst in Hnever. discriminate.
      * destruct (World.onProgressCaught w _);
          try (rewrite Hfst in Hnever; discriminate).
        exists [report; report]. auto.
      * exists [report]. auto.
    + destruct (World.onProgressCaught w _);
        try (rewrite Hfst in Hnever; discriminate).
      exists [report]. auto.
    + exists []. auto.
  - intros msg Hmk. rewrite (surjective_pairing m), Hfst, Hsnd, Hmk.
    reflexivity.
Qed.

(** X7.  In the direct-call strategy, when the model has answered (and tokens
    were spent) but writing the first generated file throws, the trial is
    recorded as failed with the message as error and without usage or agent
    output, and the token total of the task is left unchanged: the tokens of
    that call are not counted.  The iteration returns with that one result
    when the progress callback returns, and with nothing else in any case. *)
Theorem X7_tokens_of_a_trial_that_throws_are_not_counted :
  forall (w : World.t) (evalDef : EvalDefinition.t) (config : ExperimentConfig.t)
         (skill : option SkillDefinition.t) (baseDir : string) (debug : bool)
         (i : Z) (acc : Runner.progress) (response : string) (usage : Usage.t)
         (f content : string) (rest : Extractor.FileMap) (msg : string),
    Runner.isAgentMode config = false ->
    World.mkdirWorkspace w = Returns tt ->
    World.copyStarter w = Returns tt ->
    World.claude w = Returns (response, usage) ->
    Extractor.parseGeneratedFiles response = (f, content) :: rest ->
    World.writeFile w
      (Path.join [Runner.workspacePath baseDir evalDef config i (World.now w); f])
      = Throws msg ->
    exists r,
      (World.onProgressCaught w r = Returns tt ->
       fst (Runner.trial w true evalDef config skill baseDir debug i acc) =
         Returns (Runner.Acc (Runner.acc_runs acc ++ [r])%list
                    (Runner.acc_usage acc))) /\
      r = Runner.thrownResult i msg /\
      RunResult.passed r = false /\
      RunResult.error r = Some msg /\
      RunResult.usage r = None /\
      RunResult.agentOutput r = None /\
      (forall acc',
         fst (Runner.trial w true evalDef config skill baseDir debug i acc)
           = Returns acc' ->
         acc' = Runner.Acc (Runner.acc_runs acc ++ [r])%list (Runner.acc_usage acc)).
Proof.
  intros w evalDef config skill baseDir debug i acc response usage f content
    rest msg Hmode Hmk Hcopy Hapi Hfiles Hwrite.
  assert (Hbody :
    fst (Runner.attempt w true evalDef config skill
           (Runner.workspacePath baseDir evalDef config i (World.now w)) i)
    = Throws msg).
  { unfold Runner.attempt. rewrite Hmode. unfold Runner.sdkTrial. cbn [negb].
    rewrite fst_bind. unfold Runner.runSDKEval.
    rewrite fst_bind. unfold perform at 1. cbn [fst]. rewrite Hcopy.
    rewrite fst_bind. unfold perform at 1. cbn [fst]. rewrite Hapi.
    cbn [fst snd]. rewrite fst_bind, Hfiles.
    cbn [Runner.writeGeneratedFiles]. rewrite fst_bind. unfold perform at 1.
    cbn [fst]. rewrite Hwrite. reflexivity. }
  exists (Runner.thrownResult i msg). split; [|repeat split].
  - intros Hcb. now rewrite trial_fst, Hmk, Hbody, Hcb.
  - intros acc'. rewrite trial_fst, Hmk, Hbody.
    destruct (World.onProgressCaught w _) as [[]|msg'|]; try discriminate.
    now intros [= <-].
Qed.

(** X8.  With a trial count of zero or less runEval performs no effect and
    returns a result without runs: passedRuns 0, totalRuns the configured
    count, no usage, and an average duration that is NaN; with a count of
    exactly zero the pass rate is NaN as well. *)
Theorem X8_no_trial_gives_rates_that_are_not_numbers :
  forall (worlds : Z -> World.t) (client : bool) (evalDef : EvalDefinition.t)
         (config : ExperimentConfig.t) (skill : option SkillDefinition.t)
         (baseDir : string) (debug : bool),
    ExperimentConfig.runs config <= 0 ->
    let m := Runner.runEval worlds client evalDef config skill baseDir debug in
    snd m = [] /\
    exists r,
      fst m = Returns r /\
      EvalResult.runs r = [] /\
      EvalResult.passedRuns r = 0 /\
      EvalResult.totalRuns r = ExperimentConfig.runs config /\
      EvalResult.totalUsage r = None /\
      PrimFloat.is_nan (EvalResult.avgDurationMs r) = true /\
      (ExperimentConfig.runs config = 0 ->
       PrimFloat.is_nan (EvalResult.passRate r) = true).
Proof.
  intros worlds client evalDef config skill baseDir debug Hruns m. subst m.
  unfold Runner.runEval.
  replace (Z.to_nat (ExperimentConfig.runs config)) with 0%nat by lia.
  cbn [Runner.trials]. unfold bind, ret. cbn [fst snd app].
  split; [reflexivity|]. eexists. split; [reflexivity|].
  unfold Runner.aggregate. cbn. repeat split.
  intros ->. reflexivity.
Qed.

Section OnlyMkdir.

Variable worlds : Z -> World.t.
Variable client : bool.
Variable evalDef : EvalDefinition.t.
Variable config : ExperimentConfig.t.
Variable skill : option SkillDefinition.t.
Variable baseDir : string.
Variable debug : bool.

Lemma trials_throws (n : nat) :
  forall (i : Z) (acc : Runner.progress) (msg : string),
    fst (Runner.trials worlds client evalDef config skill baseDir debug n i acc)
      = Throws msg ->
    exists k, (k < n)%nat /\
      escapes (worlds (i + Z.of_nat k)) client evalDef config skill baseDir
        (i + Z.of_nat k) msg /\
      (forall j, (j < k)%nat ->
         World.mkdirWorkspace (worlds (i + Z.of_nat j)) = Returns tt).
Proof.
  induction n as [|n IH]; intros i acc msg; simpl.
  - discriminate.
  - rewrite fst_bind.
    destruct (fst (Runner.trial _ _ _ _ _ _ _ _ _)) as [acc1|msg'|] eqn:E.
    + apply trial_returns in E. destruct E as (Hmk & _).
      intros H. apply IH in H. destruct H as (k & Hk & Hthrow & Hbefore).
      exists (S k). split; [lia|].
      replace (i + Z.of_nat (S k)) with (i + 1 + Z.of_nat k) by lia.
      split; [exact Hthrow|].
      intros [|j] Hj; [now rewrite Z.add_0_r|].
      replace (i + Z.of_nat (S j)) with (i + 1 + Z.of_nat j) by lia.
      apply Hbefore. lia.
    + intros [= ->]. apply trial_throws in E. exists 0%nat.
      rewrite Z.add_0_r. split; [lia|]. split; [exact E|]. intros j Hj. lia.
    + discriminate.
Qed.

End OnlyMkdir.

(** X9.  runEval rejects only in two ways, each time with the error thrown:
    creating the workspace directory of some trial throws (createWorkspace is
    called before the try block), or the progress callback throws when it is
    called in the catch block of some trial, which happens after the attempt
    has thrown or after the callback has thrown on the result of the attempt.
    Every other exception of a trial is caught and recorded.  The workspaces
    of all earlier trials were made, and with a callback that returns only a
    failing mkdir is left. *)
Theorem X9_only_mkdir_or_the_callback_escapes_runEval :
  forall (worlds : Z -> World.t) (client : bool) (evalDef : EvalDefinition.t)
         (config : ExperimentConfig.t) (skill : option SkillDefinition.t)
         (baseDir : string) (debug : bool) (msg : string),
    fst (Runner.runEval worlds client evalDef config skill baseDir debug)
      = Throws msg ->
    exists i, 1 <= i <= ExperimentConfig.runs config /\
      escapes (worlds i) client evalDef config skill baseDir i msg /\
      (callbackReturns (worlds i) ->
       World.mkdirWorkspace (worlds i) = Throws msg) /\
      (forall j, 1 <= j < i -> World.mkdirWorkspace (worlds j) = Returns tt).
Proof.
  intros worlds client evalDef config skill baseDir debug msg.
  unfold Runner.runEval. rewrite fst_bind.
  destruct (fst (Runner.trials _ _ _ _ _ _ _ _ _ _)) as [acc|msg'|] eqn:E;
    try discriminate.
  intros [= ->]. apply trials_throws in E.
  destruct E as (k & Hk & H & Hbefore).
  exists (1 + Z.of_nat k). split; [lia|]. split; [exact H|]. split.
  - intros [_ Hcaught]. destruct H as [H|(_ & earlier & H & _)]; [exact H|].
    rewrite Hcaught in H. discriminate.
  - intros j Hj. specialize (Hbefore (Z.to_nat (j - 1)) ltac:(lia)).
    now replace (1 + Z.of_nat (Z.to_nat (j - 1))) with j in Hbefore by lia.
Qed.

(** ** Experiments and their comparison *)

Lemma runEval_names worlds client evalDef config skill baseDir debug r :
  fst (Runner.runEval worlds client evalDef config skill baseDir debug) = Returns r ->
  EvalResult.evalName r = EvalDefinition.name evalDef /\
  EvalResult.totalRuns r = ExperimentConfig.runs config.
Proof.
  intros H. apply runEval_returns in H. destruct H as (rs & runs & _ & ->).
  split; reflexivity.
Qed.

Lemma runEvals_names ew client config skill baseDir debug evals :
  forall ers,
    fst (Runner.runEvals ew client config skill baseDir debug evals) = Returns ers ->
    map EvalResult.evalName ers = map EvalDefinition.name evals /\
    (forall er, In er ers -> EvalResult.totalRuns er = ExperimentConfig.runs config).
Proof.
  induction evals as [|e evals IH]; intros ers; simpl.
  - intros [= <-]. split; [reflexivity|intros er []].
  - rewrite fst_bind.
    destruct (fst (Runner.runEval _ _ _ _ _ _ _)) as [r|msg|] eqn:Er;
      try discriminate.
    rewrite fst_bind.
    destruct (fst (Runner.runEvals _ _ _ _ _ _ _)) as [rs|msg|] eqn:Ers;
      try discriminate.
    cbn. intros [= <-]. apply runEval_names in Er. destruct Er as [En Et].
    destruct (IH rs eq_refl) as [Hn Ht]. simpl. split.
    + now rewrite En, Hn.
    + intros er [<-|Hin]; auto.
Qed.

(** X10.  When runExperiment returns a result, at least one task was selected,
    the result holds exactly one task result per selected task, in the order
    of selection and under the task's name, each with totalRuns equal to the
    configured trial count, and the result carries the configuration and its
    name. *)
Theorem X10_experiment_lists_the_selected_tasks_in_order :
  forall (ew : Runner.ExperimentWorld) (config : ExperimentConfig.t)
         (evalsDir baseDir : string) (debug : bool) (r : ExperimentResult.t),
    fst (Runner.runExperiment ew config evalsDir baseDir debug) = Returns r ->
    exists evals,
      Runner.filteredEvals ew = Returns evals /\
      evals <> [] /\
      map EvalResult.evalName (ExperimentResult.evalResults r) =
        map EvalDefinition.name evals /\
      (forall er, In er (ExperimentResult.evalResults r) ->
         EvalResult.totalRuns er = ExperimentConfig.runs config) /\
      ExperimentResult.experimentName r = ExperimentConfig.name config /\
      ExperimentResult.config r = config.
Proof.
  intros ew config evalsDir baseDir debug r H.
  apply runExperiment_inversion in H.
  destruct H as (sk & evals & ers & Hf & Hne & Hruns & ->).
  apply runEvals_names in Hruns. destruct Hruns as [Hn Ht].
  exists evals. cbn [Runner.assemble ExperimentResult.evalResults
    ExperimentResult.experimentName ExperimentResult.config].
  repeat split; auto.
Qed.

(** X11.  When the baseline holds several results under one task name,
    compareExperiments compares against the last of them: every comparison
    entry of that name carries the pass rate and the trial count of the last
    baseline result with that name (later entries of the Map overwrite earlier
    ones). *)
Theorem X11_the_last_baseline_result_of_a_name_is_compared :
  forall (baseline withSkill : ExperimentResult.t)
         (before after : list EvalResult.t) (b w : EvalResult.t),
    ExperimentResult.evalResults baseline = (before ++ b :: after)%list ->
    (forall x, In x after -> EvalResult.evalName x <> EvalResult.evalName b) ->
    In w (ExperimentResult.evalResults withSkill) ->
    EvalResult.evalName w = EvalResult.evalName b ->
    let c := Compare.compareExperiments baseline withSkill in
    In (EvalComparison.Make (EvalResult.evalName w)
          (EvalResult.passRate b) (EvalResult.passRate w)
          (PrimFloat.sub (EvalResult.passRate w) (EvalResult.passRate b))
          (EvalResult.totalRuns b) (EvalResult.totalRuns w))
       (ComparisonResult.evalComparisons c) /\
    (forall e, In e (ComparisonResult.evalComparisons c) ->
       EvalComparison.evalName e = EvalResult.evalName b ->
       EvalComparison.baselinePassRate e = EvalResult.passRate b /\
       EvalComparison.baselineRuns e = EvalResult.totalRuns b).
Proof.
  intros baseline withSkill before after b w Hsplit Hafter Hw Hname c.
  assert (Hget : JSMap.get (EvalResult.evalName b)
            (JSMap.of_entries
               (map (fun r => (EvalResult.evalName r, r))
                  (ExperimentResult.evalResults baseline))) = Some b).
  { rewrite JSMap_of_entries_get, Hsplit, map_app, rev_app_distr.
    cbn [map rev]. rewrite <- app_assoc. cbn [app].
    set (l := rev (map _ after)).
    assert (Hl : forall k v, In (k, v) l -> k <> EvalResult.evalName b).
    { subst l. intros k v Hin. apply in_rev in Hin. apply in_map_iff in Hin.
      destruct Hin as (x & [= <- <-] & Hx). now apply Hafter. }
    induction l as [|[k v] l IH]; cbn [app JSMap.get].
    - now rewrite String.eqb_refl.
    - destruct (String.eqb_spec (EvalResult.evalName b) k) as [E|_].
      + exfalso. apply (Hl k v); [now left|auto].
      + apply IH. intros k' v' H. apply (Hl k' v'). now right. }
  subst c. unfold Compare.compareExperiments.
  cbn [ComparisonResult.evalComparisons]. rewrite fold_compareOne. cbn [app].
  split.
  - apply in_flat_map. exists w. split; [exact Hw|].
    unfold contribution, Compare.compareOne. rewrite Hname, Hget.
    left. reflexivity.
  - intros e He Hen. apply in_flat_map in He. destruct He as (w' & _ & He).
    unfold contribution, Compare.compareOne in He.
    destruct (JSMap.get (EvalResult.evalName w') _) as [b'|] eqn:E;
      [|contradiction].
    destruct He as [<-|[]]. cbn in Hen |- *. rewrite Hen, Hget in E.
    injection E as <-. auto.
Qed.

(** ** File names that climb *)

Lemma split_acc_sep (sep : ascii) (a b : string) :
  forall cur,
    JS.split_acc sep (a ++ String sep b) cur =
    (JS.split_acc sep a cur ++ JS.split_acc sep b "")%list.
Proof.
  induction a as [|c a IH]; intros cur; simpl.
  - now rewrite Ascii.eqb_refl.
  - destruct (Ascii.eqb c sep); [simpl; f_equal|]; apply IH.
Qed.

Lemma split_sep (a b : string) :
  JS.split Path.slash (a ++ "/" ++ b) =
  (JS.split Path.slash a ++ JS.split Path.slash b)%list.
Proof. unfold JS.split. apply split_acc_sep. Qed.

Lemma split_plain (d : string) :
  no_slash d = true -> JS.split Path.slash d = [d].
Proof. intros H. unfold JS.split. now rewrite split_acc_no_sep. Qed.

Lemma isAbsolute_app (p s : string) :
  Path.isAbsolute (p ++ "/" ++ s) = Path.isAbsolute (p ++ "/").
Proof. destruct p; reflexivity. Qed.

Lemma trailing_app (pre f : string) :
  Path.hasTrailingSeparator (pre ++ "/" ++ f) =
  match f with
  | EmptyString => true
  | _ => Path.hasTrailingSeparator f
  end.
Proof.
  unfold Path.hasTrailingSeparator. destruct f as [|c f].
  - change (pre ++ "/" ++ "") with (pre ++ String "/" ""). now rewrite last_char_app.
  - change (pre ++ "/" ++ String c f) with (pre ++ String "/" (String c f)).
    rewrite last_char_app.
    change (String "/" (String c f)) with ("/" ++ String c f).
    now rewrite last_char_app.
Qed.

Lemma normalize_dot_dot (p d f : string) :
  plainSegment d = true ->
  Path.normalize (p ++ "/" ++ d ++ "/" ++ ".." ++ "/" ++ f) =
  Path.normalize (p ++ "/" ++ f).
Proof.
  unfold plainSegment. rewrite !andb_true_iff, !negb_true_iff.
  intros [[[H0 H1] H2] Hd].
  assert (Hsegs : forall allow,
    Path.normalizeString (p ++ "/" ++ d ++ "/" ++ ".." ++ "/" ++ f) allow =
    Path.normalizeString (p ++ "/" ++ f) allow).
  { intros allow. unfold Path.normalizeString. f_equal.
    rewrite (split_sep p f), (split_sep p), (split_sep d), (split_sep ".." f).
    rewrite (split_plain d Hd).
    change (JS.split Path.slash "..") with [".."].
    rewrite !fold_left_app. f_equal. cbn [fold_left].
    set (K := fold_left (Path.push_segment allow) (JS.split Path.slash p) []).
    unfold Path.push_segment at 2. rewrite H0, H1, H2. cbn [orb].
    unfold Path.push_segment. cbn [String.eqb Ascii.eqb Bool.eqb orb].
    rewrite rev_app_distr. cbn [rev app]. rewrite H2. apply rev_involutive. }
  rewrite !normalize_nonempty by (destruct p; discriminate).
  cbv zeta. rewrite Hsegs.
  rewrite (isAbsolute_app p (d ++ "/" ++ ".." ++ "/" ++ f)), (isAbsolute_app p f).
  replace (Path.hasTrailingSeparator (p ++ "/" ++ d ++ "/" ++ ".." ++ "/" ++ f))
    with (Path.hasTrailingSeparator (p ++ "/" ++ f)); [reflexivity|].
  rewrite (trailing_app p f).
  replace (p ++ "/" ++ d ++ "/" ++ ".." ++ "/" ++ f)
    with ((p ++ "/" ++ d ++ "/" ++ "..") ++ "/" ++ f)
    by (now rewrite !append_assoc).
  now rewrite trailing_app.
Qed.

(** X12.  writeGeneratedFiles does not confine the files to the workspace: for
    a workspace p/d (d a plain directory name) a generated file named ../f is
    written to path.join(p, f), resolved from the parent of the workspace
    directory, and ../f is reported as a written file. *)
Theorem X12_a_file_name_with_dot_dot_is_resolved_from_the_parent :
  forall (w : World.t) (p d f content : string),
    p <> "" -> f <> "" -> plainSegment d = true ->
    World.writeFile w (Path.join [p; f]) = Returns tt ->
    Path.join [p ++ "/" ++ d; "../" ++ f] = Path.join [p; f] /\
    Runner.writeGeneratedFiles w (p ++ "/" ++ d) [("../" ++ f, content)] =
      (Returns ["../" ++ f], [WriteFile (Path.join [p; f]) content]).
Proof.
  intros w p d f content Hp Hf Hd Hwrite.
  assert (Hjoin : Path.join [p ++ "/" ++ d; "../" ++ f] = Path.join [p; f]).
  { unfold Path.join. cbn [filter].
    replace (JS.truthy (p ++ "/" ++ d)) with true by (destruct p; reflexivity).
    change (JS.truthy ("../" ++ f)) with true.
    replace (JS.truthy p) with true by (destruct p; [congruence|reflexivity]).
    replace (JS.truthy f) with true by (destruct f; [congruence|reflexivity]).
    cbn [JS.join].
    replace ((p ++ "/" ++ d) ++ "/" ++ "../" ++ f)
      with (p ++ "/" ++ d ++ "/" ++ ".." ++ "/" ++ f)
      by (now rewrite !append_assoc).
    now apply normalize_dot_dot. }
  split; [exact Hjoin|].
  cbn [Runner.writeGeneratedFiles]. rewrite Hjoin.
  unfold bind, perform, ret. rewrite Hwrite. reflexivity.
Qed.

(** ** Responses without a block *)

Lemma includes_app_r (x a b : string) :
  JS.includes x b = true -> JS.includes x (a ++ b) = true.
Proof.
  intros H. induction a as [|c a IH]; [exact H|].
  cbn [append JS.includes]. rewrite IH. apply orb_true_r.
Qed.

Lemma prose_app (a b : string) :
  prose (a ++ b) = true -> prose a = true /\ prose b = true.
Proof.
  unfold prose. rewrite !negb_true_iff. intros H. split.
  - destruct (JS.includes Extractor.fence a) eqn:E; [|reflexivity].
    now rewrite (includes_app_l _ a b E) in H.
  - destruct (JS.includes Extractor.fence b) eqn:E; [|reflexivity].
    now rewrite (includes_app_r _ a b E) in H.
Qed.

Lemma prose_lines (s : string) :
  forall cur, prose (cur ++ s) = true ->
    Forall (fun l => prose l = true) (JS.split_acc JS.LF s cur).
Proof.
  induction s as [|c s IH]; intros cur H; simpl.
  - rewrite append_nil_r in H. auto.
  - destruct (Ascii.eqb c JS.LF).
    + apply prose_app in H. destruct H as [Hcur Hs]. constructor; [exact Hcur|].
      apply IH. simpl. change (String c s) with (String c "" ++ s) in Hs.
      now apply prose_app in Hs.
    + apply IH. rewrite append_assoc. exact H.
Qed.

Lemma prose_no_fence_start (l : string) :
  prose l = true -> Regex.test Extractor.fenceAtLineStart l = false.
Proof.
  intros H. unfold Extractor.fenceAtLineStart. rewrite test_Bos.
  rewrite run_lit_miss; [reflexivity|].
  unfold prose in H. apply negb_true_iff in H.
  destruct l; cbn [JS.includes] in H; apply orb_false_elim in H; tauto.
Qed.

Lemma scan_prose_lines (lines : list string) :
  Forall (fun l => prose l = true) lines ->
  fold_left Extractor.scan_line lines Extractor.scan0 = Extractor.scan0.
Proof.
  induction 1 as [|l lines Hl _ IH]; [reflexivity|].
  cbn [fold_left]. unfold Extractor.scan_line at 2.
  cbn [Extractor.inCodeBlock Extractor.scan0 negb].
  rewrite (prose_no_fence_start l Hl), andb_false_r. exact IH.
Qed.

(** X13.  A response that contains no run of three backticks yields no file:
    the first pass finds nothing, the line-by-line pass finds nothing, and
    parseGeneratedFiles returns an empty map. *)
Theorem X13_a_response_without_fence_yields_no_file :
  forall response : string,
    prose response = true ->
    Extractor.primaryPass response = [] /\
    Extractor.extractCodeBlocksWithNestedBackticks response = [] /\
    Extractor.parseGeneratedFiles response = [].
Proof.
  intros response H.
  assert (H1 : Extractor.primaryPass response = []).
  { unfold Extractor.primaryPass. cbn [Regex.exec_all].
    now rewrite search_prose. }
  assert (H2 : Extractor.extractCodeBlocksWithNestedBackticks response = []).
  { unfold Extractor.extractCodeBlocksWithNestedBackticks, JS.split_lines, JS.split.
    rewrite scan_prose_lines; [reflexivity|]. now apply prose_lines. }
  split; [exact H1|]. split; [exact H2|].
  now rewrite parse_falls_back, H2.
Qed.

(** ** Task selection *)

Section WildcardFacts.
Import Regex.

Lemma star_class_afterRun (q : ascii -> bool) (k : cont) (K : string -> bool)
  (cs : list (nat * string)) :
  (forall n s, succeeds (k (MState n s cs)) = K s) ->
  forall (s : string) (fuel n : nat),
    (String.length s < fuel)%nat ->
    succeeds (star_loop true (run (Chr q)) k fuel (MState n s cs)) =
    afterRun q K s.
Proof.
  intros Hk. induction s as [|c s IH]; intros fuel n Hfuel;
    (destruct fuel as [|fuel]; [simpl in Hfuel; lia|]); cbn [star_loop].
  - rewrite run_Chr_miss by exact I. rewrite Hk. cbn. now rewrite orb_false_r.
  - cbn [afterRun].
    change ((fix go (s0 : string) : bool :=
               K s0 || match s0 with
                       | String c0 s' => q c0 && go s'
                       | EmptyString => false
                       end) s) with (afterRun q K s).
    destruct (q c) eqn:Eq.
    + rewrite run_Chr_hit by exact Eq. cbn [pos].
      replace (Nat.eqb (S n) n) with false by (symmetry; apply Nat.eqb_neq; lia).
      simpl in Hfuel. rewrite <- (IH fuel (S n)) by lia.
      destruct (star_loop true (run (Chr q)) k fuel (MState (S n) s cs));
        cbn [succeeds andb]; [now rewrite orb_true_r|].
      now rewrite Hk, orb_false_r.
    + rewrite run_Chr_miss by exact Eq. rewrite Hk. cbn. now rewrite orb_false_r.
Qed.

Lemma run_wildcardRegex (pattern : string) :
  forall (n : nat) (s : string) (cs : list (nat * string)),
    succeeds (run (wildcardRegex pattern) (MState n s cs) Some) = wild pattern s.
Proof.
  induction pattern as [|c p IH]; intros n s cs.
  - cbn. destruct s; reflexivity.
  - cbn [wildcardRegex wild]. rewrite run_Cat.
    destruct (Ascii.eqb c "*").
    + rewrite run_Star. cbn [rest].
      apply (star_class_afterRun _ _ (wild p)); [|lia].
      intros n' s'. apply IH.
    + destruct s as [|d s]; [destruct (Ascii.eqb c "."); reflexivity|].
      destruct (Ascii.eqb c ".").
      * unfold dot. cbn [run rest]. unfold notLineTerminator.
        destruct (negb (JS.is_line_terminator d)); [apply IH|reflexivity].
      * unfold chr. cbn [run rest].
        destruct (Ascii.eqb c d); [apply IH|reflexivity].
Qed.

Lemma replaced_head (p : string) :
  match Selection.replaceStars p ++ "$" with
  | String q _ => Ascii.eqb q "*" = false
  | EmptyString => True
  end.
Proof.
  destruct p as [|c p]; [reflexivity|]. cbn [Selection.replaceStars].
  destruct (Ascii.eqb c "*") eqn:E; [reflexivity|exact E].
Qed.

Lemma compile_wildcard (pattern : string) :
  wildcardPattern pattern = true ->
  RegExp.compile (Selection.replaceStars pattern ++ "$") =
  Some (wildcardRegex pattern).
Proof.
  induction pattern as [|c p IH]; [reflexivity|].
  unfold wildcardPattern. cbn [JS.all_chars]. intros H.
  apply andb_prop in H. destruct H as [Hc Hp]. specialize (IH Hp).
  pose proof (replaced_head p) as Hhead.
  cbn [Selection.replaceStars wildcardRegex].
  destruct (Ascii.eqb_spec c "*") as [->|Hstar].
  - cbn. cbn in IH. rewrite IH. reflexivity.
  - destruct (Ascii.eqb_spec c ".") as [->|Hdot].
    + cbn [append RegExp.compile]. cbn [Ascii.eqb Bool.eqb andb].
      change (RegExp.atom ".") with (Some Regex.dot).
      destruct (Selection.replaceStars p ++ "$") as [|q r] eqn:E.
      * cbn in IH |- *. congruence.
      * rewrite Hhead, IH. reflexivity.
    + cbn [orb] in Hc. apply negb_true_iff in Hc.
      apply Ascii.eqb_neq in Hdot.
      cbn [append RegExp.compile].
      destruct (Ascii.eqb_spec c "^") as [->|_]; [discriminate|].
      destruct (Ascii.eqb_spec c "$") as [->|_]; [discriminate|].
      destruct (Ascii.eqb_spec c RegExp.backslash) as [->|_]; [discriminate|].
      unfold RegExp.atom. rewrite Hdot, Hc.
      destruct (Selection.replaceStars p ++ "$") as [|q r] eqn:E.
      * cbn in IH |- *. congruence.
      * rewrite Hhead, IH. reflexivity.
Qed.

Lemma matchesPattern_wildcard (name pattern : string) :
  wildcardPattern pattern = true ->
  Selection.matchesPattern name pattern = Some (selects pattern name).
Proof.
  intros H. unfold Selection.matchesPattern, selects.
  destruct (JS.includes "*" pattern); [|reflexivity].
  cbn [append RegExp.compile]. cbn [Ascii.eqb Bool.eqb andb].
  rewrite (compile_wildcard pattern H). cbn [option_map].
  rewrite test_Bos, <- (run_wildcardRegex pattern 0 name []). reflexivity.
Qed.

End WildcardFacts.

Lemma somePattern_wildcard (name : string) (patterns : list string) :
  (forall p, In p patterns -> JS.includes "*" p = true -> wildcardPattern p = true) ->
  Selection.somePattern name patterns =
  Some (existsb (fun p => selects p name) patterns).
Proof.
  induction patterns as [|p ps IH]; intros H; [reflexivity|].
  cbn [Selection.somePattern existsb].
  assert (Hp : Selection.matchesPattern name p = Some (selects p name)).
  { destruct (JS.includes "*" p) eqn:E.
    - apply matchesPattern_wildcard. apply H; [now left|exact E].
    - unfold Selection.matchesPattern, selects. now rewrite E. }
  rewrite Hp. destruct (selects p name); [reflexivity|].
  apply IH. intros q Hq. apply H. now right.
Qed.

Lemma filterByPatterns_wildcard (evals : list EvalDefinition.t)
  (patterns : list string) :
  (forall p, In p patterns -> JS.includes "*" p = true -> wildcardPattern p = true) ->
  Selection.filterByPatterns evals patterns =
  Some (filter (fun e => existsb (fun p => selects p (EvalDefinition.name e)) patterns)
          evals).
Proof.
  intros H. induction evals as [|e es IH]; [reflexivity|].
  cbn [Selection.filterByPatterns filter].
  rewrite (somePattern_wildcard _ _ H), IH. reflexivity.
Qed.

Lemma existsb_star (patterns : list string) :
  existsb (String.eqb "*") patterns = true <-> In "*" patterns.
Proof.
  rewrite existsb_exists. split.
  - intros (x & Hx & E). apply String.eqb_eq in E. now subst.
  - intros H. exists "*". split; [exact H|reflexivity].
Qed.

(** X16.  filterEvals returns every task when the pattern list contains '*'.
    Otherwise, when '*' and '.' are the only regular-expression characters of
    the patterns that contain '*', it keeps, in order, the tasks whose name
    equals a pattern without '*' or matches a pattern with '*' read as a
    wildcard, in which '*' stands for any run of characters other than line
    terminators and '.' for any one such character (a dot is not literal). *)
Theorem X16_patterns_select_tasks_as_wildcards :
  forall (evals : list EvalDefinition.t) (patterns : list string),
    (In "*" patterns -> Selection.filterEvals evals patterns = Some evals) /\
    (~ In "*" patterns ->
     (forall p, In p patterns -> JS.includes "*" p = true ->
        wildcardPattern p = true) ->
     Selection.filterEvals evals patterns =
       Some (filter
               (fun e => existsb (fun p => selects p (EvalDefinition.name e)) patterns)
               evals)).
Proof.
  intros evals patterns. unfold Selection.filterEvals. split.
  - intros H. apply existsb_star in H. now rewrite H.
  - intros Hno Hwild.
    destruct (existsb (String.eqb "*") patterns) eqn:E;
      [apply existsb_star in E; contradiction|].
    now apply filterByPatterns_wildcard.
Qed.

Lemma afterRun_spec (q : ascii -> bool) (K : string -> bool) (s : string) :
  afterRun q K s = true <->
  exists a b, s = a ++ b /\ JS.all_chars q a = true /\ K b = true.
Proof.
  induction s as [|c s IH]; cbn [afterRun].
  - rewrite orb_false_r. split.
    + intros H. exists "", "". auto.
    + intros (a & b & E & _ & Hb). destruct a; [|discriminate].
      simpl in E. now subst b.
  - change ((fix go (s0 : string) : bool :=
               K s0 || match s0 with
                       | String c0 s' => q c0 && go s'
                       | EmptyString => false
                       end) s) with (afterRun q K s).
    rewrite orb_true_iff, andb_true_iff, IH. split.
    + intros [H|[Hc (a & b & -> & Ha & Hb)]].
      * exists "", (String c s). auto.
      * exists (String c a), b. simpl. rewrite Hc. auto.
    + intros (a & b & E & Ha & Hb). destruct a as [|d a].
      * left. simpl in E. now subst b.
      * right. simpl in E, Ha. injection E as -> ->.
        apply andb_prop in Ha. destruct Ha as [Hd Ha]. split; [exact Hd|].
        exists a, b. auto.
Qed.

Lemma plain_char (c : ascii) :
  RegExp.isSyntaxChar c = false ->
  Ascii.eqb c "*" = false /\ Ascii.eqb c "." = false.
Proof.
  intros H. split.
  - destruct (Ascii.eqb_spec c "*") as [->|]; [discriminate|reflexivity].
  - destruct (Ascii.eqb_spec c ".") as [->|]; [discriminate|reflexivity].
Qed.

Lemma wild_plain_prefix (pre rest name : string) :
  plainText pre = true ->
  wild (pre ++ rest) name = true <->
  exists t, name = pre ++ t /\ wild rest t = true.
Proof.
  revert name. induction pre as [|c pre IH]; intros name H.
  - simpl. split; [intros Hw; exists name; auto|intros (t & -> & Ht); exact Ht].
  - unfold plainText in H. simpl in H. apply andb_prop in H.
    destruct H as [Hc Hpre]. apply negb_true_iff in Hc.
    destruct (plain_char c Hc) as [Hs Hd].
    cbn [append wild]. rewrite Hs, Hd.
    destruct name as [|d name].
    + split; [discriminate|intros (t & E & _); discriminate].
    + rewrite andb_true_iff, (IH name Hpre). split.
      * intros [E (t & -> & Ht)]. apply Ascii.eqb_eq in E. subst d.
        exists t. auto.
      * intros (t & E & Ht). injection E as -> ->.
        split; [apply Ascii.eqb_refl|]. exists t. auto.
Qed.

Lemma wild_plain (suf name : string) :
  plainText suf = true -> wild suf name = true <-> name = suf.
Proof.
  intros H. rewrite <- (append_nil_r suf) at 1.
  rewrite (wild_plain_prefix suf "" name H). cbn [wild]. split.
  - intros (t & -> & Ht). apply String.eqb_eq in Ht. subst t.
    apply append_nil_r.
  - intros ->. exists "". split; [now rewrite append_nil_r|reflexivity].
Qed.

Lemma includes_star (pre suf : string) : JS.includes "*" (pre ++ "*" ++ suf) = true.
Proof.
  induction pre as [|c pre IH]; [reflexivity|].
  cbn [append JS.includes]. change ("*" ++ suf) with (String "*" suf) in IH.
  cbn [append] in IH. rewrite IH. apply orb_true_r.
Qed.

Lemma plain_is_wildcard (s : string) : plainText s = true -> wildcardPattern s = true.
Proof.
  apply all_chars_weaken. intros c ->. apply orb_true_r.
Qed.

(** X17.  For a single pattern pre*suf, with pre and suf free of
    regular-expression characters and not both empty, filterEvals keeps
    exactly the tasks whose name is pre, then any text without line
    terminators, then suf; the tasks kept are a sublist of the given ones, in
    their order. *)
Theorem X17_asterisk_between_prefix_and_suffix :
  forall (evals : list EvalDefinition.t) (pre suf : string),
    plainText pre = true -> plainText suf = true -> pre ++ suf <> "" ->
    exists kept,
      Selection.filterEvals evals [pre ++ "*" ++ suf] = Some kept /\
      (exists keep, kept = filter keep evals) /\
      forall e, In e kept <->
        In e evals /\
        exists mid,
          EvalDefinition.name e = pre ++ mid ++ suf /\
          JS.all_chars notLineTerminator mid = true.
Proof.
  intros evals pre suf Hpre Hsuf Hne.
  set (pat := pre ++ "*" ++ suf).
  assert (Hwild : wildcardPattern pat = true).
  { unfold wildcardPattern, pat. rewrite !all_chars_app, !andb_true_iff.
    split; [|split]; [exact (plain_is_wildcard _ Hpre)|reflexivity|
                      exact (plain_is_wildcard _ Hsuf)]. }
  assert (Hnot : ~ In "*" [pat]).
  { intros [E|[]]. apply Hne. subst pat.
    destruct pre as [|c pre]; [simpl in E; now injection E as ->|].
    simpl in E. injection E as -> E. destruct pre; discriminate. }
  exists (filter (fun e => existsb (fun p => selects p (EvalDefinition.name e)) [pat])
            evals).
  split.
  { unfold Selection.filterEvals.
    destruct (existsb (String.eqb "*") [pat]) eqn:E;
      [apply existsb_star in E; contradiction|].
    apply filterByPatterns_wildcard. intros p [<-|[]] _. exact Hwild. }
  split; [eexists; reflexivity|].
  intros e. rewrite filter_In. cbn [existsb]. rewrite orb_false_r.
  unfold selects. subst pat. rewrite includes_star.
  rewrite (wild_plain_prefix pre ("*" ++ suf) _ Hpre).
  change ("*" ++ suf) with (String "*" suf). cbn [wild Ascii.eqb Bool.eqb andb].
  split.
  - intros [Hin (t & E & Ht)]. split; [exact Hin|].
    apply afterRun_spec in Ht. destruct Ht as (a & b & -> & Ha & Hb).
    apply (wild_plain suf b Hsuf) in Hb. subst b. exists a. auto.
  - intros [Hin (mid & E & Hmid)]. split; [exact Hin|].
    exists (mid ++ suf). split; [exact E|].
    apply afterRun_spec. exists mid, suf. split; [reflexivity|].
    split; [exact Hmid|]. now apply wild_plain.
Qed.

(** ** Front matter *)

Section FrontmatterFacts.
Import Regex.

Lemma search_Bos (r : regex) (s : string) :
  search (Cat Bos r) 0 s =
  match run r (MState 0 s []) Some with
  | Some st => Some (RMatch 0 (pos st) (JS.take (pos st - 0) s) (rest st) (caps st))
  | None => None
  end.
Proof.
  destruct s as [|c s]; cbn [search]; unfold match_here;
    rewrite run_Cat; cbn [run pos Nat.eqb];
    destruct (run r _ Some); try reflexivity.
  apply search_Bos_later. lia.
Qed.


Lemma notBefore_spec (sep s tail : string) :
  notBefore sep s tail = true ->
  forall a b, s = a ++ b -> b <> "" -> JS.startsWith sep (b ++ tail) = false.
Proof.
  induction s as [|c s IH]; intros H a b E Hb.
  - destruct a; [simpl in E; congruence|discriminate].
  - cbn [notBefore] in H. apply andb_prop in H. destruct H as [H1 H2].
    apply negb_true_iff in H1. destruct a as [|d a].
    + simpl in E. subst b. exact H1.
    + simpl in E. injection E as _ E. now apply (IH H2 a b).
Qed.

Lemma startsWith_includes (x s : string) :
  JS.startsWith x s = true -> JS.includes x s = true.
Proof. intros H. destruct s; cbn [JS.includes]; now rewrite H. Qed.

Lemma take_all (s : string) : JS.take (String.length s) s = s.
Proof. induction s; simpl; congruence. Qed.

Lemma greedy_any_all (k : cont) (cs : list (nat * string)) (x : mstate) (s : string) :
  forall (fuel n : nat),
    (String.length s < fuel)%nat ->
    k (MState (n + String.length s) "" cs) = Some x ->
    star_loop true (run any) k fuel (MState n s cs) = Some x.
Proof.
  intros fuel n Hfuel Hk.
  rewrite <- (append_nil_r s). unfold any.
  apply star_greedy_class; auto.
  clear. induction s; simpl; auto.
Qed.

(** The match of [frontmatterRegex] on a text with a front matter. *)
Lemma frontmatter_match (fm body : string) :
  notBefore SkillLoader.closing fm (SkillLoader.closing ++ body) = true ->
  exists m,
    search SkillLoader.frontmatterRegex 0
      (SkillLoader.opening ++ fm ++ SkillLoader.closing ++ body) = Some m /\
    m_caps m = [(2%nat, body); (1%nat, fm)].
Proof.
  intros Hfirst. unfold SkillLoader.frontmatterRegex.
  rewrite search_Bos.
  rewrite run_Cat, run_lit. cbn [Nat.add String.length SkillLoader.opening append].
  rewrite run_Cat, run_Grp, run_Star. cbn [rest pos].
  set (k := fun st' : mstate => run _ _ Some).
  assert (Hk : exists x,
    k (MState (4 + String.length fm) (SkillLoader.closing ++ body) []) = Some x /\
    caps x = [(2%nat, body); (1%nat, fm)]).
  { subst k. cbv beta. cbn [pos rest]. unfold set_cap. cbn [pos rest caps].
    match goal with |- context [JS.take ?e _] =>
      replace e with (String.length fm) by (cbn; lia) end.
    rewrite take_app_length.
    rewrite run_Cat, run_lit. rewrite run_Cat, run_Grp, run_Star. cbn [rest pos].
    eexists. split.
    - apply greedy_any_all; [lia|].
      cbn [pos rest caps run].
      match goal with |- context [JS.take ?e _] =>
        replace e with (String.length body) by (cbn; lia) end.
      reflexivity.
    - cbn [set_cap caps pos rest]. now rewrite take_all. }
  destruct Hk as (x & Hx & Hc).
  rewrite (star_lazy_any k (SkillLoader.closing ++ body) [] x fm).
  - eexists. split; [reflexivity|]. exact Hc.
  - rewrite !length_app. simpl. lia.
  - intros a b E Hb. subst k. cbv beta.
    rewrite run_Cat, run_lit_miss; [reflexivity|].
    cbn [rest]. unfold set_cap. cbn [rest].
    now apply (notBefore_spec _ _ _ Hfirst a b).
  - exact Hx.
Qed.

Lemma frontmatter_no_opening (content : string) :
  JS.startsWith SkillLoader.opening content = false ->
  search SkillLoader.frontmatterRegex 0 content = None.
Proof.
  intros H. unfold SkillLoader.frontmatterRegex.
  rewrite search_Bos, run_Cat, run_lit_miss; [reflexivity|exact H].
Qed.


End FrontmatterFacts.

Lemma parseFrontmatter_split parseYaml fm body :
  notBefore SkillLoader.closing fm (SkillLoader.closing ++ body) = true ->
  SkillLoader.parseFrontmatter parseYaml
    (SkillLoader.opening ++ fm ++ SkillLoader.closing ++ body) =
  (match parseYaml fm with Some y => y | None => SkillLoader.YMap [] end, body).
Proof.
  intros H. unfold SkillLoader.parseFrontmatter.
  destruct (frontmatter_match fm body H) as (m & -> & Hc).
  rewrite Hc. reflexivity.
Qed.

Lemma parseFrontmatter_plain parseYaml content :
  JS.startsWith SkillLoader.opening content = false ->
  SkillLoader.parseFrontmatter parseYaml content = (SkillLoader.YMap [], content).
Proof.
  intros H. unfold SkillLoader.parseFrontmatter.
  now rewrite frontmatter_no_opening.
Qed.


(** X20.  loadSkill throws 'Skill file not found: <path>' for a missing file.
    A file without front matter, or whose front matter the YAML parser
    rejects, loads as the skill 'unnamed-skill' with an empty description, no
    version and the trimmed text (resp. body) as content; a name that is
    present but not a string is replaced by 'unnamed-skill' too. *)
Theorem X20_a_skill_file_loads_with_defaults :
  forall (fs : SkillLoader.Files) (skillPath : string),
    (SkillLoader.existsSync fs skillPath = false ->
     SkillLoader.loadSkill fs skillPath =
       Throws ("Skill file not found: " ++ skillPath)) /\
    (forall content,
       SkillLoader.existsSync fs skillPath = true ->
       SkillLoader.readFile fs skillPath = Returns content ->
       JS.startsWith SkillLoader.opening content = false ->
       SkillLoader.loadSkill fs skillPath =
         Returns (SkillDefinition.Make "unnamed-skill" "" None (JS.trim content),
                  SkillLoader.YMap [])) /\
    (forall fm body,
       SkillLoader.existsSync fs skillPath = true ->
       SkillLoader.readFile fs skillPath =
         Returns (SkillLoader.opening ++ fm ++ SkillLoader.closing ++ body) ->
       notBefore SkillLoader.closing fm (SkillLoader.closing ++ body) = true ->
       SkillLoader.parseYaml fs fm = None ->
       SkillLoader.loadSkill fs skillPath =
         Returns (SkillDefinition.Make "unnamed-skill" "" None (JS.trim body),
                  SkillLoader.YMap [])) /\
    (forall fm body entries,
       SkillLoader.existsSync fs skillPath = true ->
       SkillLoader.readFile fs skillPath =
         Returns (SkillLoader.opening ++ fm ++ SkillLoader.closing ++ body) ->
       notBefore SkillLoader.closing fm (SkillLoader.closing ++ body) = true ->
       SkillLoader.parseYaml fs fm = Some (SkillLoader.YMap entries) ->
       JSMap.get "name" entries <> None ->
       (forall s, JSMap.get "name" entries <> Some (SkillLoader.YString s)) ->
       exists sk,
         SkillLoader.loadSkill fs skillPath = Returns (sk, SkillLoader.YMap entries) /\
         SkillDefinition.name sk = "unnamed-skill" /\
         SkillDefinition.content sk = JS.trim body).
Proof.
  intros fs skillPath. split; [|split; [|split]].
  - intros H. unfold SkillLoader.loadSkill. now rewrite H.
  - intros content Hex Hread Hplain. unfold SkillLoader.loadSkill.
    rewrite Hex, Hread. cbn [negb].
    now rewrite (parseFrontmatter_plain _ _ Hplain).
  - intros fm body Hex Hread Hfirst Hyaml. unfold SkillLoader.loadSkill.
    rewrite Hex, Hread. cbn [negb].
    now rewrite (parseFrontmatter_split _ _ _ Hfirst), Hyaml.
  - intros fm body entries Hex Hread Hfirst Hyaml Hsome Hnot.
    unfold SkillLoader.loadSkill.
    rewrite Hex, Hread. cbn [negb].
    rewrite (parseFrontmatter_split _ _ _ Hfirst), Hyaml. cbn [fst snd].
    eexists. split; [reflexivity|]. cbn. split; [|reflexivity].
    destruct (JSMap.get "name" entries) as [[s|]|]; [|reflexivity|congruence].
    exfalso. now apply (Hnot s).
Qed.

(** X21.  When the YAML parser returns null for the front matter (as it does
    for an empty document), loadSkill throws instead of falling back to the
    defaults: parseFrontmatter replaces the parser's result only when the
    parser throws, and loadSkill then reads a property of null. *)
Theorem X21_an_empty_yaml_document_fails_the_load :
  forall (fs : SkillLoader.Files) (skillPath fm body : string),
    SkillLoader.existsSync fs skillPath = true ->
    SkillLoader.readFile fs skillPath =
      Returns (SkillLoader.opening ++ fm ++ SkillLoader.closing ++ body) ->
    notBefore SkillLoader.closing fm (SkillLoader.closing ++ body) = true ->
    SkillLoader.parseYaml fs fm = Some SkillLoader.YNull ->
    exists msg, SkillLoader.loadSkill fs skillPath = Throws msg.
Proof.
  intros fs skillPath fm body Hex Hread Hfirst Hyaml.
  unfold SkillLoader.loadSkill. rewrite Hex, Hread. cbn [negb].
  rewrite (parseFrontmatter_split _ _ _ Hfirst), Hyaml. cbn [fst].
  eexists. reflexivity.
Qed.

(** ** Command line *)

Lemma digitPrefix_digits (s : string) :
  JS.all_chars JS.is_digit s = true -> Cli.digitPrefix s = s.
Proof.
  induction s as [|c s IH]; simpl; [reflexivity|].
  intros H. apply andb_prop in H. destruct H as [-> H]. now rewrite IH.
Qed.

Lemma digit_is_no_space (c : ascii) :
  JS.is_digit c = true ->
  JS.is_space c = false /\ Ascii.eqb c "-" = false /\ Ascii.eqb c "+" = false.
Proof.
  destruct c as [[] [] [] [] [] [] [] []]; try discriminate; intros _;
    repeat split; reflexivity.
Qed.

Lemma parseInt_digits (d : Decimal.uint) (negative : bool) :
  d <> Decimal.Nil ->
  Cli.parseInt ((if negative then "-" else "") ++ NilEmpty.string_of_uint d) =
  Cli.Num (if negative then - Z.of_uint d else Z.of_uint d).
Proof.
  intros Hd.
  destruct (string_of_uint_nonnil d Hd) as [_ (c & s & E)].
  pose proof (uint_digits d) as Hall. pose proof (NilEmpty.usu d) as Husu.
  rewrite E in Hall, Husu |- *.
  pose proof Hall as Hc. cbn [JS.all_chars] in Hc. apply andb_prop in Hc.
  destruct Hc as [Hc _]. destruct (digit_is_no_space c Hc) as (Hsp & Hm & Hp).
  unfold Cli.parseInt. destruct negative.
  - cbn [append JS.trimStart]. change (JS.is_space "-") with false. cbv iota.
    cbn [Ascii.eqb Bool.eqb andb fst snd].
    rewrite (digitPrefix_digits _ Hall), Husu. reflexivity.
  - cbn [append JS.trimStart]. rewrite Hsp, Hm, Hp. cbn [fst snd].
    rewrite (digitPrefix_digits _ Hall), Husu. reflexivity.
Qed.

(** Reading back the numeral of an integer gives the integer. *)
Lemma parseInt_numToString (z : Z) : Cli.parseInt (JS.numToString z) = Cli.Num z.
Proof.
  unfold JS.numToString. destruct z as [|p|p].
  - reflexivity.
  - cbn [Z.to_int NilZero.string_of_int].
    pose proof (Unsigned.to_uint_nonnil p) as Hn.
    destruct (string_of_uint_nonnil _ Hn) as [-> _].
    pose proof (parseInt_digits _ false Hn) as H. cbn [append] in H.
    rewrite H. f_equal. exact (DecimalZ.of_to (Z.pos p)).
  - cbn [Z.to_int NilZero.string_of_int].
    pose proof (Unsigned.to_uint_nonnil p) as Hn.
    destruct (string_of_uint_nonnil _ Hn) as [-> _].
    pose proof (parseInt_digits _ true Hn) as H. cbn [append] in H.
    rewrite H. f_equal. exact (DecimalZ.of_to (Z.neg p)).
Qed.

(** X23.  For every integer z (within the safe integers), the arguments
    '--runs' and the decimal numeral of z are parsed to options.runs = z, and
    main then sets the trial count of the configuration to z unless z is 0, in
    which case the configured count is kept: a negative count is accepted as
    given. *)
Theorem X23_the_trial_count_option_reads_any_integer_but_zero :
  forall (z : Z) (envMode : option string) (config : ExperimentConfig.t),
    - 9007199254740991 <= z <= 9007199254740991 ->
    exists options warnings,
      Cli.parseArgs ["--runs"; JS.numToString z] envMode = Cli.Parsed options warnings /\
      Cli.runs options = Some (Cli.Num z) /\
      ExperimentConfig.runs (Cli.overrideRuns options config) =
        (if z =? 0 then ExperimentConfig.runs config else z).
Proof.
  intros z envMode config _.
  assert (Htruthy : JS.truthy (JS.numToString z) = true).
  { destruct z as [|p|p]; [reflexivity| |reflexivity].
    destruct (numToString_digits (Z.pos p) ltac:(lia)) as [_ (c & s & ->)].
    reflexivity. }
  assert (Hne : String.eqb (JS.numToString z) "" = false).
  { destruct (JS.numToString z); [discriminate|reflexivity]. }
  unfold Cli.parseArgs. cbn [Cli.parseLoop String.eqb Ascii.eqb Bool.eqb andb orb].
  rewrite Htruthy. cbn [Cli.parseLoop Cli.mode Cli.noOptions].
  rewrite parseInt_numToString.
  destruct envMode as [e|];
    [destruct (JS.truthy e); [destruct (Cli.modeOf e)|]|];
    eexists; eexists; (split; [reflexivity|]); (split; [reflexivity|]);
    unfold Cli.overrideRuns; cbn [Cli.runs]; destruct (z =? 0); reflexivity.
Qed.

(** ** Escaped patterns *)

Section EscapeFacts.
Import Regex.

Lemma litThen_Eps (s : string) : litThen s Eps = lit s.
Proof. induction s as [|c s IH]; simpl; congruence. Qed.

Lemma litThen_app (a b : string) (r : regex) :
  litThen (a ++ b) r = litThen a (litThen b r).
Proof. induction a as [|c a IH]; simpl; congruence. Qed.

Lemma special_is_syntax (c : ascii) :
  ConcatSkill.isSpecial c = RegExp.isSyntaxChar c.
Proof. destruct c as [[] [] [] [] [] [] [] []]; reflexivity. Qed.

Lemma escaped_head (s tail : string) :
  noStarAhead tail -> noStarAhead (ConcatSkill.escapeRegex s ++ tail).
Proof.
  intros H. destruct s as [|c s]; [exact H|].
  cbn [ConcatSkill.escapeRegex].
  destruct (ConcatSkill.isSpecial c) eqn:E; cbn [append noStarAhead].
  - reflexivity.
  - destruct (Ascii.eqb_spec c "*") as [->|]; [discriminate|reflexivity].
Qed.

Lemma compile_step (a : regex) (rest : string) :
  noStarAhead rest ->
  match rest with
  | String q rest1 =>
      if Ascii.eqb q "*"
      then option_map (Cat (Star true a)) (RegExp.compile rest1)
      else option_map (Cat a) (RegExp.compile rest)
  | EmptyString => option_map (Cat a) (RegExp.compile rest)
  end = option_map (Cat a) (RegExp.compile rest).
Proof. destruct rest as [|q r]; [reflexivity|]. cbn [noStarAhead]. now intros ->. Qed.

Lemma compile_escaped (s tail : string) :
  noStarAhead tail ->
  RegExp.compile (ConcatSkill.escapeRegex s ++ tail) =
  option_map (litThen s) (RegExp.compile tail).
Proof.
  intros Htail. induction s as [|c s IH].
  - cbn. now destruct (RegExp.compile tail).
  - pose proof (escaped_head s tail Htail) as Hhead.
    cbn [ConcatSkill.escapeRegex].
    destruct (ConcatSkill.isSpecial c) eqn:E.
    + cbn [append RegExp.compile].
      change (Ascii.eqb RegExp.backslash "^") with false.
      change (Ascii.eqb RegExp.backslash "$") with false.
      change (Ascii.eqb RegExp.backslash RegExp.backslash) with true. cbv iota.
      unfold RegExp.escaped. rewrite <- special_is_syntax, E.
      rewrite (compile_step _ _ Hhead), IH.
      now destruct (RegExp.compile tail).
    + cbn [append RegExp.compile].
      rewrite special_is_syntax in E.
      destruct (Ascii.eqb_spec c "^") as [->|_]; [discriminate|].
      destruct (Ascii.eqb_spec c "$") as [->|_]; [discriminate|].
      destruct (Ascii.eqb_spec c RegExp.backslash) as [->|_]; [discriminate|].
      unfold RegExp.atom.
      destruct (Ascii.eqb_spec c ".") as [->|_]; [discriminate|].
      rewrite E, (compile_step _ _ Hhead), IH.
      now destruct (RegExp.compile tail).
Qed.

Lemma startsWith_split (s c : string) :
  JS.startsWith s c = true -> exists r, c = s ++ r.
Proof.
  revert c. induction s as [|a s IH]; intros c H; [exists c; reflexivity|].
  destruct c as [|b c]; [discriminate|]. simpl in H.
  apply andb_prop in H. destruct H as [E H]. apply Ascii.eqb_eq in E. subst b.
  destruct (IH c H) as [r ->]. exists r. reflexivity.
Qed.

Lemma test_lit (s content : string) :
  test (lit s) content = JS.includes s content.
Proof.
  unfold test. generalize 0%nat as p.
  induction content as [|c content IH]; intros p; cbn [search JS.includes];
    unfold match_here.
  - destruct (JS.startsWith s "") eqn:E.
    + destruct (startsWith_split _ _ E) as [r Er]. rewrite Er at 1.
      now rewrite run_lit.
    + now rewrite run_lit_miss.
  - destruct (JS.startsWith s (String c content)) eqn:E.
    + destruct (startsWith_split _ _ E) as [r Er]. rewrite Er at 1.
      now rewrite run_lit.
    + rewrite run_lit_miss by exact E. cbn [orb]. apply IH.
Qed.

Lemma compile_plain (c : ascii) (rest : string) :
  RegExp.isSyntaxChar c = false -> noStarAhead rest ->
  RegExp.compile (String c rest) = option_map (Cat (chr c)) (RegExp.compile rest).
Proof.
  intros E H. cbn [RegExp.compile].
  destruct (Ascii.eqb_spec c "^") as [->|_]; [discriminate|].
  destruct (Ascii.eqb_spec c "$") as [->|_]; [discriminate|].
  destruct (Ascii.eqb_spec c RegExp.backslash) as [->|_]; [discriminate|].
  unfold RegExp.atom.
  destruct (Ascii.eqb_spec c ".") as [->|_]; [discriminate|].
  rewrite E. now apply compile_step.
Qed.

Lemma compile_backslash (e : ascii) (a : regex) (rest : string) :
  RegExp.escaped e = Some a -> noStarAhead rest ->
  RegExp.compile (String RegExp.backslash (String e rest)) =
  option_map (Cat a) (RegExp.compile rest).
Proof.
  intros E H. cbn [RegExp.compile].
  change (Ascii.eqb RegExp.backslash "^") with false.
  change (Ascii.eqb RegExp.backslash "$") with false.
  change (Ascii.eqb RegExp.backslash RegExp.backslash) with true. cbv iota.
  rewrite E. now apply compile_step.
Qed.

End EscapeFacts.

(** X24.  escapeRegex makes any string literal: the regular expression built
    from escapeRegex(s) is the one that matches the characters of s, one after
    the other. Hence the expression concatSkill builds for a link matches a
    content exactly when it contains a line feed followed by '- [text](file)',
    whatever characters text and file hold. *)
Theorem X24_a_link_is_removed_by_its_literal_text :
  (forall s, RegExp.compile (ConcatSkill.escapeRegex s) = Some (Regex.lit s)) /\
  (forall text file,
     RegExp.compile (ConcatSkill.standaloneLinkSource text file) =
       Some (Regex.lit (linkLine text file)) /\
     forall content,
       Regex.test (Regex.lit (linkLine text file)) content =
       JS.includes (linkLine text file) content).
Proof.
  split.
  - intros s. rewrite <- (append_nil_r (ConcatSkill.escapeRegex s)).
    rewrite compile_escaped by exact I. cbn. now rewrite litThen_Eps.
  - intros text file. split; [|apply test_lit].
    unfold ConcatSkill.standaloneLinkSource, linkLine. cbn [append].
    rewrite (compile_backslash "n" (Regex.chr JS.LF)) by reflexivity.
    rewrite (compile_plain "-") by reflexivity.
    rewrite (compile_plain " ") by reflexivity.
    rewrite (compile_backslash "[" (Regex.chr "["));
      [|reflexivity|now apply escaped_head].
    rewrite compile_escaped by reflexivity.
    rewrite (compile_backslash "]" (Regex.chr "]")) by reflexivity.
    rewrite (compile_backslash "(" (Regex.chr "("));
      [|reflexivity|now apply escaped_head].
    rewrite compile_escaped by reflexivity.
    rewrite (compile_backslash ")" (Regex.chr ")")) by reflexivity.
    cbn [RegExp.compile option_map]. f_equal.
    rewrite <- !litThen_Eps. cbn [litThen JS.nl append].
    rewrite !litThen_app. cbn [litThen]. rewrite !litThen_app. reflexivity.
Qed.

(** ** Task discovery *)

Section DiscoveryFacts.
Import Regex.

Lemma search_trailing_slash (s : string) :
  forall p,
    search Discovery.trailingSlash p (s ++ "/") =
    Some (RMatch (p + String.length s) (S (p + String.length s)) "/" "" []).
Proof.
  induction s as [|c s IH]; intros p.
  - cbn [append search]. unfold match_here, Discovery.trailingSlash.
    rewrite run_Cat, run_chr. cbn [run rest pos caps String.length].
    rewrite Nat.add_0_r. replace (S p - p)%nat with 1%nat by lia. reflexivity.
  - assert (Hmiss : match_here Discovery.trailingSlash p (String c (s ++ "/")) = None).
    { unfold match_here, Discovery.trailingSlash. rewrite run_Cat.
      unfold chr at 1. cbn [run rest].
      destruct (Ascii.eqb "/" c); [|reflexivity].
      cbn [advance rest]. now destruct s. }
    cbn [append search]. rewrite Hmiss, IH.
    simpl String.length. now rewrite Nat.add_succ_r.
Qed.

Lemma search_no_trailing_slash (s : string) :
  Path.hasTrailingSeparator s = false ->
  forall p, search Discovery.trailingSlash p s = None.
Proof.
  unfold Path.hasTrailingSeparator.
  induction s as [|c s IH]; intros H p.
  - reflexivity.
  - assert (Hs : s <> "" ->
              match Path.last_char s with
              | Some c0 => Ascii.eqb c0 Path.slash
              | None => false
              end = false).
    { intros Hne. destruct s; [congruence|exact H]. }
    assert (Hmiss : match_here Discovery.trailingSlash p (String c s) = None).
    { unfold match_here, Discovery.trailingSlash. rewrite run_Cat.
      unfold chr at 1. cbn [run rest].
      destruct (Ascii.eqb_spec "/" c) as [<-|_]; [|reflexivity].
      cbn [advance rest]. destruct s; [discriminate H|reflexivity]. }
    cbn [search]. rewrite Hmiss.
    destruct s as [|d s]; [reflexivity|]. apply IH. now apply Hs.
Qed.

Lemma removeFirst_trailing (s : string) :
  Discovery.removeFirst Discovery.trailingSlash (s ++ "/") = s.
Proof.
  unfold Discovery.removeFirst. rewrite search_trailing_slash.
  cbn [m_start m_after Nat.add]. now rewrite take_app_length, append_nil_r.
Qed.

Lemma removeFirst_none (s : string) :
  Path.hasTrailingSeparator s = false ->
  Discovery.removeFirst Discovery.trailingSlash s = s.
Proof.
  intros H. unfold Discovery.removeFirst. now rewrite search_no_trailing_slash.
Qed.

End DiscoveryFacts.

Lemma collect_spec fs evalsDir dirs :
  forall evals,
    Discovery.collect fs evalsDir dirs = Returns evals ->
    map EvalDefinition.path evals =
      map (fun d => Path.join [evalsDir; d]) (filter (complete fs evalsDir) dirs) /\
    (forall e, In e evals ->
       exists d,
         In d dirs /\
         EvalDefinition.name e = Discovery.removeFirst Discovery.trailingSlash d /\
         EvalDefinition.path e = Path.join [evalsDir; d] /\
         EvalDefinition.evalFile e = Path.join [EvalDefinition.path e; "EVAL.ts"] /\
         Discovery.existsSync fs (EvalDefinition.evalFile e) = true /\
         Discovery.existsSync fs (Path.join [EvalDefinition.path e; "PROMPT.md"]) = true /\
         Discovery.readFile fs (Path.join [EvalDefinition.path e; "PROMPT.md"]) =
           Returns (EvalDefinition.prompt e)).
Proof.
  induction dirs as [|d dirs IH]; intros evals; cbn [Discovery.collect].
  - intros [= <-]. split; [reflexivity|intros e []].
  - cbn [filter]. unfold complete at 1.
    destruct (Discovery.existsSync fs _ && Discovery.existsSync fs _) eqn:E.
    + destruct (Discovery.readFile fs _) as [prompt|msg|] eqn:Er; try discriminate.
      destruct (Discovery.collect fs evalsDir dirs) as [rest|msg|]; try discriminate.
      intros [= <-]. destruct (IH rest eq_refl) as [Hp He].
      apply andb_prop in E. destruct E as [E1 E2].
      split; [cbn [map]; now rewrite Hp|].
      intros e [<-|Hin].
      * exists d. cbn. repeat split; auto.
      * destruct (He e Hin) as (d' & Hd & H). exists d'. split; [now right|exact H].
    + intros H. destruct (IH evals H) as [Hp He]. split; [exact Hp|].
      intros e Hin. destruct (He e Hin) as (d' & Hd & H').
      exists d'. split; [now right|exact H'].
Qed.

(** X18.  When discoverEvals returns, its tasks are, in the order of the
    directory listing, exactly the directories that hold both PROMPT.md and
    EVAL.ts; each task's path is the directory joined to the root, its
    evalFile is EVAL.ts in that path, its prompt is the content read from
    PROMPT.md, and its name is the directory's name with one trailing slash
    removed. *)
Theorem X18_discovered_tasks_have_both_files :
  forall (fs : Discovery.Files) (evalsDir : string) (evals : list EvalDefinition.t),
    Discovery.discoverEvals fs evalsDir = Returns evals ->
    exists dirs,
      Discovery.globDirs fs evalsDir = Returns dirs /\
      map EvalDefinition.path evals =
        map (fun d => Path.join [evalsDir; d]) (filter (complete fs evalsDir) dirs) /\
      (forall e, In e evals ->
         exists d,
           In d dirs /\
           EvalDefinition.name e = Discovery.removeFirst Discovery.trailingSlash d /\
           EvalDefinition.path e = Path.join [evalsDir; d] /\
           EvalDefinition.evalFile e = Path.join [EvalDefinition.path e; "EVAL.ts"] /\
           Discovery.existsSync fs (EvalDefinition.evalFile e) = true /\
           Discovery.existsSync fs (Path.join [EvalDefinition.path e; "PROMPT.md"]) = true /\
           Discovery.readFile fs (Path.join [EvalDefinition.path e; "PROMPT.md"]) =
             Returns (EvalDefinition.prompt e)) /\
      (forall d, Discovery.removeFirst Discovery.trailingSlash (d ++ "/") = d) /\
      (forall d, Path.hasTrailingSeparator d = false ->
         Discovery.removeFirst Discovery.trailingSlash d = d).
Proof.
  intros fs evalsDir evals. unfold Discovery.discoverEvals.
  destruct (Discovery.globDirs fs evalsDir) as [dirs|msg|]; try discriminate.
  intros H. apply collect_spec in H. destruct H as [Hp He].
  exists dirs. split; [reflexivity|]. split; [exact Hp|]. split; [exact He|].
  split; [apply removeFirst_trailing|apply removeFirst_none].
Qed.

(** ** The report in the output of the check runner *)

Section GreedyFacts.
Import Regex.

(** Whatever a run over any character returns, the continuation returned it
    somewhere in the text. *)
Lemma star_any_result (g : bool) (k : cont) (cs : list (nat * string)) (x : mstate) :
  forall (fuel : nat) (s : string) (n : nat),
    star_loop g (run any) k fuel (MState n s cs) = Some x ->
    exists a b, s = a ++ b /\ k (MState (n + String.length a) b cs) = Some x.
Proof.
  induction fuel as [|fuel IH]; intros s n; cbn [star_loop].
  - intros H. exists "", s. simpl. now rewrite Nat.add_0_r.
  - assert (Hagain :
      run any (MState n s cs)
        (fun st' => if Nat.eqb (pos st') n then None
                    else star_loop g (run any) k fuel st') = Some x ->
      exists a b, s = a ++ b /\ k (MState (n + String.length a) b cs) = Some x).
    { destruct s as [|c s]; [unfold any; now rewrite run_Chr_miss|].
      unfold any. rewrite run_Chr_hit by reflexivity. cbn [pos].
      replace (Nat.eqb (S n) n) with false by (symmetry; apply Nat.eqb_neq; lia).
      intros H. apply IH in H. destruct H as (a & b & -> & H).
      exists (String c a), b. split; [reflexivity|].
      simpl String.length. now rewrite Nat.add_succ_r. }
    assert (Hhere : k (MState n s cs) = Some x ->
      exists a b, s = a ++ b /\ k (MState (n + String.length a) b cs) = Some x).
    { intros H. exists "", s. simpl. now rewrite Nat.add_0_r. }
    cbn [pos]. destruct g.
    + destruct (run any _ _) as [y|] eqn:E; [intros [= <-]; now apply Hagain|].
      exact Hhere.
    + destruct (k (MState n s cs)) as [y|] eqn:E; [intros [= <-]; now apply Hhere|].
      exact Hagain.
Qed.

(** A greedy run over any character whose continuation, wherever it
    succeeds, returns [x], and succeeds somewhere: it returns [x]. *)
Lemma greedy_any_const (k : cont) (cs : list (nat * string)) (x : mstate) :
  forall (s : string) (fuel n : nat),
    (String.length s < fuel)%nat ->
    (forall a b, s = a ++ b ->
       k (MState (n + String.length a) b cs) = None \/
       k (MState (n + String.length a) b cs) = Some x) ->
    (exists a b, s = a ++ b /\ k (MState (n + String.length a) b cs) = Some x) ->
    star_loop true (run any) k fuel (MState n s cs) = Some x.
Proof.
  induction s as [|c s IH]; intros fuel n Hfuel Hall Hex;
    (destruct fuel as [|fuel]; [simpl in Hfuel; lia|]); cbn [star_loop].
  - unfold any. rewrite run_Chr_miss by exact I.
    destruct Hex as (a & b & E & H). destruct a; [|discriminate].
    simpl in E. subst b. simpl in H. now rewrite Nat.add_0_r in H.
  - unfold any. rewrite run_Chr_hit by reflexivity. cbn [pos].
    replace (Nat.eqb (S n) n) with false by (symmetry; apply Nat.eqb_neq; lia).
    fold any.
    destruct (star_loop true (run any) k fuel (MState (S n) s cs)) as [y|] eqn:E.
    + apply star_any_result in E. destruct E as (a & b & -> & E).
      pose proof (Hall (String c a) b eq_refl) as H.
      simpl String.length in H. rewrite Nat.add_succ_r in H.
      cbn [Nat.add] in E. destruct H as [H|H]; congruence.
    + destruct Hex as (a & b & Eab & H). destruct a as [|d a].
      * simpl in Eab. subst b. simpl in H. now rewrite Nat.add_0_r in H.
      * simpl in Eab. injection Eab as -> ->. exfalso.
        simpl in Hfuel.
        rewrite (IH fuel (S n)) in E; [discriminate|lia| |].
        -- intros a' b' E'. pose proof (Hall (String d a') b' ltac:(now rewrite E')) as H'.
           simpl String.length in H'. now rewrite Nat.add_succ_r in H'.
        -- exists a, b. split; [reflexivity|].
           simpl String.length in H. now rewrite Nat.add_succ_r in H.
Qed.

End GreedyFacts.

Lemma app_split (x y z w : string) :
  x ++ y = z ++ w ->
  (exists v, x = z ++ v /\ w = v ++ y) \/ (exists v, z = x ++ v /\ y = v ++ w).
Proof.
  revert z. induction x as [|c x IH]; intros z H.
  - right. exists z. auto.
  - destruct z as [|d z].
    + left. exists (String c x). auto.
    + simpl in H. injection H as -> H. destruct (IH z H) as [(v & -> & ->)|(v & -> & ->)].
      * left. exists v. auto.
      * right. exists v. auto.
Qed.

Lemma snoc_cases (v : string) :
  v = "" \/ exists u c, v = u ++ String c "".
Proof.
  induction v as [|d v IH]; [now left|]. right.
  destruct IH as [->|(u & c & ->)].
  - exists "", d. reflexivity.
  - exists (String d u), c. reflexivity.
Qed.

Lemma app_snoc_inj (a b : string) (c d : ascii) :
  a ++ String c "" = b ++ String d "" -> a = b /\ c = d.
Proof.
  revert b. induction a as [|x a IH]; intros [|y b] H; simpl in H.
  - injection H as ->. auto.
  - injection H as -> H. destruct b; discriminate.
  - injection H as -> H. destruct a; discriminate.
  - injection H as -> H. destruct (IH b H) as [-> ->]. auto.
Qed.

Lemma includes_split (x s : string) :
  JS.includes x s = true -> exists a r, s = a ++ x ++ r.
Proof.
  induction s as [|c s IH]; cbn [JS.includes]; intros H.
  - rewrite orb_false_r in H. apply startsWith_split in H.
    destruct H as [r ->]. exists "", r. reflexivity.
  - apply orb_prop in H. destruct H as [H|H].
    + apply startsWith_split in H. destruct H as [r ->]. exists "", r. reflexivity.
    + destruct (IH H) as (a & r & ->). exists (String c a), r. reflexivity.
Qed.

Section ReportFacts.
Import Regex.

Lemma star_none (g : bool) (k : cont) (cs : list (nat * string)) :
  forall (fuel : nat) (s : string) (n : nat),
    (forall a b, s = a ++ b -> k (MState (n + String.length a) b cs) = None) ->
    star_loop g (run any) k fuel (MState n s cs) = None.
Proof.
  intros fuel s n H.
  destruct (star_loop g (run any) k fuel (MState n s cs)) as [x|] eqn:E;
    [|reflexivity].
  apply star_any_result in E. destruct E as (a & b & Eab & Hk).
  now rewrite (H a b Eab) in Hk.
Qed.

Lemma no_brace_no_end (post : string) (cs : list (nat * string)) :
  noChar "}" post = true ->
  forall fuel n, star_loop true (run any) braceThenEnd fuel (MState n post cs) = None.
Proof.
  intros H fuel n. apply star_none. intros a b E. unfold braceThenEnd.
  apply run_Chr_miss. cbn [rest]. destruct b as [|c b]; [exact I|].
  subst post. unfold noChar in H. rewrite all_chars_app in H.
  apply andb_prop in H. destruct H as [_ H]. cbn [JS.all_chars] in H.
  apply andb_prop in H. destruct H as [H _]. apply negb_true_iff in H.
  now rewrite Ascii.eqb_sym.
Qed.

Lemma last_brace (post : string) (cs : list (nat * string)) :
  noChar "}" post = true ->
  forall (u : string) (fuel n : nat),
    (String.length u < fuel)%nat ->
    star_loop true (run any) braceThenEnd fuel (MState n (u ++ String "}" post) cs) =
    Some (MState (S (n + String.length u)) post cs).
Proof.
  intros Hpost. induction u as [|c u IH]; intros fuel n Hfuel;
    (destruct fuel as [|fuel]; [simpl in Hfuel; lia|]);
    cbn [append star_loop]; unfold any; rewrite run_Chr_hit by reflexivity;
    cbn [pos];
    (replace (Nat.eqb (S n) n) with false by (symmetry; apply Nat.eqb_neq; lia));
    fold any.
  - rewrite (no_brace_no_end post cs Hpost). unfold braceThenEnd.
    rewrite run_chr. simpl. now rewrite Nat.add_0_r.
  - simpl in Hfuel. rewrite IH by lia. simpl String.length.
    now rewrite Nat.add_succ_r.
Qed.

Lemma afterMarker_at_marker (r post : string) (n : nat) (cs : list (nat * string)) :
  noChar "}" post = true ->
  afterMarker (MState n (reportMarker ++ r ++ String "}" post) cs) =
  Some (MState (S (n + String.length reportMarker + String.length r)) post cs).
Proof.
  intros Hpost. unfold afterMarker. rewrite run_Cat, run_lit, run_Cat, run_Star.
  cbn [rest]. fold braceThenEnd.
  rewrite (last_brace post cs Hpost r); [reflexivity|].
  rewrite length_app. simpl. lia.
Qed.

Lemma afterMarker_result (mid post : string) (n0 : nat) (cs : list (nat * string)) :
  noChar "}" post = true ->
  forall a b, mid ++ String "}" post = a ++ b ->
    afterMarker (MState (n0 + String.length a) b cs) = None \/
    afterMarker (MState (n0 + String.length a) b cs) =
      Some (MState (S (n0 + String.length mid)) post cs).
Proof.
  intros Hpost a b E.
  destruct (JS.startsWith reportMarker b) eqn:Es.
  - apply startsWith_split in Es. destruct Es as [b' ->].
    assert (Hnone : noChar "}" b' = true ->
      afterMarker (MState (n0 + String.length a) (reportMarker ++ b') cs) = None).
    { intros Hb. unfold afterMarker. rewrite run_Cat, run_lit, run_Cat, run_Star.
      fold braceThenEnd. now apply no_brace_no_end. }
    change (mid ++ String "}" post) with (mid ++ String "}" "" ++ post) in E.
    rewrite <- !append_assoc in E. symmetry in E.
    destruct (app_split _ _ _ _ E) as [(v & Ev & Epost)|(v & Ev & Eb)].
    + left. apply Hnone. subst post. unfold noChar in Hpost |- *.
      rewrite all_chars_app in Hpost. apply andb_prop in Hpost. tauto.
    + destruct (snoc_cases v) as [->|(u & c & ->)].
      * left. apply Hnone. simpl in Eb. now subst b'.
      * rewrite <- append_assoc in Ev. apply app_snoc_inj in Ev.
        destruct Ev as [-> <-]. right. subst b'.
        rewrite append_assoc. cbn [append].
        rewrite (afterMarker_at_marker u post _ cs Hpost).
        do 2 f_equal. rewrite !length_app. lia.
  - left. unfold afterMarker. now rewrite run_Cat, run_lit_miss.
Qed.

Lemma report_match (mid post : string) (p : nat) :
  noChar "}" post = true ->
  JS.includes reportMarker mid = true ->
  match_here CheckRunner.reportRegex p (String "{" (mid ++ String "}" post)) =
  Some (RMatch p (S (S (p + String.length mid)))
          (String "{" (mid ++ "}")) post []).
Proof.
  intros Hpost Hmid. unfold match_here, CheckRunner.reportRegex.
  rewrite run_Cat, run_chr, run_Cat, run_Star. cbn [rest].
  change (lit (CheckRunner.dquote ++ "testResults" ++ CheckRunner.dquote))
    with (lit reportMarker).
  change (fun st' : mstate =>
            run (Cat (lit reportMarker) (Cat (Star true any) (chr "}"))) st' Some)
    with afterMarker.
  rewrite (greedy_any_const afterMarker []
             (MState (S (S p + String.length mid)) post [])).
  - cbn [pos rest caps]. f_equal. f_equal.
    replace (S (S p + String.length mid) - p)%nat
      with (String.length (String "{" (mid ++ "}")))
      by (cbn [String.length]; rewrite length_app; cbn [String.length]; lia).
    change (String "{" (mid ++ String "}" post))
      with (String "{" (mid ++ String "}" "" ++ post)).
    rewrite <- append_assoc.
    change (String "{" ((mid ++ "}") ++ post)) with (String "{" (mid ++ "}") ++ post).
    apply take_app_length.
  - lia.
  - intros a b E. now apply afterMarker_result.
  - apply includes_split in Hmid. destruct Hmid as (a & r & ->).
    exists a, (reportMarker ++ r ++ String "}" post).
    split; [now rewrite !append_assoc|].
    rewrite (afterMarker_at_marker r post _ [] Hpost).
    do 2 f_equal. rewrite !length_app. lia.
Qed.

Lemma report_skip (pre : string) :
  noChar "{" pre = true ->
  forall x p,
    search CheckRunner.reportRegex p (pre ++ x) =
    search CheckRunner.reportRegex (p + String.length pre) x.
Proof.
  induction pre as [|c pre IH]; intros H x p.
  - simpl. now rewrite Nat.add_0_r.
  - unfold noChar in H. cbn [JS.all_chars] in H. apply andb_prop in H.
    destruct H as [Hc Hpre]. apply negb_true_iff in Hc.
    cbn [append search].
    assert (Hmiss : match_here CheckRunner.reportRegex p (String c (pre ++ x)) = None).
    { unfold match_here, CheckRunner.reportRegex. rewrite run_Cat.
      unfold chr at 1. rewrite run_Chr_miss; [reflexivity|].
      cbn [rest]. now rewrite Ascii.eqb_sym. }
    rewrite Hmiss, (IH Hpre). simpl String.length. now rewrite Nat.add_succ_r.
Qed.

Lemma report_needs_marker (t : string) :
  JS.includes reportMarker t = false ->
  forall p, search CheckRunner.reportRegex p t = None.
Proof.
  induction t as [|c t IH]; intros H p.
  - cbn [search]. unfold match_here, CheckRunner.reportRegex.
    rewrite run_Cat. unfold chr at 1. now rewrite run_Chr_miss.
  - assert (Ht : JS.includes reportMarker t = false).
    { cbn [JS.includes] in H. apply orb_false_elim in H. tauto. }
    cbn [search].
    assert (Hmiss : match_here CheckRunner.reportRegex p (String c t) = None).
    { unfold match_here, CheckRunner.reportRegex. rewrite run_Cat.
      destruct (Ascii.eqb_spec "{" c) as [<-|Hne].
      - rewrite run_chr, run_Cat, run_Star.
        change (lit (CheckRunner.dquote ++ "testResults" ++ CheckRunner.dquote))
          with (lit reportMarker).
        rewrite star_none; [reflexivity|].
        intros a b E. rewrite run_Cat, run_lit_miss; [reflexivity|].
        cbn [rest]. destruct (JS.startsWith reportMarker b) eqn:Es; [|reflexivity].
        apply startsWith_includes in Es.
        rewrite E, (includes_app_r _ a b Es) in Ht. discriminate.
      - unfold chr at 1. rewrite run_Chr_miss; [reflexivity|].
        cbn [rest]. now apply Ascii.eqb_neq. }
    rewrite Hmiss. now apply IH.
Qed.

End ReportFacts.

(** X15.  The text runEvalTests hands to JSON.parse runs from the first
    opening brace of the output to its last closing brace, provided the key
    "testResults" (in double quotes) stands between them; an output without
    that key is never parsed and gives no report. *)
Theorem X15_the_report_runs_from_the_first_brace_to_the_last :
  forall (JSON_parse : string -> option CheckRunner.VitestReport),
    (forall pre mid post,
       noChar "{" pre = true -> noChar "}" post = true ->
       JS.includes reportMarker mid = true ->
       parsedReport JSON_parse (pre ++ "{" ++ mid ++ "}" ++ post) =
       JSON_parse ("{" ++ mid ++ "}")) /\
    (forall stdout,
       JS.includes reportMarker stdout = false ->
       parsedReport JSON_parse stdout = None).
Proof.
  intros JSON_parse. split.
  - intros pre mid post Hpre Hpost Hmid. unfold parsedReport.
    rewrite report_skip by exact Hpre.
    cbn [append Regex.search].
    rewrite (report_match mid post _ Hpost Hmid). reflexivity.
  - intros stdout H. unfold parsedReport. now rewrite report_needs_marker.
Qed.

(** ** Unclosed fences *)

Section ReachFacts.
Import Regex.

Lemma close_needs_marker (x : regex) (st : mstate) (k : cont) :
  JS.startsWith (JS.nl ++ Extractor.fence) (rest st) = false ->
  run (Cat (chr JS.LF) (Cat (lit Extractor.fence) x)) st k = None.
Proof.
  intros H. destruct st as [n [|c r] cs]; rewrite run_Cat.
  - unfold chr at 1. now rewrite run_Chr_miss.
  - cbn [rest] in H. destruct (Ascii.eqb_spec JS.LF c) as [<-|Hne].
    + rewrite run_chr, run_Cat. apply run_lit_miss. cbn [rest].
      cbn [JS.nl append JS.startsWith] in H. rewrite Ascii.eqb_refl in H.
      exact H.
    + unfold chr. apply run_Chr_miss. cbn [rest]. now apply Ascii.eqb_neq.
Qed.

Lemma codeBlock_needs_closing (p : nat) (t : string) :
  JS.includes (JS.nl ++ Extractor.fence) t = false ->
  match_here Extractor.codeBlockRegex p t = None.
Proof.
  intros H. unfold match_here.
  destruct (run Extractor.codeBlockRegex (MState p t []) Some) as [x|] eqn:E;
    [|reflexivity].
  exfalso. unfold Extractor.codeBlockRegex in E.
  rewrite run_Cat in E. apply run_reaches in E.
  destruct E as (st1 & E & a1 & E1). rewrite run_Cat in E. apply run_reaches in E.
  destruct E as (st2 & E & a2 & E2). rewrite run_Cat in E. apply run_reaches in E.
  destruct E as (st3 & E & a3 & E3). rewrite run_Cat in E. apply run_reaches in E.
  destruct E as (st4 & E & a4 & E4). rewrite run_Cat in E. apply run_reaches in E.
  destruct E as (st5 & E & a5 & E5).
  destruct (JS.startsWith (JS.nl ++ Extractor.fence) (rest st5)) eqn:Es.
  - apply startsWith_includes in Es. cbn [rest] in E1.
    rewrite E1, E2, E3, E4, E5 in H.
    pose proof (includes_app_r _ a5 _ Es) as H5.
    pose proof (includes_app_r _ a4 _ H5) as H4.
    pose proof (includes_app_r _ a3 _ H4) as H3.
    pose proof (includes_app_r _ a2 _ H3) as H2.
    pose proof (includes_app_r _ a1 _ H2) as H1.
    congruence.
  - rewrite close_needs_marker in E by exact Es. discriminate.
Qed.

Lemma search_needs_closing (t : string) :
  JS.includes (JS.nl ++ Extractor.fence) t = false ->
  forall p, search Extractor.codeBlockRegex p t = None.
Proof.
  induction t as [|c t IH]; intros H p; cbn [search];
    rewrite codeBlock_needs_closing by exact H; [reflexivity|].
  apply IH. cbn [JS.includes] in H. apply orb_false_elim in H. tauto.
Qed.

End ReachFacts.

Lemma no_fence_start (l : string) :
  JS.startsWith Extractor.fence l = false ->
  Regex.test Extractor.fenceAtLineStart l = false.
Proof.
  intros H. unfold Extractor.fenceAtLineStart.
  now rewrite test_Bos, run_lit_miss.
Qed.

(** Only a line that starts with a fence marker, read inside a block, can
    add a file. *)
Lemma scan_line_files (st : Extractor.scan) (line : string) :
  Extractor.inCodeBlock st = false \/
  JS.startsWith Extractor.fence line = false ->
  Extractor.files (Extractor.scan_line st line) = Extractor.files st.
Proof.
  intros H. unfold Extractor.scan_line.
  destruct (Extractor.inCodeBlock st) eqn:Ein; cbn [negb].
  - destruct H as [H|H]; [discriminate|].
    rewrite (no_fence_start line H), !andb_false_r. cbn [andb].
    repeat match goal with
           | |- context [if ?b then _ else _] => destruct b
           end; reflexivity.
  - destruct (_ && _); reflexivity.
Qed.

Lemma scan_lines_files (lines : list string) :
  Forall (fun l => JS.startsWith Extractor.fence l = false) lines ->
  forall st,
    Extractor.files (fold_left Extractor.scan_line lines st) = Extractor.files st.
Proof.
  induction 1 as [|l lines Hl _ IH]; intros st; [reflexivity|].
  cbn [fold_left]. rewrite IH. apply scan_line_files. now right.
Qed.

Lemma first_line (t : string) :
  forall cur, exists l L r,
    JS.split_acc JS.LF t cur = l :: L /\ cur ++ t = l ++ r.
Proof.
  induction t as [|c t IH]; intros cur; cbn [JS.split_acc].
  - exists cur, [], "". auto.
  - destruct (Ascii.eqb c JS.LF).
    + exists cur, (JS.split_acc JS.LF t ""), (String c t). auto.
    + destruct (IH (cur ++ String c "")) as (l & L & r & E & Er).
      exists l, L, r. split; [exact E|]. now rewrite <- Er, append_assoc.
Qed.

Lemma lines_after_first (t : string) :
  JS.includes (JS.nl ++ Extractor.fence) t = false ->
  forall cur, exists l L,
    JS.split_acc JS.LF t cur = l :: L /\
    Forall (fun l => JS.startsWith Extractor.fence l = false) L.
Proof.
  induction t as [|c t IH]; intros H cur; cbn [JS.split_acc].
  - exists cur, []. auto.
  - cbn [JS.includes] in H. apply orb_false_elim in H. destruct H as [Hs Ht].
    destruct (Ascii.eqb_spec c JS.LF) as [->|Hne].
    + exists cur, (JS.split_acc JS.LF t ""). split; [reflexivity|].
      destruct (IH Ht "") as (l & L & E & HL). rewrite E.
      constructor; [|exact HL].
      destruct (first_line t "") as (l' & L' & r & E' & Er).
      rewrite E in E'. injection E' as <- <-. cbn [append] in Er.
      cbn [JS.nl append JS.startsWith] in Hs. rewrite Ascii.eqb_refl in Hs.
      cbn [andb] in Hs.
      destruct (JS.startsWith Extractor.fence l) eqn:El; [|reflexivity].
      rewrite Er, (startsWith_app _ _ r El) in Hs. discriminate.
    + destruct (IH Ht (cur ++ String c "")) as (l & L & E & HL).
      exists l, L. auto.
Qed.

Lemma at_line_start_cases (pre : string) :
  at_line_start pre = true ->
  pre = "" \/ exists pre', pre = pre' ++ String JS.LF "".
Proof.
  intros H. destruct (snoc_cases pre) as [->|(u & c & ->)]; [now left|].
  right. exists u. unfold at_line_start in H. rewrite last_char_app in H.
  cbn in H. apply Ascii.eqb_eq in H. now subst c.
Qed.

Lemma unclosed_lines (pre tail : string) :
  prose pre = true -> at_line_start pre = true ->
  JS.includes (JS.nl ++ Extractor.fence) tail = false ->
  exists L1 l0 L2,
    JS.split_lines (pre ++ Extractor.fence ++ tail) = (L1 ++ l0 :: L2)%list /\
    Forall (fun l => prose l = true) L1 /\
    Forall (fun l => JS.startsWith Extractor.fence l = false) L2.
Proof.
  intros Hpre Hline Htail.
  assert (Hft : JS.includes (JS.nl ++ Extractor.fence) (Extractor.fence ++ tail) = false).
  { cbn [Extractor.fence append JS.includes JS.nl JS.startsWith Ascii.eqb Bool.eqb
         andb orb]. exact Htail. }
  destruct (lines_after_first _ Hft "") as (l0 & L2 & E & HL2).
  unfold JS.split_lines, JS.split.
  destruct (at_line_start_cases pre Hline) as [->|(pre' & ->)].
  - exists [], l0, L2. cbn [append app]. auto.
  - exists (JS.split_acc JS.LF pre' ""), l0, L2.
    rewrite append_assoc. cbn [append]. rewrite split_acc_sep, E.
    split; [reflexivity|]. split; [|exact HL2].
    apply prose_lines. cbn [append]. now apply prose_app in Hpre.
Qed.

(** X14.  A response whose only fence is never closed (text without three
    backticks in a row, then a fence at the start of a line, then text in
    which no line after the first starts with three backticks) yields no file,
    whatever the block holds: a truncated answer is dropped by both passes. *)
Theorem X14_an_unclosed_fence_yields_no_file :
  forall pre tail : string,
    prose pre = true -> at_line_start pre = true ->
    JS.includes (JS.nl ++ Extractor.fence) tail = false ->
    Extractor.primaryPass (pre ++ Extractor.fence ++ tail) = [] /\
    Extractor.extractCodeBlocksWithNestedBackticks (pre ++ Extractor.fence ++ tail) = [] /\
    Extractor.parseGeneratedFiles (pre ++ Extractor.fence ++ tail) = [].
Proof.
  intros pre tail Hpre Hline Htail.
  assert (H1 : Extractor.primaryPass (pre ++ Extractor.fence ++ tail) = []).
  { unfold Extractor.primaryPass. cbn [Regex.exec_all].
    rewrite search_skip by assumption.
    rewrite search_needs_closing; [reflexivity|].
    cbn [Extractor.fence append JS.includes JS.nl JS.startsWith Ascii.eqb Bool.eqb
         andb orb]. exact Htail. }
  assert (H2 : Extractor.extractCodeBlocksWithNestedBackticks
                 (pre ++ Extractor.fence ++ tail) = []).
  { unfold Extractor.extractCodeBlocksWithNestedBackticks.
    destruct (unclosed_lines pre tail Hpre Hline Htail)
      as (L1 & l0 & L2 & -> & HL1 & HL2).
    rewrite fold_left_app, (scan_prose_lines L1 HL1). cbn [fold_left].
    rewrite (scan_lines_files L2 HL2). apply scan_line_files. now left. }
  split; [exact H1|]. split; [exact H2|].
  now rewrite parse_falls_back, H2.
Qed.

(** ** Skill prompt *)

Lemma rev_acc_app (s acc : string) : JS.rev_acc s acc = JS.rev s ++ acc.
Proof.
  unfold JS.rev. revert acc. induction s as [|c s IH]; intros acc; simpl.
  - reflexivity.
  - rewrite IH, (IH (String c "")), append_assoc. reflexivity.
Qed.

Lemma rev_acc_snoc (u : string) (c : ascii) :
  forall acc, JS.rev_acc (u ++ String c "") acc = String c (JS.rev_acc u acc).
Proof. induction u as [|d u IH]; intros acc; simpl; [reflexivity|apply IH]. Qed.

Lemma rev_snoc (u : string) (c : ascii) :
  JS.rev (u ++ String c "") = String c (JS.rev u).
Proof. apply rev_acc_snoc. Qed.

Lemma rev_cons (c : ascii) (s : string) :
  JS.rev (String c s) = JS.rev s ++ String c "".
Proof. unfold JS.rev at 1. simpl. apply rev_acc_app. Qed.

Lemma rev_involutive (s : string) : JS.rev (JS.rev s) = s.
Proof.
  induction s as [|c s IH]; [reflexivity|].
  now rewrite rev_cons, rev_snoc, IH.
Qed.

Lemma trimEnd_snoc_keep (u : string) (c : ascii) :
  JS.is_space c = false -> JS.trimEnd (u ++ String c "") = u ++ String c "".
Proof.
  intros H. unfold JS.trimEnd. rewrite rev_snoc. cbn [JS.trimStart].
  rewrite H, <- rev_snoc. apply rev_involutive.
Qed.

Lemma trimEnd_snoc_drop (u : string) (c : ascii) :
  JS.is_space c = true -> JS.trimEnd (u ++ String c "") = JS.trimEnd u.
Proof.
  intros H. unfold JS.trimEnd. rewrite rev_snoc. cbn [JS.trimStart].
  now rewrite H.
Qed.

Lemma endsInText_snoc (s : string) :
  endsInText s = true ->
  exists u c, s = u ++ String c "" /\ JS.is_space c = false.
Proof.
  unfold endsInText. destruct (snoc_cases s) as [->|(u & c & ->)]; [discriminate|].
  rewrite last_char_app. cbn. intros H. apply negb_true_iff in H. eauto.
Qed.

Lemma trimEnd_text (a s : string) :
  endsInText s = true -> JS.trimEnd (a ++ s ++ JS.nl) = a ++ s.
Proof.
  intros H. destruct (endsInText_snoc s H) as (u & c & -> & Hc).
  rewrite <- append_assoc. unfold JS.nl.
  rewrite trimEnd_snoc_drop by reflexivity.
  rewrite <- append_assoc. now apply trimEnd_snoc_keep.
Qed.

Lemma trim_wrapped (a s : string) (c : ascii) :
  JS.is_space c = false -> endsInText s = true ->
  JS.trim (JS.nl ++ String c a ++ s ++ JS.nl) = String c a ++ s.
Proof.
  intros Hc Hs. unfold JS.trim. cbn [JS.nl append JS.trimStart].
  change (JS.is_space JS.LF) with true. cbv iota. rewrite Hc.
  exact (trimEnd_text (String c a) s Hs).
Qed.

Lemma trimEnd_lines (s : string) :
  JS.trimEnd (s ++ JS.nl ++ JS.nl ++ JS.nl ++ JS.nl) = JS.trimEnd s.
Proof.
  replace (s ++ JS.nl ++ JS.nl ++ JS.nl ++ JS.nl)
    with ((((s ++ String JS.LF "") ++ String JS.LF "") ++ String JS.LF "")
          ++ String JS.LF "")
    by (unfold JS.nl; now rewrite !append_assoc).
  now rewrite !trimEnd_snoc_drop by reflexivity.
Qed.

Lemma trim_lines (x : string) (c : ascii) :
  JS.is_space c = false ->
  JS.trim (JS.nl ++ String c (x ++ JS.nl ++ JS.nl ++ JS.nl ++ JS.nl)) =
  JS.trimEnd (String c x).
Proof.
  intros Hc. unfold JS.trim. cbn [JS.nl append JS.trimStart].
  change (JS.is_space JS.LF) with true. cbv iota. rewrite Hc.
  exact (trimEnd_lines (String c x)).
Qed.

(** X22.  For a skill whose content ends in a character that is no white
    space, formatSkillAsPrompt is '## Skill: <name>', an empty line, the line
    '**Description:** <description>' when the description is not empty, an
    empty line and the content; augmentPromptWithSkill is that text, a '---'
    rule, the heading '# Task' and the base prompt, unchanged. With empty
    content and description the skill prompt is the heading line alone. *)
Theorem X22_the_skill_prompt_is_heading_description_and_content :
  forall skill : SkillDefinition.t,
    (endsInText (SkillDefinition.content skill) = true ->
     Runner.formatSkillAsPrompt skill =
       skillHeading skill ++ JS.nl ++ SkillDefinition.content skill /\
     forall basePrompt,
       Runner.augmentPromptWithSkill basePrompt skill =
         (skillHeading skill ++ JS.nl ++ SkillDefinition.content skill) ++
         JS.nl ++ JS.nl ++ "---" ++ JS.nl ++ JS.nl ++ "# Task" ++ JS.nl ++ JS.nl ++
         basePrompt) /\
    (SkillDefinition.content skill = "" ->
     SkillDefinition.description skill = "" ->
     endsInText (SkillDefinition.name skill) = true ->
     Runner.formatSkillAsPrompt skill = "## Skill: " ++ SkillDefinition.name skill).
Proof.
  intros skill. split.
  - intros Hc.
    assert (Hf : Runner.formatSkillAsPrompt skill =
                 skillHeading skill ++ JS.nl ++ SkillDefinition.content skill).
    { unfold Runner.formatSkillAsPrompt, skillHeading.
      set (D := if JS.truthy (SkillDefinition.description skill) then _ else _).
      pose proof (trim_wrapped
        ("# Skill: " ++ SkillDefinition.name skill ++ JS.nl ++ JS.nl ++ D ++ JS.nl)
        (SkillDefinition.content skill) "#" eq_refl Hc) as H.
      unfold JS.nl in H |- *.
      repeat (cbn [append] in H; rewrite ?append_assoc in H).
      repeat (cbn [append]; rewrite ?append_assoc).
      cbn [append] in H |- *. exact H. }
    split; [exact Hf|]. intros basePrompt.
    unfold Runner.augmentPromptWithSkill. now rewrite Hf.
  - intros Hc Hd Hn. unfold Runner.formatSkillAsPrompt. rewrite Hc, Hd.
    cbn [JS.truthy append].
    destruct (endsInText_snoc _ Hn) as (u & c & -> & Hsp).
    etransitivity;
      [exact (trim_lines ("# Skill: " ++ u ++ String c "") "#" eq_refl) |].
    exact (trimEnd_snoc_keep ("## Skill: " ++ u) c Hsp).
Qed.

(** * Concrete runs *)



(** C2, as stated, fails: with a trial count of 0 every task has zero runs,
    the two sums are 0, their quotient is not a number, and the overall pass
    rate returned is 0. *)
Lemma C2_counterexample_no_trials :
  exists r,
    fst (Runner.runExperiment Sample.experiment (Sample.sdkConfig 0)
           "/repo/evals" "/repo" false) = Returns r /\
    Runner.sumZ (map EvalResult.totalRuns (ExperimentResult.evalResults r)) = 0 /\
    ExperimentResult.overallPassRate r = 0%float /\
    ExperimentResult.overallPassRate r <>
      Runner.divide
        (Runner.sumZ (map EvalResult.passedRuns (ExperimentResult.evalResults r)))
        (Runner.sumZ (map EvalResult.totalRuns (ExperimentResult.evalResults r))).
Proof.
  eexists. split; [vm_compute; reflexivity|].
  split; [reflexivity|]. split; [reflexivity|].
  intros H. apply (f_equal PrimFloat.is_nan) in H. vm_compute in H.
  discriminate.
Qed.

(** C2 at work: one task, two trials, one passed. *)
Lemma C2_witness_one_of_two :
  exists r,
    fst (Runner.runExperiment Sample.experiment (Sample.sdkConfig 2)
           "/repo/evals" "/repo" false) = Returns r /\
    ExperimentResult.overallPassRate r = Runner.divide 1 2.
Proof.
  eexists. split; [vm_compute; reflexivity|].
  match goal with |- ExperimentResult.overallPassRate ?r = _ =>
    assert (Hret :
      fst (Runner.runExperiment Sample.experiment (Sample.sdkConfig 2)
             "/repo/evals" "/repo" false) = Returns r)
      by (vm_compute; reflexivity);
    destruct (C2_overall_pass_rate_is_trial_weighted Sample.experiment
                (Sample.sdkConfig 2) "/repo/evals" "/repo" false r Hret)
      as (H1 & _)
  end.
  apply H1. vm_compute. reflexivity.
Defined.

(** C5 at work: the model answers without code. *)
Lemma C5_witness_chatty_model :
  World.copyStarter Sample.chatty = Returns tt /\
  World.claude Sample.chatty = Returns (Sample.chatter, Sample.tokens) /\
  Extractor.parseGeneratedFiles Sample.chatter = [] /\
  fst (Runner.runSDKEval Sample.chatty Sample.task (Sample.sdkConfig 1) None
         "/repo/.workspaces/w" 1) =
    Returns
      (RunResult.Make 1 false 0 1 900
         (Some "No files were generated by the agent")
         (Some Sample.chatter) (Some []) (Some Sample.tokens), Sample.tokens) /\
  forall a b,
    ~ In (RunVitest a b)
        (snd (Runner.runSDKEval Sample.chatty Sample.task (Sample.sdkConfig 1)
                None "/repo/.workspaces/w" 1)).
Proof.
  assert (H1 : World.copyStarter Sample.chatty = Returns tt) by reflexivity.
  assert (H2 : World.claude Sample.chatty = Returns (Sample.chatter, Sample.tokens))
    by reflexivity.
  assert (H3 : Extractor.parseGeneratedFiles Sample.chatter = [])
    by (vm_compute; reflexivity).
  destruct (C5_no_files_is_a_failed_trial Sample.chatty Sample.task
              (Sample.sdkConfig 1) None "/repo/.workspaces/w" 1
              Sample.chatter Sample.tokens H1 H2 H3) as (Hr & _ & Hlog).
  repeat split; try assumption.
Defined.

(** C6 at work: no report on the output, exit code 1. *)
Lemma C6_witness_exit_code_one :
  World.vitest Sample.unreported =
    CheckRunner.Closed (Some 1) "Error: cannot find module" "" /\
  parsedReport (World.JSON_parse Sample.unreported)
    "Error: cannot find module" = None /\
  exists r,
    fst (Runner.runEvalTests Sample.unreported "/repo/.workspaces/w"
           "/evals/add/EVAL.ts") = Returns r /\
    CheckRunner.passed r = false /\
    CheckRunner.testsPassed r = 0 /\
    CheckRunner.testsTotal r = 1.
Proof.
  assert (H1 : World.vitest Sample.unreported =
               CheckRunner.Closed (Some 1) "Error: cannot find module" "")
    by reflexivity.
  assert (H2 : parsedReport (World.JSON_parse Sample.unreported)
                 "Error: cannot find module" = None)
    by (vm_compute; reflexivity).
  destruct (C6_unparsed_report_falls_back_to_exit_code Sample.unreported
              "/repo/.workspaces/w" "/evals/add/EVAL.ts" _ _ _ H1 H2)
    as (r & Hr & Ht & _ & Hnz).
  destruct (Hnz ltac:(discriminate)) as [Hp Hn].
  repeat split; try assumption. exists r. auto.
Defined.

(** C9 at work: trials 1 and 2 started at the same millisecond. *)
Lemma C9_witness_same_tick :
  1 <= 1 /\ 1 <= 2 /\ 1 <> 2 /\
  World.now Sample.aborted = World.now Sample.fine /\
  exists d_1 d_2,
    workspaceOf
      (Runner.trial Sample.aborted true Sample.task (Sample.sdkConfig 2) None
         "/repo" false 1 (Runner.Acc [] (Usage.Make 0 0))) = Some d_1 /\
    workspaceOf
      (Runner.trial Sample.fine true Sample.task (Sample.sdkConfig 2) None
         "/repo" false 2 (Runner.Acc [] (Usage.Make 0 0))) = Some d_2 /\
    d_1 <> d_2 /\
    d_1 = "/repo/.workspaces/add-baseline-run1-1700000000000".
Proof.
  split; [lia|]. split; [lia|]. split; [lia|]. split; [reflexivity|].
  destruct (C9_workspace_paths_are_distinct "/repo" Sample.task
              (Sample.sdkConfig 2) true None false Sample.aborted Sample.fine
              1 2 (Runner.Acc [] (Usage.Make 0 0))
              (Runner.Acc [] (Usage.Make 0 0))
              ltac:(lia) ltac:(lia) ltac:(lia))
    as (d_1 & d_2 & H1 & H2 & Hne & Hd & _).
  exists d_1, d_2. split; [exact H1|]. split; [exact H2|].
  split; [exact Hne|]. rewrite Hd. vm_compute. reflexivity.
Defined.

(** C10 at work: the agent exits with code 2 after writing [math.ts]. *)
Lemma C10_witness_exit_code_two :
  Agent.executeAgent (Sample.agentConfig 1) (World.program Sample.crashing) 60 =
    Some (Agent.Result 2 "partial" "boom" false None) /\
  exists r,
    fst (Runner.trial Sample.crashing false Sample.task (Sample.agentConfig 1)
           None "/repo" false 1 (Runner.Acc [] (Usage.Make 0 0))) =
      Returns (Runner.Acc [r] (Usage.Make 0 0)) /\
    RunResult.passed r = true /\
    RunResult.error r = Some "Agent exited with code 2".
Proof.
  assert (Hexec :
    Agent.executeAgent (Sample.agentConfig 1) (World.program Sample.crashing)
      (ExperimentConfig.timeout (Sample.agentConfig 1)) =
    Some (Agent.Result 2 "partial" "boom" false None))
    by (vm_compute; reflexivity).
  split; [exact Hexec|].
  destruct (C10_agent_failure_does_not_fail_a_passing_trial Sample.crashing
              false Sample.task (Sample.agentConfig 1) None "/repo" false 1
              (Runner.Acc [] (Usage.Make 0 0)) _ "math.ts" []
              eq_refl eq_refl eq_refl eq_refl eq_refl Hexec eq_refl eq_refl
              eq_refl) as (r & Hr & _ & Hp & He & _).
  exists r. split; [exact (Hr eq_refl)|]. split; assumption.
Defined.

(** C4 at work: a documentation comment with a fenced example in it, in a
    response that the first pass reads and in one that it does not. *)
Lemma C4_witness_jsdoc_example :
  (Sample.nestedResponse =
     ("Here is the file:" ++ JS.nl ++ JS.nl) ++
     fenced "typescript" "math.ts" Sample.nestedBody ++
     (JS.nl ++ JS.nl ++ "It adds its arguments.") /\
   JS.includes (" * " ++ Extractor.fence) Sample.nestedBody = true /\
   Extractor.parseGeneratedFiles Sample.nestedResponse =
     [("math.ts", Sample.nestedBody)]) /\
  (Extractor.primaryPass Scenario.pairedResponse = [] /\
   markers Scenario.pairedBody = 2%nat /\
   Extractor.extractCodeBlocksWithNestedBackticks Scenario.pairedResponse =
     [("math.ts", JS.join_lines Scenario.pairedBody)] /\
   Extractor.parseGeneratedFiles Scenario.pairedResponse =
     [("math.ts", JS.join_lines Scenario.pairedBody)]).
Proof.
  destruct C4_nested_fences_do_not_end_the_block as (_ & _ & _ & H & H' & _).
  split.
  - split; [reflexivity|]. split; [reflexivity|].
    exact (H ("Here is the file:" ++ JS.nl ++ JS.nl) "typescript" "math.ts"
             Sample.nestedBody (JS.nl ++ JS.nl ++ "It adds its arguments.")
             eq_refl eq_refl (or_intror (or_introl eq_refl)) eq_refl
             ltac:(discriminate) eq_refl eq_refl eq_refl).
  - assert (Hnone : Extractor.primaryPass Scenario.pairedResponse = [])
      by (vm_compute; reflexivity).
    split; [exact Hnone|]. split; [vm_compute; reflexivity|].
    destruct (H' Scenario.pairedResponse ["Here is the file:"; ""]
                "```typescript" "// math.ts" Scenario.pairedBody "``` " [])
      as [Hscan Hparse].
    + vm_compute. reflexivity.
    + intros l [<-|[<-|[]]]; vm_compute; reflexivity.
    + vm_compute. reflexivity.
    + vm_compute. reflexivity.
    + discriminate.
    + intros l [= <-]. vm_compute. reflexivity.
    + apply Forall_forall.
      repeat constructor.
    + vm_compute. reflexivity.
    + vm_compute. reflexivity.
    + intros l [].
    + split; [exact Hscan|exact (Hparse Hnone)].
Defined.

(** C4, as stated, fails: the documentation comment of this response holds
    one starred fence marker only, and its closing fence is followed by a
    blank, so that the first pass finds no block; in the second pass the
    marker leaves the nesting depth at 1, the closing fence is taken for
    content, and no file is recovered. *)
Lemma C4_counterexample_unpaired_marker :
  JS.split_lines Scenario.unpairedResponse =
    (["Here is the file:"; ""; "```typescript"; "// math.ts"]
     ++ Scenario.unpairedBody ++ ["``` "])%list /\
  filter nestedMarker Scenario.unpairedBody = [" * ```"] /\
  closesBlock "``` " = true /\
  Extractor.primaryPass Scenario.unpairedResponse = [] /\
  Extractor.nestingDepth
    (fold_left Extractor.scan_line (JS.split_lines Scenario.unpairedResponse)
       Extractor.scan0) = 1 /\
  Extractor.extractCodeBlocksWithNestedBackticks Scenario.unpairedResponse = [] /\
  Extractor.parseGeneratedFiles Scenario.unpairedResponse = [].
Proof. repeat split; vm_compute; reflexivity. Qed.



(** X1 at work: an agent that exits with code 0 after three seconds. *)
Lemma X1_witness_idle_agent :
  Agent.executeAgent (Sample.agentConfig 1) Sample.idle 60 =
    Some (Agent.Result 0 "done" "" true None) /\
  Agent.exitsAt Sample.idle = Some (3000, 0) /\
  Agent.signals (Agent.timeline Sample.idle 60) = [].
Proof.
  assert (H : Agent.executeAgent (Sample.agentConfig 1) Sample.idle 60 =
              Some (Agent.Result 0 "done" "" true None))
    by (vm_compute; reflexivity).
  split; [exact H|]. split; [reflexivity|].
  apply (X1_agent_success_is_a_clean_exit _ _ _ _ H eq_refl).
Defined.

(** X2 at work: an agent that hangs until it is told to stop, under a
    time-out of one second, and under one too long for a timer. *)
Lemma X2_witness_hanging_agent :
  Agent.signals (Agent.timeline Scenario.hanging 1) = [(1000, Agent.SIGTERM)] /\
  Agent.signals (Agent.timeline Scenario.hanging 2147484) =
    [(1, Agent.SIGTERM)] /\
  exists r,
    Agent.resolved (Agent.timeline Scenario.hanging 1) = Some r /\
    Agent.success r = false /\
    Agent.stderr r = "" ++ JS.nl ++ "[Agent timed out]".
Proof.
  split; [vm_compute; reflexivity|].
  split.
  - destruct (X2_at_most_one_signal_and_it_is_sigterm Scenario.hanging 2147484)
      as (_ & H & _).
    assert (Hs : exists t s,
              Agent.signals (Agent.timeline Scenario.hanging 2147484) = [(t, s)])
      by (vm_compute; eauto).
    destruct Hs as (t & s & Hs). rewrite Hs in H |- *.
    destruct (H t s (or_introl eq_refl)) as (-> & _ & _ & Hone & _).
    rewrite (Hone ltac:(right; vm_compute; reflexivity)). reflexivity.
  - eexists. split; [vm_compute; reflexivity|].
    destruct (X2_at_most_one_signal_and_it_is_sigterm Scenario.hanging 1)
      as (_ & _ & H).
    apply H; [vm_compute; discriminate | vm_compute; reflexivity].
Defined.

(** X3 at work: the starter files cannot be copied. *)
Lemma X3_witness_starter_files_missing :
  World.copyStarter Scenario.noStarter = Throws "ENOENT: no such file or directory" /\
  Runner.runAgentEval Scenario.noStarter Sample.task (Sample.agentConfig 1)
    "/repo/.workspaces/w" 1 =
    (Returns (RunResult.Make 1 false 0 0 15
                (Some "ENOENT: no such file or directory") None (Some []) None),
     [CopyStarterFiles "/evals/add" "/repo/.workspaces/w"]).
Proof.
  split; [reflexivity|].
  destruct (X3_runAgentEval_never_rejects Scenario.noStarter Sample.task
              (Sample.agentConfig 1) "/repo/.workspaces/w" 1) as (_ & H & _).
  exact (H _ eq_refl).
Defined.

(** X4 at work: a configured skill whose file is missing. *)
Lemma X4_witness_skill_file_missing :
  Runner.hasSkill Scenario.skillConfig = true /\
  World.skillExists Sample.crashing = false /\
  forall a b,
    ~ In (CopySkillFile a b)
        (snd (Runner.runAgentEval Sample.crashing Sample.task Scenario.skillConfig
                "/repo/.workspaces/w" 1)).
Proof.
  split; [reflexivity|]. split; [reflexivity|].
  apply (X4_prompt_names_a_skill_file_that_was_not_copied Sample.crashing Sample.task
           Scenario.skillConfig "/repo/.workspaces/w" 1 eq_refl eq_refl eq_refl).
Defined.

(** X5 at work: the agent exits cleanly and leaves no file. *)
Lemma X5_witness_agent_leaves_no_file :
  World.listFiles Scenario.emptyHanded = Returns [] /\
  (exists r,
     fst (Runner.trial Scenario.emptyHanded false Sample.task
            (Sample.agentConfig 1) None "/repo" false 1
            (Runner.Acc [] (Usage.Make 0 0))) =
       Returns (Runner.Acc [r] (Usage.Make 0 0)) /\
     RunResult.passed r = false /\
     RunResult.error r = Some "No files were generated by the agent") /\
  forall a b,
    ~ In (RunVitest a b)
        (snd (Runner.trial Scenario.emptyHanded false Sample.task
                (Sample.agentConfig 1) None "/repo" false 1
                (Runner.Acc [] (Usage.Make 0 0)))).
Proof.
  split; [reflexivity|].
  assert (H : Agent.executeAgent (Sample.agentConfig 1)
                (World.program Scenario.emptyHanded)
                (ExperimentConfig.timeout (Sample.agentConfig 1)) =
              Some (Agent.Result 0 "done" "" true None))
    by (vm_compute; reflexivity).
  destruct (X5_agent_trial_without_files_is_not_checked Scenario.emptyHanded
              false Sample.task (Sample.agentConfig 1) None "/repo" false 1
              (Runner.Acc [] (Usage.Make 0 0)) _
              eq_refl eq_refl eq_refl eq_refl eq_refl H eq_refl)
    as [(r & Hr & Hp & _ & _ & _ & He & _) Hlog].
  split; [|exact Hlog].
  exists r. split; [exact (Hr eq_refl)|]. split; [exact Hp|exact He].
Defined.

(** X6 at work: the workspace directory cannot be made; and a progress
    callback that throws on the result of the attempt is called twice. *)
Lemma X6_witness_full_disk :
  Runner.trial Scenario.fullDisk true Sample.task (Sample.sdkConfig 1) None
    "/repo" false 1 (Runner.Acc [] (Usage.Make 0 0)) =
  (Throws "ENOSPC: no space left on device",
   [Mkdir "/repo/.workspaces/add-baseline-run1-1700000000000"]) /\
  exists attempted,
    snd (Runner.trial Scenario.noisy true Sample.task (Sample.sdkConfig 1) None
           "/repo" false 1 (Runner.Acc [] (Usage.Make 0 0))) =
    ([Mkdir "/repo/.workspaces/add-baseline-run1-1700000000000"]
     ++ attempted ++ [Progress 1 1; Progress 1 1]
     ++ [RemoveDir "/repo/.workspaces/add-baseline-run1-1700000000000"])%list.
Proof.
  split.
  - destruct (X6_workspace_is_removed_unless_debugging Scenario.fullDisk true
                Sample.task (Sample.sdkConfig 1) None "/repo" false 1
                (Runner.Acc [] (Usage.Make 0 0))) as (_ & _ & H).
    exact (H _ eq_refl).
  - destruct (X6_workspace_is_removed_unless_debugging Scenario.noisy true
                Sample.task (Sample.sdkConfig 1) None "/repo" false 1
                (Runner.Acc [] (Usage.Make 0 0))) as (H & _ & _).
    destruct (H eq_refl ltac:(vm_compute; discriminate))
      as (reports & _ & Hlog & Htwice).
    eexists. rewrite Hlog.
    rewrite (proj2 Htwice); [reflexivity|].
    eexists. exists "EPIPE: broken pipe".
    split; [vm_compute; reflexivity|reflexivity].
Defined.

(** X7 at work: the model answers with a file that cannot be written. *)
Lemma X7_witness_read_only_workspace :
  World.claude Scenario.readOnly = Returns (Sample.nestedResponse, Sample.tokens) /\
  fst (Runner.trial Scenario.readOnly true Sample.task (Sample.sdkConfig 1) None
         "/repo" false 1 (Runner.Acc [] (Usage.Make 0 0))) =
    Returns (Runner.Acc [Runner.thrownResult 1 "EACCES: permission denied"]
               (Usage.Make 0 0)).
Proof.
  split; [reflexivity|].
  assert (H : Extractor.parseGeneratedFiles Sample.nestedResponse =
              [("math.ts", Sample.nestedBody)]) by (vm_compute; reflexivity).
  destruct (X7_tokens_of_a_trial_that_throws_are_not_counted Scenario.readOnly
              Sample.task (Sample.sdkConfig 1) None "/repo" false 1
              (Runner.Acc [] (Usage.Make 0 0)) Sample.nestedResponse Sample.tokens
              "math.ts" Sample.nestedBody [] "EACCES: permission denied"
              eq_refl eq_refl eq_refl eq_refl H eq_refl)
    as (r & Hr & -> & _).
  exact (Hr eq_refl).
Defined.

(** X8 at work: a trial count of zero. *)
Lemma X8_witness_zero_trials :
  ExperimentConfig.runs (Sample.sdkConfig 0) <= 0 /\
  exists r,
    fst (Runner.runEval Sample.mixed true Sample.task (Sample.sdkConfig 0) None
           "/repo" false) = Returns r /\
    PrimFloat.is_nan (EvalResult.avgDurationMs r) = true /\
    PrimFloat.is_nan (EvalResult.passRate r) = true.
Proof.
  assert (H0 : ExperimentConfig.runs (Sample.sdkConfig 0) <= 0) by (cbn; lia).
  split; [exact H0|].
  destruct (X8_no_trial_gives_rates_that_are_not_numbers Sample.mixed true
              Sample.task (Sample.sdkConfig 0) None "/repo" false H0)
    as (_ & r & Hr & _ & _ & _ & _ & Hd & Hp).
  exists r. split; [exact Hr|]. split; [exact Hd|]. apply Hp. reflexivity.
Defined.

(** X9 at work: the disk is full from the second trial on; and a progress
    callback that throws at every call. *)
Lemma X9_witness_disk_fills_up :
  (fst (Runner.runEval Scenario.filling true Sample.task (Sample.sdkConfig 2)
          None "/repo" false) = Throws "ENOSPC: no space left on device" /\
   exists i, 1 <= i <= 2 /\
     World.mkdirWorkspace (Scenario.filling i) =
       Throws "ENOSPC: no space left on device") /\
  (fst (Runner.runEval (fun _ => Scenario.deaf) true Sample.task
          (Sample.sdkConfig 2) None "/repo" false) = Throws "EPIPE: broken pipe" /\
   World.mkdirWorkspace Scenario.deaf = Returns tt /\
   exists i earlier, 1 <= i <= 2 /\
     World.onProgressCaught Scenario.deaf (Runner.thrownResult i earlier) =
       Throws "EPIPE: broken pipe").
Proof.
  split.
  - assert (H : fst (Runner.runEval Scenario.filling true Sample.task
                       (Sample.sdkConfig 2) None "/repo" false) =
                Throws "ENOSPC: no space left on device")
      by (vm_compute; reflexivity).
    split; [exact H|].
    destruct (X9_only_mkdir_or_the_callback_escapes_runEval Scenario.filling
                true Sample.task (Sample.sdkConfig 2) None "/repo" false _ H)
      as (i & Hi & _ & Hquiet & _).
    exists i. split; [exact Hi|]. apply Hquiet.
    unfold Scenario.filling, callbackReturns.
    destruct (i =? 1); split; reflexivity.
  - assert (H : fst (Runner.runEval (fun _ => Scenario.deaf) true Sample.task
                       (Sample.sdkConfig 2) None "/repo" false) =
                Throws "EPIPE: broken pipe")
      by (vm_compute; reflexivity).
    split; [exact H|]. split; [reflexivity|].
    destruct (X9_only_mkdir_or_the_callback_escapes_runEval
                (fun _ => Scenario.deaf) true Sample.task (Sample.sdkConfig 2)
                None "/repo" false _ H)
      as (i & Hi & [Hmk|(_ & earlier & Hcb & _)] & _).
    + discriminate.
    + exists i, earlier. split; [exact Hi|exact Hcb].
Defined.

(** X10 at work: one task, two trials. *)
Lemma X10_witness_one_task :
  exists r,
    fst (Runner.runExperiment Sample.experiment (Sample.sdkConfig 2)
           "/repo/evals" "/repo" false) = Returns r /\
    map EvalResult.evalName (ExperimentResult.evalResults r) = ["add"] /\
    ExperimentResult.experimentName r = "baseline".
Proof.
  eexists. split; [vm_compute; reflexivity|].
  match goal with |- map _ (ExperimentResult.evalResults ?r) = _ /\ _ =>
    assert (Hret :
      fst (Runner.runExperiment Sample.experiment (Sample.sdkConfig 2)
             "/repo/evals" "/repo" false) = Returns r)
      by (vm_compute; reflexivity);
    destruct (X10_experiment_lists_the_selected_tasks_in_order Sample.experiment
                (Sample.sdkConfig 2) "/repo/evals" "/repo" false r Hret)
      as (evals & He & _ & Hn & _ & Hname & _)
  end.
  injection He as <-. split; [exact Hn | exact Hname].
Defined.

(** X11 at work: two baseline results named [add]. *)
Lemma X11_witness_repeated_task_name :
  In (EvalComparison.Make "add" 0.5%float 1%float
        (PrimFloat.sub 1%float 0.5%float) 4 2)
     (ComparisonResult.evalComparisons
        (Compare.compareExperiments Scenario.baselineRun Scenario.skillRun)).
Proof.
  refine (proj1 (X11_the_last_baseline_result_of_a_name_is_compared
           Scenario.baselineRun Scenario.skillRun [Scenario.firstAdd] []
           Scenario.secondAdd Scenario.skilledAdd eq_refl _ _ eq_refl)).
  - intros x [].
  - left. reflexivity.
Defined.

(** X12 at work: the file [../escaped.ts] lands beside the workspace [run1]. *)
Lemma X12_witness_escaped_file :
  Path.join ["/repo/.workspaces" ++ "/" ++ "run1"; "../" ++ "escaped.ts"] =
    "/repo/.workspaces/escaped.ts" /\
  Runner.writeGeneratedFiles Sample.fine ("/repo/.workspaces" ++ "/" ++ "run1")
    [("../" ++ "escaped.ts", "export {}")] =
    (Returns ["../" ++ "escaped.ts"],
     [WriteFile "/repo/.workspaces/escaped.ts" "export {}"]).
Proof.
  apply (X12_a_file_name_with_dot_dot_is_resolved_from_the_parent Sample.fine
           "/repo/.workspaces" "run1" "escaped.ts" "export {}");
    [discriminate | discriminate | reflexivity | reflexivity].
Defined.

(** X13 at work: an answer in plain words. *)
Lemma X13_witness_plain_answer :
  prose Sample.chatter = true /\
  Extractor.parseGeneratedFiles Sample.chatter = [].
Proof.
  assert (H : prose Sample.chatter = true) by (vm_compute; reflexivity).
  split; [exact H|].
  apply (X13_a_response_without_fence_yields_no_file Sample.chatter H).
Defined.

(** X16 at work: the dot of [a.d*] stands for any character, [sub] is compared as text. *)
Lemma X16_witness_dot_is_a_wildcard :
  Selection.filterEvals [Sample.task; Scenario.subtract] ["a.d*"; "sub"] =
    Some [Sample.task].
Proof.
  transitivity
    (Some (filter
             (fun e => existsb (fun p => selects p (EvalDefinition.name e))
                         ["a.d*"; "sub"])
             [Sample.task; Scenario.subtract])); [|vm_compute; reflexivity].
  apply (X16_patterns_select_tasks_as_wildcards [Sample.task; Scenario.subtract]
           ["a.d*"; "sub"]).
  - intros [H|[H|[]]]; discriminate.
  - intros p [<-|[<-|[]]] H; [reflexivity | discriminate].
Defined.

(** X17 at work: the pattern [sub*]. *)
Lemma X17_witness_prefix_pattern :
  plainText "sub" = true /\ plainText "" = true /\
  exists kept,
    Selection.filterEvals [Sample.task; Scenario.subtract] ["sub" ++ "*" ++ ""] =
      Some kept /\
    (In Scenario.subtract kept <->
     In Scenario.subtract [Sample.task; Scenario.subtract] /\
     exists mid,
       EvalDefinition.name Scenario.subtract = "sub" ++ mid ++ "" /\
       JS.all_chars notLineTerminator mid = true).
Proof.
  split; [reflexivity|]. split; [reflexivity|].
  destruct (X17_asterisk_between_prefix_and_suffix [Sample.task; Scenario.subtract]
              "sub" "" eq_refl eq_refl ltac:(discriminate)) as (kept & Hk & _ & Hin).
  exists kept. split; [exact Hk | apply Hin].
Defined.

(** X22 at work: a skill with a description. *)
Lemma X22_witness_described_skill :
  endsInText (SkillDefinition.content Scenario.baseUi) = true /\
  Runner.formatSkillAsPrompt Scenario.baseUi =
    skillHeading Scenario.baseUi ++ JS.nl ++ "Use the Button.".
Proof.
  split; [reflexivity|].
  destruct (X22_the_skill_prompt_is_heading_description_and_content Scenario.baseUi)
    as (H & _).
  exact (proj1 (H eq_refl)).
Defined.

(** X23 at work: [--runs -3]. *)
Lemma X23_witness_negative_trial_count :
  exists options warnings,
    Cli.parseArgs ["--runs"; JS.numToString (-3)] None =
      Cli.Parsed options warnings /\
    Cli.runs options = Some (Cli.Num (-3)) /\
    ExperimentConfig.runs (Cli.overrideRuns options (Sample.sdkConfig 5)) = -3.
Proof.
  apply (X23_the_trial_count_option_reads_any_integer_but_zero (-3) None
           (Sample.sdkConfig 5)).
  lia.
Defined.

(** X18 at work: a directory [notes/] without [EVAL.ts] beside a complete one. *)
Lemma X18_witness_directory_without_checks :
  Discovery.discoverEvals Scenario.evalsTree "/evals" =
    Returns [EvalDefinition.Make "add" "/evals/add/" "Create math.ts exporting add."
               "/evals/add/EVAL.ts"] /\
  map EvalDefinition.path
    [EvalDefinition.Make "add" "/evals/add/" "Create math.ts exporting add."
       "/evals/add/EVAL.ts"] =
  map (fun d => Path.join ["/evals"; d])
    (filter (complete Scenario.evalsTree "/evals") ["add/"; "notes/"]).
Proof.
  assert (H : Discovery.discoverEvals Scenario.evalsTree "/evals" =
              Returns [EvalDefinition.Make "add" "/evals/add/"
                         "Create math.ts exporting add." "/evals/add/EVAL.ts"])
    by (vm_compute; reflexivity).
  split; [exact H|].
  destruct (X18_discovered_tasks_have_both_files Scenario.evalsTree "/evals" _ H)
    as (dirs & Hd & Hp & _).
  injection Hd as <-. exact Hp.
Defined.

(** X15 at work: a report between a banner and a closing line. *)
Lemma X15_witness_report_between_banners :
  parsedReport Scenario.parseReport
    ("RUN v1 " ++ "{" ++ (reportMarker ++ ":[]") ++ "}" ++ " Done") =
  Some Scenario.emptyReport.
Proof.
  destruct (X15_the_report_runs_from_the_first_brace_to_the_last Scenario.parseReport)
    as (H & _).
  exact (H "RUN v1 " (reportMarker ++ ":[]") " Done" eq_refl eq_refl eq_refl).
Defined.


(** X20 at work: a front matter whose [name] is a number. *)
Lemma X20_witness_name_is_a_number :
  exists sk,
    SkillLoader.loadSkill Scenario.numberedName "skills/base-ui/SKILL.md" =
      Returns (sk, SkillLoader.YMap [("name", SkillLoader.YOther)]) /\
    SkillDefinition.name sk = "unnamed-skill" /\
    SkillDefinition.content sk = JS.trim " Use the Button. ".
Proof.
  destruct (X20_a_skill_file_loads_with_defaults Scenario.numberedName
              "skills/base-ui/SKILL.md") as (_ & _ & _ & H).
  apply (H "name: 3" " Use the Button. " [("name", SkillLoader.YOther)]
           eq_refl eq_refl eq_refl eq_refl).
  - discriminate.
  - intros s. discriminate.
Defined.

(** X21 at work: an empty front matter. *)
Lemma X21_witness_empty_front_matter :
  SkillLoader.parseYaml Scenario.emptyFrontMatter "" = Some SkillLoader.YNull /\
  exists msg,
    SkillLoader.loadSkill Scenario.emptyFrontMatter "skills/base-ui/SKILL.md" =
      Throws msg.
Proof.
  split; [reflexivity|].
  apply (X21_an_empty_yaml_document_fails_the_load Scenario.emptyFrontMatter
           "skills/base-ui/SKILL.md" "" "Use the Button."
           eq_refl eq_refl eq_refl eq_refl).
Defined.

(** X14 at work: an answer cut off inside its only block. *)
Lemma X14_witness_truncated_answer :
  Extractor.parseGeneratedFiles
    (("Here it is:" ++ JS.nl) ++ Extractor.fence ++
     ("ts" ++ JS.nl ++ "// math.ts" ++ JS.nl ++ "export const a = 1;")) = [].
Proof.
  apply (X14_an_unclosed_fence_yields_no_file ("Here it is:" ++ JS.nl)
           ("ts" ++ JS.nl ++ "// math.ts" ++ JS.nl ++ "export const a = 1;"));
    vm_compute; reflexivity.
Defined.
